(** * The asset chaincode: a shallow embedding and its properties

    The contract of [myassetchaincode.go] keeps one JSON document per
    subscriber (MSISDN) in the world state of a Fabric channel.  The
    development follows the layers of the program:

    - [error], [result], [Tx]: Go's [(value, error)] returns and the world
      state threaded through one invocation;
    - [TransactionContext], [GetState], [PutState], [GetTxTimestamp]: the
      stub the contract is handed by the platform;
    - [strconv], [utf8], [time], [ptypes], [json]: the library functions the
      contract calls, as far as their behaviour is observable through it;
    - [InitLedger], [CreateAsset], [UpdateAsset], [ReadAsset],
      [AssetExists]: the contract itself. *)

From Stdlib Require Import ZArith NArith String Ascii List Lia Bool.
From stdpp Require Import base option gmap strings.

Local Open Scope string_scope.
Local Open Scope Z_scope.

(** ** Errors and results *)

(** The contract builds its errors with [fmt.Errorf]; each call site is a
    constructor, named after the failure it reports, and carries what the
    format string interpolates.  [ErrPlatform] stands for an error value made
    outside the contract (stub, [encoding/json], [strconv], [ptypes]). *)
Inductive error : Type :=
| ErrPlatform (msg : string)
| NumError (func num : string) (range : bool)  (* strconv.NumError: ErrSyntax, or ErrRange *)
| StoreReadError (cause : error)        (* failed to read from world state: %v *)
| NotFound (msisdn : string)            (* asset with MSISDN %s does not exist *)
| DeserializationError (cause : error)  (* error unmarshalling asset: %v *)
| ExistenceCheckFailed (cause : error)  (* error checking asset existence: %v *)
| AlreadyExists (msisdn : string)       (* asset with MSISDN %s already exists *)
| TxTimestampError (cause : error)      (* error getting transaction timestamp: %v *)
| TimestampError (cause : error)        (* error converting timestamp: %v *)
| SerializationError (cause : error)    (* error marshalling asset: %v *)
| ReadFailed (cause : error)            (* error reading asset: %v *)
| InvalidBalanceFormat (cause : error)  (* error converting newBalanceStr to integer: %v *)
| StoreWriteError (cause : error).      (* failed to put to world state: %v *)

Inductive result (A : Type) : Type :=
| Ok (a : A)
| Err (e : error).
Arguments Ok {A} a.
Arguments Err {A} e.

(** ** Machine integers *)

(** Go's [int] on the 64-bit platforms Fabric runs on. *)
Definition minInt : Z := - 2 ^ 63.
Definition maxInt : Z := 2 ^ 63 - 1.

Definition is_int (z : Z) : bool := (minInt <=? z) && (z <=? maxInt).

(** Two's complement wrap-around of an [int] result. *)
Definition wrap_int (z : Z) : Z := (z + 2 ^ 63) mod 2 ^ 64 - 2 ^ 63.

Definition int_sub (a b : Z) : Z := wrap_int (a - b).

(** ** Octets

    A Go [string] and a [[]byte] are both sequences of octets; both are
    [string] here, an [ascii] being one octet. *)

Definition byte (c : ascii) : Z := Z.of_N (N_of_ascii c).
Definition chr (z : Z) : ascii := ascii_of_N (Z.to_N z).

(** [s[n:]] for [n <= len(s)]. *)
Fixpoint skip (n : nat) (s : string) : string :=
  match n, s with
  | S n', String _ t => skip n' t
  | _, _ => s
  end.

Definition quote : ascii := "034"%char.
Definition backslash : ascii := "092"%char.

(** ** Package strconv *)

Module strconv.

Definition isDigit (c : ascii) : bool := (48 <=? byte c) && (byte c <=? 57).

Definition maxUint64 : Z := 2 ^ 64 - 1.

(** The smallest number such that [cutoff * 10 > maxUint64]. *)
Definition cutoff : Z := maxUint64 / 10 + 1.

(** The loop of [ParseUint] in base 10 on a [uint64]: the value, or the
    error it stops with, [inl false] for [ErrSyntax] on the first octet
    that is not a decimal digit and [inl true] for [ErrRange] on the first
    digit that makes the value overflow, whichever comes first. *)
Fixpoint parseDigits (s : string) (n : Z) : bool + Z :=
  match s with
  | "" => inr n
  | String c t =>
      if isDigit c then
        if cutoff <=? n then inl true
        else
          let n10 := n * 10 in
          let n1 := (n10 + (byte c - 48)) mod 2 ^ 64 in
          if (n1 <? n10) || (maxUint64 <? n1) then inl true
          else parseDigits t n1
      else inl false
  end.

(** [ParseInt(s, 10, 64)]: an optional sign, at least one digit, nothing
    else, and a value that fits an [int64]. *)
Definition ParseInt (func s : string) : result Z :=
  match s with
  | "" => Err (NumError func s false)
  | String c t =>
      let neg := Ascii.eqb c "-" in
      let ds := if neg || Ascii.eqb c "+" then t else s in
      match ds with
      | "" => Err (NumError func s false)
      | _ =>
          match parseDigits ds 0 with
          | inl range => Err (NumError func s range)
          | inr un =>
              if negb neg && (2 ^ 63 <=? un) then Err (NumError func s true)
              else if neg && (2 ^ 63 <? un) then Err (NumError func s true)
              else Ok (if neg then - un else un)
          end
      end
  end.

(** [Atoi(s)] is [ParseInt(s, 10, 0)] converted to [int]; its fast path
    for short inputs computes the same value. *)
Definition Atoi (s : string) : result Z := ParseInt "Atoi" s.

(** [formatBits] in base 10: the digits of [u], least significant first,
    pushed in front of [acc]. *)
Fixpoint formatBits (fuel : nat) (u : Z) (acc : string) : string :=
  match fuel with
  | O => String (chr (48 + u mod 10)) acc
  | S fuel' =>
      if u <? 10 then String (chr (48 + u)) acc
      else formatBits fuel' (u / 10) (String (chr (48 + u mod 10)) acc)
  end.

(** [FormatInt(i, 10)], as [AppendInt] writes it. *)
Definition FormatInt (i : Z) : string :=
  if i <? 0 then String "-" (formatBits (Z.to_nat (Z.log2 (- i))) (- i) "")
  else formatBits (Z.to_nat (Z.log2 i)) i "".

End strconv.

(** ** Package unicode/utf8 *)

Module utf8.

Definition RuneError : Z := 0xFFFD.
Definition RuneSelf : Z := 0x80.
Definition MaxRune : Z := 0x10FFFF.

(** The table [first] with [acceptRanges]: for a leading octet, the
    length of the encoding it starts and the range its second octet must
    lie in; [None] for the octets that start no encoding. *)
Definition first (s0 : Z) : option (nat * Z * Z) :=
  if s0 <? 0xC2 then None
  else if s0 <? 0xE0 then Some (2%nat, 0x80, 0xBF)
  else if s0 =? 0xE0 then Some (3%nat, 0xA0, 0xBF)
  else if s0 =? 0xED then Some (3%nat, 0x80, 0x9F)
  else if s0 <? 0xF0 then Some (3%nat, 0x80, 0xBF)
  else if s0 =? 0xF0 then Some (4%nat, 0x90, 0xBF)
  else if s0 <? 0xF4 then Some (4%nat, 0x80, 0xBF)
  else if s0 =? 0xF4 then Some (4%nat, 0x80, 0x8F)
  else None.

(** A continuation octet, [locb <= b <= hicb]. *)
Definition cont (b : Z) : bool := (0x80 <=? b) && (b <=? 0xBF).

(** [DecodeRuneInString(s)]: the first rune of [s] and its width; an
    octet that starts no well-formed encoding is [(RuneError, 1)]. *)
Definition DecodeRuneInString (s : string) : Z * nat :=
  match s with
  | "" => (RuneError, 0%nat)
  | String c0 t =>
      let s0 := byte c0 in
      if s0 <? RuneSelf then (s0, 1%nat)
      else
        match first s0, t with
        | Some (sz, lo, hi), String c1 t1 =>
            let s1 := byte c1 in
            if (s1 <? lo) || (hi <? s1) then (RuneError, 1%nat)
            else if (sz <=? 2)%nat then
              (Z.lor (Z.shiftl (Z.land s0 0x1F) 6) (Z.land s1 0x3F), 2%nat)
            else
              match t1 with
              | String c2 t2 =>
                  let s2 := byte c2 in
                  if negb (cont s2) then (RuneError, 1%nat)
                  else if (sz <=? 3)%nat then
                    (Z.lor (Z.lor (Z.shiftl (Z.land s0 0x0F) 12)
                                  (Z.shiftl (Z.land s1 0x3F) 6))
                           (Z.land s2 0x3F), 3%nat)
                  else
                    match t2 with
                    | String c3 _ =>
                        let s3 := byte c3 in
                        if negb (cont s3) then (RuneError, 1%nat)
                        else
                          (Z.lor (Z.lor (Z.lor (Z.shiftl (Z.land s0 0x07) 18)
                                               (Z.shiftl (Z.land s1 0x3F) 12))
                                        (Z.shiftl (Z.land s2 0x3F) 6))
                                 (Z.land s3 0x3F), 4%nat)
                    | "" => (RuneError, 1%nat)
                    end
              | "" => (RuneError, 1%nat)
              end
        | _, _ => (RuneError, 1%nat)
        end
  end.

(** [AppendRune]/[EncodeRune]: the UTF-8 encoding of [r]; surrogates and
    values past [MaxRune] are encoded as [RuneError]. *)
Definition encode3 (r : Z) : string :=
  String (chr (Z.lor 0xE0 (Z.shiftr r 12)))
 (String (chr (Z.lor 0x80 (Z.land (Z.shiftr r 6) 0x3F)))
 (String (chr (Z.lor 0x80 (Z.land r 0x3F))) "")).

Definition EncodeRune (r : Z) : string :=
  if (0 <=? r) && (r <=? 0x7F) then String (chr r) ""
  else if (0 <=? r) && (r <=? 0x7FF) then
    String (chr (Z.lor 0xC0 (Z.shiftr r 6)))
   (String (chr (Z.lor 0x80 (Z.land r 0x3F))) "")
  else if (r <? 0) || (MaxRune <? r) || ((0xD800 <=? r) && (r <=? 0xDFFF)) then
    encode3 RuneError
  else if r <=? 0xFFFF then encode3 r
  else
    String (chr (Z.lor 0xF0 (Z.shiftr r 18)))
   (String (chr (Z.lor 0x80 (Z.land (Z.shiftr r 12) 0x3F)))
   (String (chr (Z.lor 0x80 (Z.land (Z.shiftr r 6) 0x3F)))
   (String (chr (Z.lor 0x80 (Z.land r 0x3F))) ""))).

(** [ValidString(s)]: every rune of [s] is well formed. *)
Fixpoint validFuel (fuel : nat) (s : string) : bool :=
  match fuel, s with
  | _, "" => true
  | O, _ => false
  | S fuel', String c0 _ =>
      let '(r, size) := DecodeRuneInString s in
      if (RuneSelf <=? byte c0) && (size =? 1)%nat then false
      else validFuel fuel' (skip size s)
  end.

Definition ValidString (s : string) : bool := validFuel (String.length s) s.

End utf8.

(** [s[:n]] for [n <= len(s)]. *)
Fixpoint take_prefix (n : nat) (s : string) : string :=
  match n, s with
  | S n', String c t => String c (take_prefix n' t)
  | _, _ => ""
  end.

(** ** Package encoding/json: strings *)

Module jsonstring.

(** [htmlSafeSet]: the ASCII octets written as they are. *)
Definition htmlSafe (b : Z) : bool :=
  (0x20 <=? b) && (b <? 0x80) &&
  negb ((b =? 34) || (b =? 38) || (b =? 60) || (b =? 62) || (b =? 92)).

Definition hex (d : Z) : ascii :=
  if d <? 10 then chr (48 + d) else chr (87 + d).

(** The escape of an ASCII octet outside [htmlSafeSet].  (Releases before
    Go 1.22 write backspace and form feed as [\u0008] and [\u000c]; both
    forms read back as the same octet.) *)
Definition escape (b : Z) : string :=
  if (b =? 92) || (b =? 34) then String backslash (String (chr b) "")
  else if b =? 8 then String backslash "b"
  else if b =? 12 then String backslash "f"
  else if b =? 10 then String backslash "n"
  else if b =? 13 then String backslash "r"
  else if b =? 9 then String backslash "t"
  else String backslash
         (String "u" (String "0" (String "0"
           (String (hex (Z.shiftr b 4)) (String (hex (Z.land b 0xF)) ""))))).

(** The loop of [appendString] with [escapeHTML] set: what is written
    between the two quotes. *)
Fixpoint appendBody (fuel : nat) (src : string) : string :=
  match fuel, src with
  | _, "" => ""
  | O, _ => ""
  | S fuel', String c t =>
      let b := byte c in
      if b <? utf8.RuneSelf then
        (if htmlSafe b then String c "" else escape b) +:+ appendBody fuel' t
      else
        let '(r, size) := utf8.DecodeRuneInString src in
        if (r =? utf8.RuneError) && (size =? 1)%nat then
          String backslash "ufffd" +:+ appendBody fuel' (skip size src)
        else if (r =? 0x2028) || (r =? 0x2029) then
          String backslash (String "u" (String "2" (String "0" (String "2"
            (String (hex (Z.land r 0xF)) "")))))
            +:+ appendBody fuel' (skip size src)
        else take_prefix size src +:+ appendBody fuel' (skip size src)
  end.

Definition appendString (src : string) : string :=
  String quote (appendBody (String.length src) src +:+ String quote "").

(** What a string field holds after a round trip: each octet that starts
    no well-formed encoding has become U+FFFD. *)
Fixpoint coerceFuel (fuel : nat) (s : string) : string :=
  match fuel, s with
  | _, "" => ""
  | O, _ => ""
  | S fuel', String c t =>
      let '(r, size) := utf8.DecodeRuneInString s in
      if (utf8.RuneSelf <=? byte c) && (size =? 1)%nat then
        utf8.EncodeRune utf8.RuneError +:+ coerceFuel fuel' t
      else take_prefix size s +:+ coerceFuel fuel' (skip size s)
  end.

Definition toValidUTF8 (s : string) : string := coerceFuel (String.length s) s.

Definition hexval (c : ascii) : option Z :=
  let b := byte c in
  if (48 <=? b) && (b <=? 57) then Some (b - 48)
  else if (97 <=? b) && (b <=? 102) then Some (b - 97 + 10)
  else if (65 <=? b) && (b <=? 70) then Some (b - 65 + 10)
  else None.

(** [getu4] past the two octets [\u]: the value of four hex digits. *)
Definition hex4 (s : string) : option Z :=
  match s with
  | String c1 (String c2 (String c3 (String c4 _))) =>
      match hexval c1, hexval c2, hexval c3, hexval c4 with
      | Some d1, Some d2, Some d3, Some d4 =>
          Some (((d1 * 16 + d2) * 16 + d3) * 16 + d4)
      | _, _, _, _ => None
      end
  | _ => None
  end.

Definition getu4 (s : string) : option Z :=
  match s with
  | String c0 (String c1 t) =>
      if Ascii.eqb c0 backslash && Ascii.eqb c1 "u" then hex4 t else None
  | _ => None
  end.

(** [utf16.IsSurrogate] and [utf16.DecodeRune]. *)
Definition IsSurrogate (r : Z) : bool := (0xD800 <=? r) && (r <? 0xE000).

Definition DecodeRune16 (r1 r2 : Z) : Z :=
  if (0xD800 <=? r1) && (r1 <? 0xDC00) && (0xDC00 <=? r2) && (r2 <? 0xE000)
  then Z.lor (Z.shiftl (r1 - 0xD800) 10) (r2 - 0xDC00) + 0x10000
  else utf8.RuneError.

(** The octet a two-octet escape stands for. *)
Definition unescape (e : ascii) : option ascii :=
  let b := byte e in
  if (b =? 34) || (b =? 92) || (b =? 47) then Some e
  else if b =? 98 then Some (chr 8)
  else if b =? 102 then Some (chr 12)
  else if b =? 110 then Some (chr 10)
  else if b =? 114 then Some (chr 13)
  else if b =? 116 then Some (chr 9)
  else None.

Definition prepend (p : string) (r : option (string * string)) :
    option (string * string) :=
  match r with
  | Some (v, rest) => Some (p +:+ v, rest)
  | None => None
  end.

(** The string literal scanned and unquoted, from behind its opening
    quote: the value and the input behind the closing quote.  An
    unescaped control octet, an unknown escape or a missing closing quote
    is an error. *)
Fixpoint unquoteBody (fuel : nat) (s : string) : option (string * string) :=
  match fuel, s with
  | O, _ => None
  | _, "" => None
  | S fuel', String c t =>
      let b := byte c in
      if b =? 34 then Some ("", t)
      else if b =? 92 then
        match t with
        | "" => None
        | String e t' =>
            if byte e =? 117 then
              match hex4 t' with
              | None => None
              | Some rr =>
                  if IsSurrogate rr then
                    match getu4 (skip 4 t') with
                    | Some rr1 =>
                        if DecodeRune16 rr rr1 =? utf8.RuneError then
                          prepend (utf8.EncodeRune utf8.RuneError)
                                  (unquoteBody fuel' (skip 4 t'))
                        else
                          prepend (utf8.EncodeRune (DecodeRune16 rr rr1))
                                  (unquoteBody fuel' (skip 10 t'))
                    | None =>
                        prepend (utf8.EncodeRune utf8.RuneError)
                                (unquoteBody fuel' (skip 4 t'))
                    end
                  else prepend (utf8.EncodeRune rr) (unquoteBody fuel' (skip 4 t'))
              end
            else
              match unescape e with
              | Some ch => prepend (String ch "") (unquoteBody fuel' t')
              | None => None
              end
        end
      else if b <? 0x20 then None
      else if b <? utf8.RuneSelf then prepend (String c "") (unquoteBody fuel' t)
      else
        let '(rr, size) := utf8.DecodeRuneInString s in
        prepend (utf8.EncodeRune rr) (unquoteBody fuel' (skip size s))
  end.

(** A string literal at the head of [s]. *)
Definition readString (s : string) : option (string * string) :=
  match s with
  | String c t => if byte c =? 34 then unquoteBody (String.length t) t else None
  | "" => None
  end.

End jsonstring.

(** ** Package time

    Every [time.Time] the contract handles is a UTC instant: the zero value
    of the seed records, and what [ptypes.Timestamp] returns.  A [Time] is
    such an instant, counted as Go counts it internally: seconds since
    January 1 of year 1, 00:00:00 UTC, and nanoseconds within the second. *)

Module time.

Record Time : Type := mkTime { seconds : Z; nanos : Z }.

(** [time.Time{}], January 1 of year 1. *)
Definition zero : Time := mkTime 0 0.

Definition secondsPerDay : Z := 86400.
Definition unixToInternal : Z := (1969 * 365 + 1969 / 4 - 1969 / 100 + 1969 / 400) * secondsPerDay.

(** [time.Unix(sec, nsec)], with [nsec] brought into [0, 1e9). *)
Definition Unix (sec nsec : Z) : Time :=
  mkTime (sec + nsec / 1000000000 + unixToInternal) (nsec mod 1000000000).

Definition isLeap (year : Z) : bool :=
  (year mod 4 =? 0) && (negb (year mod 100 =? 0) || (year mod 400 =? 0)).

Definition daysIn (leap : bool) (month : Z) : Z :=
  if month =? 2 then (if leap then 29 else 28)
  else if (month =? 4) || (month =? 6) || (month =? 9) || (month =? 11) then 30
  else 31.

(** The year a day falls in and the day within that year, both counted
    from zero at January 1 of year 1, by cycles of 400, 100, 4 and 1
    years. *)
Definition yearDay (d : Z) : Z * Z :=
  let n400 := d / 146097 in
  let d := d mod 146097 in
  let n100 := Z.min (d / 36524) 3 in
  let d := d - 36524 * n100 in
  let n4 := d / 1461 in
  let d := d mod 1461 in
  let n1 := Z.min (d / 365) 3 in
  let d := d - 365 * n1 in
  (400 * n400 + 100 * n100 + 4 * n4 + n1 + 1, d).

(** Month and day of the month of the [yday]-th day of a year. *)
Fixpoint monthDay (leap : bool) (fuel : nat) (month yday : Z) : Z * Z :=
  match fuel with
  | O => (month, yday + 1)
  | S fuel' =>
      if yday <? daysIn leap month then (month, yday + 1)
      else monthDay leap fuel' (month + 1) (yday - daysIn leap month)
  end.

Definition Year (t : Time) : Z := fst (yearDay (seconds t / secondsPerDay)).

(** Days from January 1 of year 1 to January 1 of [year]. *)
Definition daysBeforeYear (year : Z) : Z :=
  let y := year - 1 in 365 * y + y / 4 - y / 100 + y / 400.

Fixpoint daysBefore (leap : bool) (fuel : nat) (month : Z) : Z :=
  match fuel with
  | O => 0
  | S fuel' => daysIn leap (month - 1) + daysBefore leap fuel' (month - 1)
  end.

(** [time.Date(year, month, day, hour, min, sec, nsec, time.UTC)] for
    fields within their ranges. *)
Definition Date (year month day hour min sec nsec : Z) : Time :=
  mkTime ((daysBeforeYear year
           + daysBefore (isLeap year) (Z.to_nat (month - 1)) month
           + (day - 1)) * secondsPerDay
          + hour * 3600 + min * 60 + sec)
         nsec.

Definition digits2 (n : Z) : string :=
  String (chr (48 + n / 10)) (String (chr (48 + n mod 10)) "").

Definition digits4 (n : Z) : string := digits2 (n / 100) +:+ digits2 (n mod 100).

(** The fraction of a second to nine places, trailing zeros removed. *)
Fixpoint fraction (places : nat) (n : Z) : string :=
  match places with
  | O => ""
  | S p =>
      if n =? 0 then ""
      else String (chr (48 + n / 10 ^ Z.of_nat p)) (fraction p (n mod 10 ^ Z.of_nat p))
  end.

(** [t.AppendFormat(b, RFC3339Nano)] for a UTC instant. *)
Definition formatRFC3339Nano (t : Time) : string :=
  let day := seconds t / secondsPerDay in
  let clock := seconds t mod secondsPerDay in
  let '(year, yday) := yearDay day in
  let '(month, mday) := monthDay (isLeap year) 11 1 yday in
  digits4 year +:+ "-" +:+ digits2 month +:+ "-" +:+ digits2 mday +:+ "T"
    +:+ digits2 (clock / 3600) +:+ ":" +:+ digits2 (clock mod 3600 / 60) +:+ ":"
    +:+ digits2 (clock mod 60)
    +:+ (if nanos t =? 0 then "" else String "." (fraction 9 (nanos t)))
    +:+ "Z".

(** [t.MarshalJSON()]. *)
Definition MarshalJSON (t : Time) : result string :=
  let y := Year t in
  if (y <? 0) || (10000 <=? y) then
    Err (ErrPlatform "Time.MarshalJSON: year outside of range [0,9999]")
  else Ok (String quote (formatRFC3339Nano t +:+ String quote "")).

Definition num2 (c1 c2 : ascii) : option Z :=
  if strconv.isDigit c1 && strconv.isDigit c2
  then Some ((byte c1 - 48) * 10 + (byte c2 - 48)) else None.

(** Up to [places] digits of a fraction of a second, in nanoseconds. *)
Fixpoint parseFraction (places : nat) (s : string) : Z * string :=
  match places, s with
  | S p, String c t =>
      if strconv.isDigit c then
        let '(v, rest) := parseFraction p t in
        ((byte c - 48) * 10 ^ Z.of_nat p + v, rest)
      else (0, s)
  | _, _ => (0, s)
  end.

(** A UTC instant in RFC 3339 notation at the head of [s], as
    [formatRFC3339Nano] writes it: zone [Z], at most nine digits of
    fraction, the fields checked as [time.Parse] checks them. *)
Definition parseRFC3339 (s : string) : option (Time * string) :=
  match s with
  | String y1 (String y2 (String y3 (String y4 (String p1
    (String m1 (String m2 (String p2
    (String d1 (String d2 (String p3
    (String h1 (String h2 (String p4
    (String i1 (String i2 (String p5
    (String s1 (String s2 t)))))))))))))))))) =>
      match num2 y1 y2, num2 y3 y4, num2 m1 m2, num2 d1 d2,
            num2 h1 h2, num2 i1 i2, num2 s1 s2 with
      | Some yh, Some yl, Some month, Some day, Some hour, Some min, Some sec =>
          let year := yh * 100 + yl in
          if Ascii.eqb p1 "-" && Ascii.eqb p2 "-" && Ascii.eqb p3 "T"
             && Ascii.eqb p4 ":" && Ascii.eqb p5 ":"
             && (1 <=? month) && (month <=? 12)
             && (1 <=? day) && (day <=? daysIn (isLeap year) month)
             && (hour <? 24) && (min <? 60) && (sec <? 60)
          then
            let '(nsec, t') :=
              match t with
              | String dot (String c f) =>
                  if Ascii.eqb dot "." && strconv.isDigit c
                  then parseFraction 9 (String c f) else (0, t)
              | _ => (0, t)
              end in
            match t' with
            | String z rest =>
                if Ascii.eqb z "Z"
                then Some (Date year month day hour min sec nsec, rest)
                else None
            | "" => None
            end
          else None
      | _, _, _, _, _, _, _ => None
      end
  | _ => None
  end.

(** [t.UnmarshalJSON(data)] on a quoted UTC instant at the head of [s]. *)
Definition readTime (s : string) : option (Time * string) :=
  match s with
  | String q t =>
      if byte q =? 34 then
        match parseRFC3339 t with
        | Some (tm, String q' rest) => if byte q' =? 34 then Some (tm, rest) else None
        | _ => None
        end
      else None
  | "" => None
  end.

End time.

(** ** Package ptypes *)

Module ptypes.

(** [timestamp.Timestamp], the protobuf message. *)
Record Timestamp_pb : Type := mkTimestamp { Seconds : Z; Nanos : Z }.

Definition minValidSeconds : Z := -62135596800.
Definition maxValidSeconds : Z := 253402300800.

(** [ptypes.Timestamp(ts)]: the instant of a valid message; [nil], seconds
    before year 1 or from year 10000 on, and nanoseconds outside a second
    are errors. *)
Definition Timestamp (ts : option Timestamp_pb) : result time.Time :=
  match ts with
  | None => Err (ErrPlatform "timestamp: nil Timestamp")
  | Some ts =>
      if Seconds ts <? minValidSeconds then Err (ErrPlatform "timestamp: before 0001-01-01")
      else if maxValidSeconds <=? Seconds ts then Err (ErrPlatform "timestamp: after 10000-01-01")
      else if (Nanos ts <? 0) || (1000000000 <=? Nanos ts)
      then Err (ErrPlatform "timestamp: nanos not in range [0, 1e9)")
      else Ok (time.Unix (Seconds ts) (Nanos ts))
  end.

End ptypes.

(** ** The record *)

(** [type Asset struct], with the fields and JSON names of the source. *)
Record Asset : Type := mkAsset {
  DealerID : string;
  MSISDN : string;
  MPIN : string;
  Balance : Z;
  Status : string;
  TransAmount : Z;
  TransType : string;
  Remarks : string;
  Timestamp : time.Time
}.

(** Assignments to one field, [asset.F = v]. *)
Definition set_Balance (v : Z) (a : Asset) : Asset :=
  mkAsset (DealerID a) (MSISDN a) (MPIN a) v (Status a) (TransAmount a)
          (TransType a) (Remarks a) (Timestamp a).
Definition set_Status (v : string) (a : Asset) : Asset :=
  mkAsset (DealerID a) (MSISDN a) (MPIN a) (Balance a) v (TransAmount a)
          (TransType a) (Remarks a) (Timestamp a).
Definition set_TransAmount (v : Z) (a : Asset) : Asset :=
  mkAsset (DealerID a) (MSISDN a) (MPIN a) (Balance a) (Status a) v
          (TransType a) (Remarks a) (Timestamp a).
Definition set_TransType (v : string) (a : Asset) : Asset :=
  mkAsset (DealerID a) (MSISDN a) (MPIN a) (Balance a) (Status a) (TransAmount a)
          v (Remarks a) (Timestamp a).
Definition set_Remarks (v : string) (a : Asset) : Asset :=
  mkAsset (DealerID a) (MSISDN a) (MPIN a) (Balance a) (Status a) (TransAmount a)
          (TransType a) v (Timestamp a).
Definition set_Timestamp (v : time.Time) (a : Asset) : Asset :=
  mkAsset (DealerID a) (MSISDN a) (MPIN a) (Balance a) (Status a) (TransAmount a)
          (TransType a) (Remarks a) v.

(** ** Package encoding/json: the record on the wire *)

(** What the contract needs of [encoding/json]: [json.Marshal(asset)] and
    [json.Unmarshal(data, &asset)] into a fresh [Asset].  The contract is
    written against this interface; [json.encoding] below is the instance
    for the wire shape of the record. *)
Class Codec : Type := {
  Marshal : Asset -> result string;
  Unmarshal : string -> result Asset
}.

Module json.

Definition key (name : string) : string :=
  String quote (name +:+ String quote ":").

(** [json.Marshal] of an [Asset]: one object, the members in the order of
    the fields, no white space.  The only failure is that of
    [Time.MarshalJSON]. *)
Definition marshal (a : Asset) : result string :=
  match time.MarshalJSON (Timestamp a) with
  | Err e => Err e
  | Ok ts =>
      Ok ("{" +:+ key "DealerID" +:+ jsonstring.appendString (DealerID a)
          +:+ "," +:+ key "MSISDN" +:+ jsonstring.appendString (MSISDN a)
          +:+ "," +:+ key "MPIN" +:+ jsonstring.appendString (MPIN a)
          +:+ "," +:+ key "Balance" +:+ strconv.FormatInt (Balance a)
          +:+ "," +:+ key "Status" +:+ jsonstring.appendString (Status a)
          +:+ "," +:+ key "TransAmount" +:+ strconv.FormatInt (TransAmount a)
          +:+ "," +:+ key "TransType" +:+ jsonstring.appendString (TransType a)
          +:+ "," +:+ key "Remarks" +:+ jsonstring.appendString (Remarks a)
          +:+ "," +:+ key "Timestamp" +:+ ts +:+ "}")
  end.

(** The literal [lit] at the head of [s]. *)
Fixpoint expect (lit s : string) : option string :=
  match lit, s with
  | "", _ => Some s
  | String a l, String b t => if Ascii.eqb a b then expect l t else None
  | String _ _, "" => None
  end.

Definition isNumberChar (c : ascii) : bool :=
  strconv.isDigit c || Ascii.eqb c "-" || Ascii.eqb c "+" || Ascii.eqb c "."
  || Ascii.eqb c "e" || Ascii.eqb c "E".

(** The octets a number literal at the head of [s] can extend over. *)
Fixpoint spanNumber (s : string) : string * string :=
  match s with
  | String c t =>
      if isNumberChar c
      then let '(tok, rest) := spanNumber t in (String c tok, rest)
      else ("", s)
  | "" => ("", "")
  end.

Fixpoint allDigits (s : string) : bool :=
  match s with
  | "" => true
  | String c t => strconv.isDigit c && allDigits t
  end.

(** A JSON number without fraction and exponent: an optional minus, then
    zero or a digit string that does not start with zero. *)
Definition intLiteral (tok : string) : bool :=
  let ds := match tok with
            | String c t => if Ascii.eqb c "-" then t else tok
            | "" => tok
            end in
  match ds with
  | "" => false
  | String c t => (if Ascii.eqb c "0" then String.eqb t "" else true) && allDigits ds
  end.

(** A number at the head of [s], stored into an [int] field. *)
Definition readInt (s : string) : option (Z * string) :=
  let '(tok, rest) := spanNumber s in
  if intLiteral tok then
    match strconv.ParseInt "ParseInt" tok with
    | Ok i => Some (i, rest)
    | Err _ => None
    end
  else None.

(** The object that [marshal] writes, read back member by member. *)
Definition decode (data : string) : option Asset :=
  s ← expect ("{" +:+ key "DealerID") data;
  '(dealerID, s) ← jsonstring.readString s;
  s ← expect ("," +:+ key "MSISDN") s;
  '(msisdn, s) ← jsonstring.readString s;
  s ← expect ("," +:+ key "MPIN") s;
  '(mpin, s) ← jsonstring.readString s;
  s ← expect ("," +:+ key "Balance") s;
  '(balance, s) ← readInt s;
  s ← expect ("," +:+ key "Status") s;
  '(status, s) ← jsonstring.readString s;
  s ← expect ("," +:+ key "TransAmount") s;
  '(transAmount, s) ← readInt s;
  s ← expect ("," +:+ key "TransType") s;
  '(transType, s) ← jsonstring.readString s;
  s ← expect ("," +:+ key "Remarks") s;
  '(remarks, s) ← jsonstring.readString s;
  s ← expect ("," +:+ key "Timestamp") s;
  '(timestamp, s) ← time.readTime s;
  s ← expect "}" s;
  if String.eqb s "" then
    Some (mkAsset dealerID msisdn mpin balance status transAmount
                  transType remarks timestamp)
  else None.

(** [json.Unmarshal] into an [Asset], on documents of the shape [marshal]
    writes: the members in the order of the fields, no white space, the
    time in UTC.  (The library reads more: white space, members in any
    order, missing and unknown members, other time zones.  Nothing the
    contract writes has them, and the properties of the contract that do
    not rest on reading back what it wrote are stated for any [Codec].) *)
Definition unmarshal (data : string) : result Asset :=
  match decode data with
  | Some a => Ok a
  | None => Err (ErrPlatform "json: cannot unmarshal into Go value of type main.Asset")
  end.

#[global] Instance encoding : Codec := {| Marshal := marshal; Unmarshal := unmarshal |}.

End json.

(** The number a string of decimal digits denotes, read after [n]. *)
Fixpoint decimal (s : string) (n : Z) : option Z :=
  match s with
  | "" => Some n
  | String c t =>
      if strconv.isDigit c then decimal t (n * 10 + (byte c - 48)) else None
  end.

(** A decimal numeral: an optional sign and at least one digit. *)
Definition numeral (s : string) : bool :=
  match s with
  | "" => false
  | String c t =>
      if Ascii.eqb c "-" || Ascii.eqb c "+"
      then negb (String.eqb t "") && json.allDigits t
      else json.allDigits s
  end.

(** ** The world state and the stub *)

(** One invocation runs against the world state, a map from keys to stored
    octets, and either returns a value or an error: [Tx A] is Go's
    [(A, error)] with the world state threaded through. *)
Definition Tx (A : Type) : Type :=
  gmap string string -> result A * gmap string string.

#[global] Instance Tx_ret : MRet Tx := λ A a w, (Ok a, w).

#[global] Instance Tx_bind : MBind Tx := λ A B f m w,
  match m w with
  | (Ok a, w') => f a w'
  | (Err e, w') => (Err e, w')
  end.

(** [return ..., err]. *)
Definition throw {A} (e : error) : Tx A := λ w, (Err e, w).

(** A library call, which does not touch the world state. *)
Definition lift {A} (r : result A) : Tx A := λ w, (r, w).

(** [if err != nil { return fmt.Errorf(format, err) }] around a call. *)
Definition wrapErr {A} (f : error -> error) (m : Tx A) : Tx A := λ w,
  match m w with
  | (Ok a, w') => (Ok a, w')
  | (Err e, w') => (Err (f e), w')
  end.

(** What the platform decides for one invocation: which reads and writes
    of the stub fail, and with what error, and the transaction timestamp
    it hands out (a possibly [nil] message, or an error). *)
Record TransactionContext : Type := {
  getStateErr : string -> option error;
  putStateErr : string -> string -> option error;
  txTimestamp : result (option ptypes.Timestamp_pb)
}.

(** The payload of a read: the stub hands back [nil], here [None], for a
    key without value, and an empty value reaches the contract as [nil]
    as well. *)
Definition payload (v : option string) : option string :=
  match v with
  | Some "" => None
  | _ => v
  end.

Definition GetState (ctx : TransactionContext) (key : string) : Tx (option string) :=
  λ w, match getStateErr ctx key with
       | Some e => (Err e, w)
       | None => (Ok (payload (w !! key)), w)
       end.

(** A put takes effect on the world state at once, as on the Keyed Store
    of the specification; whether the platform later commits or discards
    the writes of an invocation is its own matter. *)
Definition PutState (ctx : TransactionContext) (key value : string) : Tx unit :=
  λ w, match putStateErr ctx key value with
       | Some e => (Err e, w)
       | None => (Ok (), <[key := value]> w)
       end.

Definition GetTxTimestamp (ctx : TransactionContext) : Tx (option ptypes.Timestamp_pb) :=
  lift (txTimestamp ctx).

(** ** The contract *)

Section Contract.

Context `{Codec}.

(** The [assets] of [InitLedger]; their [Timestamp] is left unset. *)
Definition seedAssets : list Asset :=
  [ mkAsset "D001" "1234567890" "1234" 1000 "Active" 0 "" "" time.zero;
    mkAsset "D002" "9876543210" "5678" 1500 "Active" 0 "" "" time.zero ].

(** The [for _, asset := range assets] loop of [InitLedger]. *)
Fixpoint putAssets (ctx : TransactionContext) (assets : list Asset) : Tx unit :=
  match assets with
  | [] => mret ()
  | asset :: assets' =>
      assetJSON ← lift (Marshal asset);
      _ ← wrapErr StoreWriteError (PutState ctx (MSISDN asset) assetJSON);
      putAssets ctx assets'
  end.

Definition InitLedger (ctx : TransactionContext) : Tx unit :=
  putAssets ctx seedAssets.

Definition AssetExists (ctx : TransactionContext) (msisdn : string) : Tx bool :=
  assetJSON ← wrapErr StoreReadError (GetState ctx msisdn);
  mret (match assetJSON with Some _ => true | None => false end).

Definition ReadAsset (ctx : TransactionContext) (msisdn : string) : Tx Asset :=
  assetJSON ← wrapErr StoreReadError (GetState ctx msisdn);
  match assetJSON with
  | None => throw (NotFound msisdn)
  | Some assetJSON =>
      wrapErr DeserializationError (lift (Unmarshal assetJSON))
  end.

Definition CreateAsset (ctx : TransactionContext)
    (dealerID msisdn mpin : string) (balance : Z)
    (status transType remarks : string) : Tx unit :=
  exists_ ← wrapErr ExistenceCheckFailed (AssetExists ctx msisdn);
  if exists_ : bool then throw (AlreadyExists msisdn)
  else
    let asset := mkAsset dealerID msisdn mpin balance status 0 "" "" time.zero in
    txTimestamp ← wrapErr TxTimestampError (GetTxTimestamp ctx);
    timestamp ← wrapErr TimestampError (lift (ptypes.Timestamp txTimestamp));
    let asset := set_Timestamp timestamp asset in
    assetJSON ← wrapErr SerializationError (lift (Marshal asset));
    PutState ctx msisdn assetJSON.

(** The two [fmt.Printf] traces of the source write to standard output
    only and are left out. *)
Definition UpdateAsset (ctx : TransactionContext)
    (msisdn newBalanceStr newStatus transType remarks : string) : Tx unit :=
  asset ← wrapErr ReadFailed (ReadAsset ctx msisdn);
  newBalance ← wrapErr InvalidBalanceFormat (lift (strconv.Atoi newBalanceStr));
  let asset := set_Balance newBalance asset in
  let asset := set_Status newStatus asset in
  let asset := set_TransAmount (int_sub newBalance (Balance asset)) asset in
  let asset := set_TransType transType asset in
  let asset := set_Remarks remarks asset in
  txTimestamp ← wrapErr TxTimestampError (GetTxTimestamp ctx);
  timestamp ← wrapErr TimestampError (lift (ptypes.Timestamp txTimestamp));
  let asset := set_Timestamp timestamp asset in
  assetJSON ← wrapErr SerializationError (lift (Marshal asset));
  PutState ctx msisdn assetJSON.

End Contract.

(** ** Well-formed values *)

(** A UTC instant that [Time.MarshalJSON] accepts. *)
Definition validTime (t : time.Time) : bool :=
  (0 <=? time.Year t) && (time.Year t <? 10000)
  && (0 <=? time.nanos t) && (time.nanos t <? 1000000000).

(** A valid Record: the strings are UTF-8, the integers fit an [int], the
    timestamp is an instant of the years 0 to 9999. *)
Definition validAsset (a : Asset) : bool :=
  utf8.ValidString (DealerID a) && utf8.ValidString (MSISDN a)
  && utf8.ValidString (MPIN a) && is_int (Balance a)
  && utf8.ValidString (Status a) && is_int (TransAmount a)
  && utf8.ValidString (TransType a) && utf8.ValidString (Remarks a)
  && validTime (Timestamp a).

(** The record as it comes back from the wire. *)
Definition coerceAsset (a : Asset) : Asset :=
  mkAsset (jsonstring.toValidUTF8 (DealerID a)) (jsonstring.toValidUTF8 (MSISDN a))
          (jsonstring.toValidUTF8 (MPIN a)) (Balance a)
          (jsonstring.toValidUTF8 (Status a)) (TransAmount a)
          (jsonstring.toValidUTF8 (TransType a)) (jsonstring.toValidUTF8 (Remarks a))
          (Timestamp a).

(** ** Ledgers built by the contract *)

(** One invocation of the contract. *)
Inductive invocation : Type :=
| InvokeInitLedger
| InvokeCreateAsset (dealerID msisdn mpin : string) (balance : Z)
                    (status transType remarks : string)
| InvokeUpdateAsset (msisdn newBalanceStr newStatus transType remarks : string).

(** The world state an invocation leaves behind. *)
Definition invoke `{Codec} (ctx : TransactionContext) (i : invocation)
    (w : gmap string string) : gmap string string :=
  match i with
  | InvokeInitLedger => snd (InitLedger ctx w)
  | InvokeCreateAsset d k p b s ty r => snd (CreateAsset ctx d k p b s ty r w)
  | InvokeUpdateAsset k nb ns ty r => snd (UpdateAsset ctx k nb ns ty r w)
  end.

(** The arguments an invocation can carry: the balance is an [int]. *)
Definition typed (i : invocation) : bool :=
  match i with
  | InvokeCreateAsset _ _ _ b _ _ _ => is_int b
  | _ => true
  end.

(** The ledgers reached from the empty one by invocations satisfying [P],
    each under a context of the platform's choosing. *)
Inductive built `{Codec} (P : invocation -> bool) : gmap string string -> Prop :=
| built_empty : built P ∅
| built_invoke ctx i w : built P w -> P i = true -> built P (invoke ctx i w).

(** The stub sends a key to the peer in a protobuf [string] field, which
    holds UTF-8 only: under any other key the platform refuses the put. *)
Definition utf8Keys (ctx : TransactionContext) : Prop :=
  ∀ key value, utf8.ValidString key = false -> putStateErr ctx key value ≠ None.

(** The ledgers reached from the empty one by invocations of the contract
    on such a platform, with arguments an invocation can carry. *)
Inductive ledger `{Codec} : gmap string string -> Prop :=
| ledger_empty : ledger ∅
| ledger_invoke ctx i w :
    ledger w -> utf8Keys ctx -> typed i = true -> ledger (invoke ctx i w).

(** The world state holds the serialization of the record [a] at [k]. *)
Definition stores `{Codec} (w : gmap string string) (k : string) (a : Asset) : Prop :=
  ∃ data, Marshal a = Ok data ∧ w !! k = Some data.

(** The value stored at [k], if any, is the serialization of a record
    that carries [k] as its MSISDN and can be read back. *)
Definition keyed `{Codec} (w : gmap string string) (k : string) : Prop :=
  ∀ data, w !! k = Some data ->
    ∃ a, Marshal a = Ok data ∧ MSISDN a = k
         ∧ is_int (Balance a) = true ∧ is_int (TransAmount a) = true
         ∧ validTime (Timestamp a) = true.

(** ** Sample contexts and ledgers *)

(** A platform on which no call fails, at transaction time [ts]. *)
Definition quietCtx (ts : ptypes.Timestamp_pb) : TransactionContext :=
  {| getStateErr := λ _, None;
     putStateErr := λ _ _, None;
     txTimestamp := Ok (Some ts) |}.

(** A platform on which every read of the world state fails. *)
Definition unreadableCtx (e : error) : TransactionContext :=
  {| getStateErr := λ _, Some e;
     putStateErr := λ _ _, None;
     txTimestamp := Ok None |}.

(** A platform on which a call fails only for a key that is not UTF-8. *)
Definition strictCtx (ts : ptypes.Timestamp_pb) : TransactionContext :=
  {| getStateErr := λ key,
       if utf8.ValidString key then None
       else Some (ErrPlatform "string field contains invalid UTF-8");
     putStateErr := λ key _,
       if utf8.ValidString key then None
       else Some (ErrPlatform "string field contains invalid UTF-8");
     txTimestamp := Ok (Some ts) |}.

(** 2023-11-14T22:13:20Z. *)
Definition sampleTime : ptypes.Timestamp_pb := ptypes.mkTimestamp 1700000000 0.

(** The ledger after [InitLedger] on an empty world state. *)
Definition seededLedger : gmap string string :=
  snd (InitLedger (quietCtx sampleTime) ∅).

(** A key of one octet that is not UTF-8. *)
Definition octetFF : string := String (chr 255) "".

(** ** The history of a key *)

(** [queryresult.KeyModification], one entry of the platform's history of a
    key: the fields [GetAssetHistory] reads. *)
Module queryresult.

Record KeyModification : Type := mkKeyModification {
  TxId : string;
  Timestamp : option ptypes.Timestamp_pb
}.

End queryresult.

(** [type AssetHistoryEntry struct]. *)
Module history.

Record AssetHistoryEntry : Type := mkAssetHistoryEntry {
  TxID : string;
  Timestamp : time.Time
}.

End history.

(** The three errors [GetAssetHistory] builds with [fmt.Errorf]. *)
Inductive historyError : Type :=
| HistoryOpenError (cause : error)        (* error getting asset history: %v *)
| HistoryIterationError (cause : error)   (* error iterating through history: %v *)
| HistoryTimestampError (cause : error).  (* error converting timestamp: %v *)

(** The calls [GetAssetHistory] makes on the stub and on the iterator. *)
Inductive historyCall : Type :=
| CallGetHistoryForKey (key : string)
| CallHasNext
| CallNext
| CallClose.

(** What the platform answers to [GetHistoryForKey]: an error, or an
    iterator, here the outcomes of its successive [Next] calls. *)
Definition HistoryStub : Type :=
  string -> result (list (result queryresult.KeyModification)).

(** The [for resultsIterator.HasNext()] loop of [GetAssetHistory]: the
    result, and the calls made on the iterator. *)
Fixpoint historyLoop (resultsIterator : list (result queryresult.KeyModification))
    (history : list history.AssetHistoryEntry)
    : (historyError + list history.AssetHistoryEntry) * list historyCall :=
  match resultsIterator with
  | [] => (inr history, [CallHasNext])
  | next :: resultsIterator' =>
      match next with
      | Err e => (inl (HistoryIterationError e), [CallHasNext; CallNext])
      | Ok queryResponse =>
          match ptypes.Timestamp (queryresult.Timestamp queryResponse) with
          | Err e => (inl (HistoryTimestampError e), [CallHasNext; CallNext])
          | Ok timestamp =>
              let entry :=
                history.mkAssetHistoryEntry (queryresult.TxId queryResponse) timestamp in
              let '(r, calls) := historyLoop resultsIterator' (history ++ [entry]) in
              (r, CallHasNext :: CallNext :: calls)
          end
      end
  end.

(** [GetAssetHistory]: the iterator is obtained, read to its end or to the
    first failure, and closed by the deferred [Close]. *)
Definition GetAssetHistory (stub : HistoryStub) (msisdn : string)
    : (historyError + list history.AssetHistoryEntry) * list historyCall :=
  match stub msisdn with
  | Err e => (inl (HistoryOpenError e), [CallGetHistoryForKey msisdn])
  | Ok resultsIterator =>
      let '(r, calls) := historyLoop resultsIterator [] in
      (r, CallGetHistoryForKey msisdn :: calls ++ [CallClose])
  end.

(** The entry [GetAssetHistory] makes of one modification. *)
Definition entryOf (m : queryresult.KeyModification) : result history.AssetHistoryEntry :=
  match ptypes.Timestamp (queryresult.Timestamp m) with
  | Ok ts => Ok (history.mkAssetHistoryEntry (queryresult.TxId m) ts)
  | Err e => Err e
  end.

(** ** Ledgers the contract can read *)

(** Every stored value is the serialization of a record with [int]
    integers and an instant [Time.MarshalJSON] accepts, whose MSISDN is,
    up to coercion to UTF-8, the key. *)
Definition wellStored `{Codec} (w : gmap string string) : Prop :=
  ∀ k data, w !! k = Some data ->
    ∃ a, Marshal a = Ok data
         ∧ is_int (Balance a) = true ∧ is_int (TransAmount a) = true
         ∧ validTime (Timestamp a) = true
         ∧ jsonstring.toValidUTF8 (MSISDN a) = jsonstring.toValidUTF8 k.

(** The keys an invocation may write. *)
Definition targets (i : invocation) : list string :=
  match i with
  | InvokeInitLedger => map MSISDN seedAssets
  | InvokeCreateAsset _ k _ _ _ _ _ => [k]
  | InvokeUpdateAsset k _ _ _ _ => [k]
  end.

(** * Properties *)

(** Linear arithmetic with division and remainder by constants. *)
Ltac divlia := Z.to_euclidean_division_equations; lia.

(** ** Octets and strings *)

Lemma byte_range c : 0 <= byte c < 256.
Proof.
  unfold byte. pose proof (N_ascii_bounded c). lia.
Qed.

Lemma chr_byte c : chr (byte c) = c.
Proof. unfold chr, byte. rewrite N2Z.id. apply ascii_N_embedding. Qed.

Lemma byte_chr z : 0 <= z < 256 -> byte (chr z) = z.
Proof.
  intros Hz. unfold chr, byte. rewrite N_ascii_embedding by lia. lia.
Qed.

Lemma byte_inj c1 c2 : byte c1 = byte c2 -> c1 = c2.
Proof. intros E. rewrite <- (chr_byte c1), <- (chr_byte c2), E. reflexivity. Qed.

Lemma ascii_eqb_byte c1 c2 : Ascii.eqb c1 c2 = (byte c1 =? byte c2).
Proof.
  destruct (Ascii.eqb_spec c1 c2) as [->|Hne].
  - symmetry. apply Z.eqb_refl.
  - symmetry. apply Z.eqb_neq. intros E. apply Hne, byte_inj, E.
Qed.

Lemma append_cons x (a b : string) : String x a +:+ b = String x (a +:+ b).
Proof. reflexivity. Qed.

Lemma append_nil_l (b : string) : "" +:+ b = b.
Proof. reflexivity. Qed.

Lemma append_assoc (a b c : string) : (a +:+ b) +:+ c = a +:+ (b +:+ c).
Proof.
  induction a as [|x a IH]; [reflexivity|].
  rewrite !append_cons. now rewrite IH.
Qed.

Lemma append_nil_r (a : string) : a +:+ "" = a.
Proof.
  induction a as [|x a IH]; [reflexivity|].
  rewrite append_cons. now rewrite IH.
Qed.

Lemma length_append (a b : string) :
  String.length (a +:+ b) = (String.length a + String.length b)%nat.
Proof.
  induction a as [|x a IH]; [reflexivity|].
  rewrite append_cons. simpl. now rewrite IH.
Qed.


(** ** strconv: formatting and parsing are inverse *)

Module strconv_facts.
Import strconv.

Lemma isDigit_chr d : 0 <= d < 10 -> isDigit (chr (48 + d)) = true.
Proof.
  intros Hd. unfold isDigit. rewrite byte_chr by lia.
  apply andb_true_iff. split; apply Z.leb_le; lia.
Qed.

Lemma decimal_app ds rest n :
  json.allDigits ds = true ->
  ∃ m, decimal ds n = Some m ∧ decimal (ds +:+ rest) n = decimal rest m.
Proof.
  revert n. induction ds as [|c ds IH]; intros n Hd; simpl in *.
  - eauto.
  - apply andb_true_iff in Hd as [Hc Hds]. rewrite Hc. apply IH, Hds.
Qed.

(** What [formatBits] writes in front of [acc]: the decimal digits of
    [u], without a leading zero. *)
Lemma formatBits_spec fuel : ∀ u acc,
  0 <= u < 2 ^ (Z.of_nat fuel + 1) ->
  ∃ ds k, formatBits fuel u acc = ds +:+ acc
          ∧ json.allDigits ds = true
          ∧ 0 <= k
          ∧ (∀ n, decimal ds n = Some (n * 10 ^ k + u))
          ∧ ∃ c t, ds = String c t ∧ (c = "0"%char -> t = "" ∧ u = 0).
Proof.
  induction fuel as [|fuel IH]; intros u acc Hu.
  - change (2 ^ (Z.of_nat 0 + 1)) with 2 in Hu.
    assert (Eu : u mod 10 = u) by (apply Z.mod_small; lia).
    exists (String (chr (48 + u)) ""), 1. simpl. rewrite Eu.
    rewrite isDigit_chr by lia. repeat split; try reflexivity; try lia.
    + intros n. rewrite byte_chr by lia. f_equal. lia.
    + exists (chr (48 + u)), "". split; [reflexivity|].
      intros E. split; [reflexivity|].
      apply (f_equal byte) in E. rewrite byte_chr in E by lia.
      change (byte "0") with 48 in E. lia.
  - simpl formatBits. destruct (Z.ltb_spec u 10) as [Hlt|Hge].
    + exists (String (chr (48 + u)) ""), 1. simpl.
      rewrite isDigit_chr by lia. repeat split; try reflexivity; try lia.
      * intros n. rewrite byte_chr by lia. f_equal. lia.
      * exists (chr (48 + u)), "". split; [reflexivity|].
        intros E. split; [reflexivity|].
        apply (f_equal byte) in E. rewrite byte_chr in E by lia.
        change (byte "0") with 48 in E. lia.
    + assert (Hq : 0 <= u / 10 < 2 ^ (Z.of_nat fuel + 1)).
      { split; [apply Z.div_pos; lia|].
        apply Z.div_lt_upper_bound; [lia|].
        replace (Z.of_nat (S fuel) + 1) with (Z.succ (Z.of_nat fuel + 1)) in Hu by lia.
        rewrite Z.pow_succ_r in Hu by lia. lia. }
      destruct (IH (u / 10) (String (chr (48 + u mod 10)) acc) Hq)
        as (ds & k & Hfmt & Hall & Hk & Hparse & c & t & Hds & Hzero).
      pose proof (Z.mod_pos_bound u 10 ltac:(lia)) as Hm.
      exists (ds +:+ String (chr (48 + u mod 10)) ""), (k + 1).
      split; [|split; [|split; [|split]]].
      * rewrite Hfmt, append_assoc. reflexivity.
      * clear -Hall Hm. induction ds as [|x ds IHds]; simpl in *.
        -- rewrite isDigit_chr by lia. reflexivity.
        -- apply andb_true_iff in Hall as [-> Hall]. simpl. auto.
      * lia.
      * intros n.
        destruct (decimal_app ds (String (chr (48 + u mod 10)) "") n Hall)
          as (m & Hm1 & Hm2).
        rewrite Hm2. rewrite Hparse in Hm1. injection Hm1 as <-.
        simpl. rewrite isDigit_chr by lia. rewrite byte_chr by lia.
        f_equal. rewrite Z.pow_add_r by lia. change (10 ^ 1) with 10.
        pose proof (Z.div_mod u 10 ltac:(lia)) as Hdm.
        clear -Hdm. generalize dependent (u / 10). generalize (u mod 10).
        generalize (10 ^ k). intros. subst u. ring.
      * exists c, (t +:+ String (chr (48 + u mod 10)) ""). subst ds.
        split; [reflexivity|]. intros E. destruct (Hzero E) as [_ Hz]. exfalso. divlia.
Qed.

Lemma log2_fuel u : 0 <= u -> 0 <= u < 2 ^ (Z.of_nat (Z.to_nat (Z.log2 u)) + 1).
Proof.
  intros Hu. split; [assumption|].
  rewrite Z2Nat.id by apply Z.log2_nonneg.
  destruct (Z.eq_dec u 0) as [->|Hne]; [reflexivity|].
  apply Z.log2_spec. lia.
Qed.

Lemma decimal_mono ds : ∀ n m, 0 <= n -> decimal ds n = Some m -> n <= m.
Proof.
  induction ds as [|c ds IH]; intros n m Hn; cbn [decimal].
  - intros [= <-]. lia.
  - destruct (isDigit c) eqn:Hc; [|discriminate].
    unfold isDigit in Hc. apply andb_true_iff in Hc as [Hlo Hhi].
    apply Z.leb_le in Hlo, Hhi. intros Hd. apply IH in Hd; lia.
Qed.

(** Below the overflow cut-off the loop of [ParseUint] computes the number
    the digits denote. *)
Lemma parseDigits_decimal ds : ∀ n m,
  0 <= n -> decimal ds n = Some m -> m <= maxUint64 -> parseDigits ds n = inr m.
Proof.
  induction ds as [|c ds IH]; intros n m Hn; cbn [decimal parseDigits].
  - now intros [= <-].
  - destruct (isDigit c) eqn:Hc; [|discriminate].
    unfold isDigit in Hc. apply andb_true_iff in Hc as [Hlo Hhi].
    apply Z.leb_le in Hlo, Hhi. intros Hd Hm.
    pose proof (decimal_mono ds (n * 10 + (byte c - 48)) m ltac:(lia) Hd) as Hle.
    unfold cutoff, maxUint64 in *.
    change (2 ^ 64 - 1) with 18446744073709551615 in *.
    change (18446744073709551615 / 10 + 1) with 1844674407370955162.
    change (2 ^ 64) with 18446744073709551616.
    destruct (Z.leb_spec 1844674407370955162 n); [lia|]. cbv zeta.
    rewrite (Z.mod_small (n * 10 + (byte c - 48))) by lia.
    destruct (Z.ltb_spec (n * 10 + (byte c - 48)) (n * 10)); [lia|].
    destruct (Z.ltb_spec 18446744073709551615 (n * 10 + (byte c - 48))); [lia|].
    cbn [orb]. apply IH; [lia|exact Hd|exact Hm].
Qed.

(** What the loop of [ParseUint] returns is the number the digits denote,
    and it fits a [uint64]. *)
Lemma parseDigits_value ds : ∀ n m,
  0 <= n <= maxUint64 -> parseDigits ds n = inr m ->
  decimal ds n = Some m ∧ m <= maxUint64.
Proof.
  induction ds as [|c ds IH]; intros n m Hn; cbn [decimal parseDigits].
  - intros [= <-]. split; [reflexivity|lia].
  - destruct (isDigit c) eqn:Hc; [|discriminate].
    unfold isDigit in Hc. apply andb_true_iff in Hc as [Hlo Hhi].
    apply Z.leb_le in Hlo, Hhi.
    unfold cutoff, maxUint64 in *.
    change (2 ^ 64 - 1) with 18446744073709551615 in *.
    change (18446744073709551615 / 10 + 1) with 1844674407370955162.
    change (2 ^ 64) with 18446744073709551616.
    destruct (Z.leb_spec 1844674407370955162 n); [discriminate|]. cbv zeta.
    destruct (Z.lt_ge_cases (n * 10 + (byte c - 48)) 18446744073709551616)
      as [Hsmall|Hbig].
    + rewrite (Z.mod_small (n * 10 + (byte c - 48))) by lia.
      destruct (Z.ltb_spec (n * 10 + (byte c - 48)) (n * 10)); [discriminate|].
      destruct (Z.ltb_spec 18446744073709551615 (n * 10 + (byte c - 48)));
        [discriminate|].
      cbn [orb]. apply IH. lia.
    + assert (E : (n * 10 + (byte c - 48)) mod 18446744073709551616
                  = n * 10 + (byte c - 48) - 18446744073709551616).
      { symmetry. apply (Z.mod_unique _ _ 1); lia. }
      rewrite E.
      destruct (Z.ltb_spec (n * 10 + (byte c - 48) - 18446744073709551616) (n * 10));
        [discriminate|lia].
Qed.

(** An [int] printed and parsed is the same [int]. *)
Lemma ParseInt_FormatInt func i :
  is_int i = true -> ParseInt func (FormatInt i) = Ok i.
Proof.
  unfold is_int, minInt, maxInt. intros Hi.
  apply andb_true_iff in Hi as [Hlo Hhi].
  apply Z.leb_le in Hlo, Hhi.
  unfold FormatInt. destruct (Z.ltb_spec i 0) as [Hneg|Hpos].
  - destruct (formatBits_spec _ (- i) "" (log2_fuel (- i) ltac:(lia)))
      as (ds & k & Hfmt & Hall & Hk & Hparse & c & t & Hds & Hzero).
    rewrite Hfmt, append_nil_r. unfold ParseInt.
    change (Ascii.eqb "-" "-") with true. cbn [orb negb andb].
    rewrite Hds, <- Hds.
    rewrite (parseDigits_decimal ds 0 (- i)); [|lia|now rewrite Hparse; f_equal; lia|
      unfold maxUint64; lia].
    destruct (Z.ltb_spec (2 ^ 63) (- i)); [lia|]. f_equal. lia.
  - destruct (formatBits_spec _ i "" (log2_fuel i ltac:(lia)))
      as (ds & k & Hfmt & Hall & Hk & Hparse & c & t & Hds & Hzero).
    rewrite Hfmt, append_nil_r. unfold ParseInt. rewrite Hds.
    assert (Hc : strconv.isDigit c = true).
    { rewrite Hds in Hall. simpl in Hall. now apply andb_true_iff in Hall as [? _]. }
    assert (Hminus : Ascii.eqb c "-" = false).
    { rewrite ascii_eqb_byte. unfold isDigit in Hc.
      apply andb_true_iff in Hc as [Hc _]. apply Z.leb_le in Hc.
      change (byte "-") with 45. apply Z.eqb_neq. lia. }
    assert (Hplus : Ascii.eqb c "+" = false).
    { rewrite ascii_eqb_byte. unfold isDigit in Hc.
      apply andb_true_iff in Hc as [Hc _]. apply Z.leb_le in Hc.
      change (byte "+") with 43. apply Z.eqb_neq. lia. }
    rewrite Hminus, Hplus. cbn [orb negb andb].
    rewrite <- Hds.
    rewrite (parseDigits_decimal ds 0 i); [|lia|now rewrite Hparse; f_equal; lia|
      unfold maxUint64; lia].
    destruct (Z.leb_spec (2 ^ 63) i); [lia|]. reflexivity.
Qed.

End strconv_facts.

(** ** Masks and shifts as arithmetic *)

Lemma land_mask x n : 0 <= n -> Z.land x (2 ^ n - 1) = x mod 2 ^ n.
Proof.
  intros Hn. rewrite <- Z.land_ones by assumption.
  rewrite Z.ones_equiv. reflexivity.
Qed.

Lemma lor_add a b n :
  0 <= n -> 0 <= b < 2 ^ n -> a mod 2 ^ n = 0 -> Z.lor a b = a + b.
Proof.
  intros Hn Hb Ha.
  assert (Hland : Z.land a b = 0).
  { apply Z.bits_inj'. intros i Hi. rewrite Z.land_spec, Z.bits_0.
    destruct (Z.lt_ge_cases i n) as [Hlt|Hge].
    - replace (Z.testbit a i) with false; [reflexivity|].
      symmetry. rewrite <- (Z.mod_pow2_bits_low a n i) by lia.
      rewrite Ha. apply Z.bits_0.
    - replace (Z.testbit b i) with false; [apply andb_false_r|].
      symmetry. rewrite <- (Z.mod_small b (2 ^ n)) by lia.
      apply Z.mod_pow2_bits_high. lia. }
  rewrite <- Z.lxor_lor by assumption.
  symmetry. apply Z.add_nocarry_lxor. assumption.
Qed.

Ltac bits_to_arith :=
  repeat first
    [ rewrite Z.shiftl_mul_pow2 by lia
    | rewrite Z.shiftr_div_pow2 by lia
    | progress change 0x1F with (2 ^ 5 - 1)
    | progress change 0x0F with (2 ^ 4 - 1)
    | progress change 0x07 with (2 ^ 3 - 1)
    | progress change 0x3F with (2 ^ 6 - 1)
    | rewrite land_mask by lia ].

(** ** utf8: a well-formed encoding decodes to a rune that encodes back *)

Module utf8_facts.
Import utf8.

Ltac decide_if :=
  match goal with
  | |- context [if ?b then _ else _] =>
      let E := fresh "E" in
      first [ assert (E : b = true) by
                (repeat first [apply andb_true_iff; split | apply orb_true_iff; (left; lia) || (right; lia) | lia])
            | assert (E : b = false) by
                (repeat first [apply orb_false_iff; split | apply andb_false_iff; (left; lia) || (right; lia) | lia]) ];
      rewrite E; clear E
  end.

Lemma encode2 s0 s1 :
  0xC2 <= s0 <= 0xDF -> 0x80 <= s1 <= 0xBF ->
  EncodeRune (Z.lor (Z.shiftl (Z.land s0 0x1F) 6) (Z.land s1 0x3F))
  = String (chr s0) (String (chr s1) "").
Proof.
  intros H0 H1.
  assert (Er : Z.lor (Z.shiftl (Z.land s0 0x1F) 6) (Z.land s1 0x3F)
               = (s0 - 0xC0) * 64 + (s1 - 0x80)).
  { bits_to_arith. rewrite (lor_add _ _ 6) by divlia. divlia. }
  rewrite Er. set (r := (s0 - 0xC0) * 64 + (s1 - 0x80)).
  assert (Hr : 0x80 <= r <= 0x7FF) by (subst r; lia).
  unfold EncodeRune. do 2 decide_if.
  bits_to_arith.
  rewrite (lor_add 0xC0 _ 6) by (subst r; divlia).
  rewrite (lor_add 0x80 _ 6) by (subst r; divlia).
  f_equal; [f_equal; subst r; divlia|]. f_equal. f_equal. subst r; divlia.
Qed.

Lemma encode3_bytes s0 s1 s2 :
  0xE0 <= s0 <= 0xEF -> 0x80 <= s1 <= 0xBF -> 0x80 <= s2 <= 0xBF ->
  (s0 = 0xE0 -> 0xA0 <= s1) -> (s0 = 0xED -> s1 <= 0x9F) ->
  EncodeRune (Z.lor (Z.lor (Z.shiftl (Z.land s0 0x0F) 12)
                           (Z.shiftl (Z.land s1 0x3F) 6))
                    (Z.land s2 0x3F))
  = String (chr s0) (String (chr s1) (String (chr s2) "")).
Proof.
  intros H0 H1 H2 Hlo Hhi.
  assert (Er : Z.lor (Z.lor (Z.shiftl (Z.land s0 0x0F) 12)
                            (Z.shiftl (Z.land s1 0x3F) 6))
                     (Z.land s2 0x3F)
               = (s0 - 0xE0) * 4096 + (s1 - 0x80) * 64 + (s2 - 0x80)).
  { bits_to_arith.
    rewrite (lor_add (s0 mod 2 ^ 4 * 2 ^ 12) _ 12) by divlia.
    rewrite (lor_add _ _ 6) by divlia. divlia. }
  rewrite Er. set (r := (s0 - 0xE0) * 4096 + (s1 - 0x80) * 64 + (s2 - 0x80)).
  assert (Hr : 0x800 <= r <= 0xFFFF) by (subst r; lia).
  assert (Hs : r < 0xD800 \/ 0xDFFF < r) by (subst r; lia).
  unfold EncodeRune, MaxRune. do 2 decide_if.
  assert (E : (r <? 0) || (1114111 <? r) || (55296 <=? r) && (r <=? 57343) = false).
  { apply orb_false_iff. split; [apply orb_false_iff; split; lia|].
    apply andb_false_iff. destruct Hs; [left|right]; lia. }
  rewrite E; clear E. decide_if. unfold encode3.
  bits_to_arith.
  rewrite (lor_add 0xE0 _ 4) by (subst r; divlia).
  rewrite !(lor_add 0x80 _ 6) by (subst r; divlia).
  repeat f_equal; subst r; divlia.
Qed.

Lemma encode4_bytes s0 s1 s2 s3 :
  0xF0 <= s0 <= 0xF4 -> 0x80 <= s1 <= 0xBF -> 0x80 <= s2 <= 0xBF ->
  0x80 <= s3 <= 0xBF ->
  (s0 = 0xF0 -> 0x90 <= s1) -> (s0 = 0xF4 -> s1 <= 0x8F) ->
  EncodeRune (Z.lor (Z.lor (Z.lor (Z.shiftl (Z.land s0 0x07) 18)
                                  (Z.shiftl (Z.land s1 0x3F) 12))
                           (Z.shiftl (Z.land s2 0x3F) 6))
                    (Z.land s3 0x3F))
  = String (chr s0) (String (chr s1) (String (chr s2) (String (chr s3) ""))).
Proof.
  intros H0 H1 H2 H3 Hlo Hhi.
  assert (Er : Z.lor (Z.lor (Z.lor (Z.shiftl (Z.land s0 0x07) 18)
                                   (Z.shiftl (Z.land s1 0x3F) 12))
                            (Z.shiftl (Z.land s2 0x3F) 6))
                     (Z.land s3 0x3F)
               = (s0 - 0xF0) * 262144 + (s1 - 0x80) * 4096
                 + (s2 - 0x80) * 64 + (s3 - 0x80)).
  { bits_to_arith.
    rewrite (lor_add (s0 mod 2 ^ 3 * 2 ^ 18) _ 18) by divlia.
    rewrite (lor_add _ (s2 mod 2 ^ 6 * 2 ^ 6) 12) by divlia.
    rewrite (lor_add _ _ 6) by divlia. divlia. }
  rewrite Er.
  set (r := (s0 - 0xF0) * 262144 + (s1 - 0x80) * 4096
            + (s2 - 0x80) * 64 + (s3 - 0x80)).
  assert (Hr : 0x10000 <= r <= 0x10FFFF) by (subst r; lia).
  unfold EncodeRune, MaxRune. do 2 decide_if.
  assert (E : (r <? 0) || (1114111 <? r) || (55296 <=? r) && (r <=? 57343) = false).
  { apply orb_false_iff. split; [apply orb_false_iff; split; lia|].
    apply andb_false_iff. right. lia. }
  rewrite E; clear E. decide_if.
  bits_to_arith.
  rewrite (lor_add 0xF0 _ 3) by (subst r; divlia).
  rewrite !(lor_add 0x80 _ 6) by (subst r; divlia).
  repeat f_equal; subst r; divlia.
Qed.

Lemma first_spec s0 sz lo hi :
  first s0 = Some (sz, lo, hi) ->
  0x80 <= lo ∧ hi <= 0xBF ∧
  ((sz = 2%nat ∧ 0xC2 <= s0 <= 0xDF)
   ∨ (sz = 3%nat ∧ 0xE0 <= s0 <= 0xEF
      ∧ (s0 = 0xE0 -> lo = 0xA0) ∧ (s0 = 0xED -> hi = 0x9F))
   ∨ (sz = 4%nat ∧ 0xF0 <= s0 <= 0xF4
      ∧ (s0 = 0xF0 -> lo = 0x90) ∧ (s0 = 0xF4 -> hi = 0x8F))).
Proof.
  unfold first.
  repeat match goal with
         | |- context [?a <? ?b] => destruct (Z.ltb_spec a b)
         | |- context [?a =? ?b] => destruct (Z.eqb_spec a b)
         end; intros [= <- <- <-] || discriminate; lia.
Qed.

Lemma skip_take n s X :
  (n <= String.length s)%nat -> skip n (take_prefix n s +:+ X) = X.
Proof.
  revert s. induction n as [|n IH]; intros [|c s] Hn; cbn [String.length] in Hn;
    try reflexivity; try lia.
  cbn [take_prefix]. rewrite append_cons. cbn [skip]. apply IH. lia.
Qed.

Lemma take_skip n s : take_prefix n s +:+ skip n s = s.
Proof.
  revert s. induction n as [|n IH]; intros [|c s]; try reflexivity.
  cbn [take_prefix skip]. rewrite append_cons, IH. reflexivity.
Qed.

Lemma length_skip n s : String.length (skip n s) = (String.length s - n)%nat.
Proof.
  revert s. induction n as [|n IH]; intros [|c s]; simpl; try reflexivity; try lia.
  apply IH.
Qed.

Lemma length_take n s :
  (n <= String.length s)%nat -> String.length (take_prefix n s) = n.
Proof.
  revert s. induction n as [|n IH]; intros [|c s] Hn; simpl in *;
    try reflexivity; try lia.
  rewrite IH; [reflexivity|lia].
Qed.

(** From a leading octet outside ASCII the decoder either rejects that
    octet, or reads a well-formed encoding of two to four octets: it
    looks at no octet behind, and the rune encodes to these octets. *)
Lemma DecodeRune_cases c0 t :
  0x80 <= byte c0 ->
  DecodeRuneInString (String c0 t) = (RuneError, 1%nat)
  ∨ ∃ r size,
      DecodeRuneInString (String c0 t) = (r, size)
      ∧ (2 <= size <= String.length (String c0 t))%nat
      ∧ EncodeRune r = take_prefix size (String c0 t)
      ∧ (size <= 4)%nat
      ∧ ∀ X, DecodeRuneInString (take_prefix size (String c0 t) +:+ X) = (r, size).
Proof.
  intros H0.
  remember (DecodeRuneInString (String c0 t)) as d eqn:Ed.
  unfold DecodeRuneInString, RuneSelf in Ed.
  destruct (Z.ltb_spec (byte c0) 128) as [?|_]; [lia|].
  destruct (first (byte c0)) as [[[sz lo] hi]|] eqn:Ef; [|left; exact Ed].
  destruct t as [|c1 t1]; [left; exact Ed|].
  cbv zeta in Ed.
  destruct ((byte c1 <? lo) || (hi <? byte c1)) eqn:E1; [left; exact Ed|].
  pose proof E1 as E1'.
  apply orb_false_iff in E1' as [E1a E1b]. apply Z.ltb_ge in E1a, E1b.
  destruct (first_spec _ _ _ _ Ef)
    as (Hlo & Hhi & [(-> & Hs0)|[(-> & Hs0 & Hl & Hh)|(-> & Hs0 & Hl & Hh)]]).
  - right. cbn [Nat.leb] in Ed. eexists _, 2%nat. split; [exact Ed|].
    split; [cbn [String.length]; lia|]. split; [|split; [lia|]].
    + rewrite encode2 by lia. rewrite !chr_byte. reflexivity.
    + intros X. cbn [take_prefix]. rewrite !append_cons, append_nil_l.
      unfold DecodeRuneInString, RuneSelf.
      destruct (Z.ltb_spec (byte c0) 128) as [?|_]; [lia|].
      rewrite Ef. cbv zeta. rewrite E1. reflexivity.
  - cbn [Nat.leb] in Ed.
    destruct t1 as [|c2 t2]; [left; exact Ed|]. cbv zeta in Ed.
    destruct (cont (byte c2)) eqn:E2; [|left; exact Ed]. cbn [negb] in Ed.
    right. eexists _, 3%nat. split; [exact Ed|].
    split; [cbn [String.length]; lia|].
    pose proof E2 as E2'. unfold cont in E2'.
    apply andb_true_iff in E2' as [E2a E2b]. apply Z.leb_le in E2a, E2b.
    split; [|split; [lia|]].
    + rewrite encode3_bytes by lia. rewrite !chr_byte. reflexivity.
    + intros X. cbn [take_prefix]. rewrite !append_cons, append_nil_l.
      unfold DecodeRuneInString, RuneSelf.
      destruct (Z.ltb_spec (byte c0) 128) as [?|_]; [lia|].
      rewrite Ef. cbv zeta. rewrite E1, E2. reflexivity.
  - cbn [Nat.leb] in Ed.
    destruct t1 as [|c2 t2]; [left; exact Ed|]. cbv zeta in Ed.
    destruct (cont (byte c2)) eqn:E2; [|left; exact Ed]. cbn [negb] in Ed.
    destruct t2 as [|c3 t3]; [left; exact Ed|]. cbv zeta in Ed.
    destruct (cont (byte c3)) eqn:E3; [|left; exact Ed]. cbn [negb] in Ed.
    right. eexists _, 4%nat. split; [exact Ed|].
    split; [cbn [String.length]; lia|].
    pose proof E2 as E2'. unfold cont in E2'.
    apply andb_true_iff in E2' as [E2a E2b]. apply Z.leb_le in E2a, E2b.
    pose proof E3 as E3'. unfold cont in E3'.
    apply andb_true_iff in E3' as [E3a E3b]. apply Z.leb_le in E3a, E3b.
    split; [|split; [lia|]].
    + rewrite encode4_bytes by lia. rewrite !chr_byte. reflexivity.
    + intros X. cbn [take_prefix]. rewrite !append_cons, append_nil_l.
      unfold DecodeRuneInString, RuneSelf.
      destruct (Z.ltb_spec (byte c0) 128) as [?|_]; [lia|].
      rewrite Ef. cbv zeta. rewrite E1, E2, E3. reflexivity.
Qed.

Lemma DecodeRune_ascii c0 t :
  byte c0 < 0x80 -> DecodeRuneInString (String c0 t) = (byte c0, 1%nat).
Proof.
  intros H0. unfold DecodeRuneInString, RuneSelf.
  destruct (Z.ltb_spec (byte c0) 128); [reflexivity|lia].
Qed.

End utf8_facts.

(** ** encoding/json: a string written and read back *)

Module jsonstring_facts.
Import jsonstring utf8_facts.

Lemma unquote_safe fd c X :
  htmlSafe (byte c) = true ->
  unquoteBody (S fd) (String c X) = prepend (String c "") (unquoteBody fd X).
Proof.
  unfold htmlSafe. intros Hs.
  apply andb_true_iff in Hs as [Hs Hn]. apply andb_true_iff in Hs as [Hlo Hhi].
  cbn [unquoteBody]. cbv zeta.
  destruct (Z.eqb_spec (byte c) 34) as [E|_]; [rewrite E in Hn; discriminate Hn|].
  destruct (Z.eqb_spec (byte c) 92) as [E|_]; [rewrite E in Hn; discriminate Hn|].
  apply Z.leb_le in Hlo.
  destruct (Z.ltb_spec (byte c) 32) as [?|_]; [lia|].
  unfold utf8.RuneSelf. rewrite Hhi. reflexivity.
Qed.

Lemma unquote_escape fd c X :
  byte c < 0x80 -> htmlSafe (byte c) = false ->
  unquoteBody (S fd) (escape (byte c) +:+ X)
  = prepend (String c "") (unquoteBody fd X).
Proof.
  intros Hc Hs.
  destruct c as [[] [] [] [] [] [] [] []];
    first [ exfalso; vm_compute in Hc; discriminate Hc
          | exfalso; vm_compute in Hs; discriminate Hs
          | reflexivity ].
Qed.

Lemma unquote_ufffd fd X :
  unquoteBody (S fd) (String backslash "ufffd" +:+ X)
  = prepend (utf8.EncodeRune utf8.RuneError) (unquoteBody fd X).
Proof. reflexivity. Qed.

Lemma unquote_u202x fd r X :
  r = 0x2028 ∨ r = 0x2029 ->
  unquoteBody (S fd)
    (String backslash (String "u" (String "2" (String "0" (String "2"
       (String (hex (Z.land r 0xF)) ""))))) +:+ X)
  = prepend (utf8.EncodeRune r) (unquoteBody fd X).
Proof. intros [-> | ->]; reflexivity. Qed.

Lemma unquote_raw fd c0 Y r size :
  0x80 <= byte c0 ->
  utf8.DecodeRuneInString (String c0 Y) = (r, size) ->
  unquoteBody (S fd) (String c0 Y)
  = prepend (utf8.EncodeRune r) (unquoteBody fd (skip size (String c0 Y))).
Proof.
  intros H0 Hd. cbn [unquoteBody]. cbv zeta.
  destruct (Z.eqb_spec (byte c0) 34) as [?|_]; [lia|].
  destruct (Z.eqb_spec (byte c0) 92) as [?|_]; [lia|].
  destruct (Z.ltb_spec (byte c0) 32) as [?|_]; [lia|].
  destruct (Z.ltb_spec (byte c0) utf8.RuneSelf) as [Hlt|_];
    [unfold utf8.RuneSelf in Hlt; lia|].
  rewrite Hd. reflexivity.
Qed.

(** Reading back what [appendString] wrote between the quotes gives the
    string coerced to UTF-8, and stops behind the closing quote. *)
Lemma unquote_appendBody n : ∀ s fe fc fd rest,
  (String.length s <= n)%nat -> (String.length s <= fe)%nat ->
  (String.length s <= fc)%nat -> (String.length s < fd)%nat ->
  unquoteBody fd (appendBody fe s +:+ String quote rest)
  = Some (coerceFuel fc s, rest).
Proof.
  induction n as [|n IH]; intros [|c t] fe fc fd rest Hn Hfe Hfc Hfd;
    cbn [String.length] in *; try lia.
  - destruct fd as [|fd]; [lia|]. destruct fe, fc; reflexivity.
  - destruct fd as [|fd]; [lia|]. destruct fe, fc; reflexivity.
  - destruct fd as [|fd]; [lia|]. destruct fe as [|fe]; [lia|].
    destruct fc as [|fc]; [lia|].
    cbn [appendBody coerceFuel]. cbv zeta. unfold utf8.RuneSelf.
    destruct (Z.ltb_spec (byte c) 128) as [Hascii|Hmulti].
    + rewrite DecodeRune_ascii by assumption.
      destruct (Z.leb_spec 128 (byte c)) as [?|_]; [lia|]. cbn [andb].
      cbn [take_prefix skip]. rewrite append_assoc, append_cons, append_nil_l.
      destruct (htmlSafe (byte c)) eqn:Hsafe.
      * rewrite append_cons, append_nil_l, unquote_safe by assumption.
        rewrite (IH t fe fc fd rest) by lia. reflexivity.
      * rewrite unquote_escape by assumption.
        rewrite (IH t fe fc fd rest) by lia. reflexivity.
    + destruct (Z.leb_spec 128 (byte c)) as [_|?]; [|lia]. cbn [andb].
      destruct (DecodeRune_cases c t ltac:(lia))
        as [Hbad|(r & size & Hd & Hsize & Henc & H4 & Hpre)].
      * rewrite Hbad. cbn [Nat.eqb]. rewrite Z.eqb_refl. cbn [andb skip].
        rewrite append_assoc, unquote_ufffd.
        rewrite (IH t fe fc fd rest) by lia. reflexivity.
      * rewrite Hd.
        assert (Hne : (size =? 1)%nat = false) by (apply Nat.eqb_neq; lia).
        rewrite Hne, andb_false_r.
        pose proof (length_skip size (String c t)) as Hlen.
        cbn [String.length] in Hlen, Hsize.
        destruct ((r =? 8232) || (r =? 8233)) eqn:Hsep.
        -- rewrite append_assoc, unquote_u202x
             by (apply orb_true_iff in Hsep as [E|E]; apply Z.eqb_eq in E; auto).
           rewrite (IH (skip size (String c t)) fe fc fd rest) by lia.
           cbn [prepend]. rewrite Henc. reflexivity.
        -- rewrite append_assoc.
           assert (Hhead : ∃ Y, take_prefix size (String c t) = String c Y).
           { destruct size as [|size]; [lia|]. cbn [take_prefix]. eauto. }
           destruct Hhead as [Y HY].
           pose proof (Hpre (appendBody fe (skip size (String c t)) +:+ String quote rest)) as Hd'.
           rewrite HY, append_cons in Hd' |- *.
           rewrite (unquote_raw fd c _ r size) by (lia || exact Hd').
           rewrite <- append_cons, <- HY, skip_take by (cbn [String.length]; lia).
           rewrite (IH (skip size (String c t)) fe fc fd rest) by lia.
           cbn [prepend]. rewrite Henc, HY. reflexivity.
Qed.

Lemma length_appendBody n : ∀ s fe,
  (String.length s <= n)%nat -> (String.length s <= fe)%nat ->
  (String.length s <= String.length (appendBody fe s))%nat.
Proof.
  induction n as [|n IH]; intros [|c t] fe Hn Hfe;
    cbn [String.length] in *; try lia.
  destruct fe as [|fe]; [lia|].
  cbn [appendBody]. cbv zeta. unfold utf8.RuneSelf.
  destruct (Z.ltb_spec (byte c) 128) as [Hascii|Hmulti].
  - rewrite length_append. specialize (IH t fe ltac:(lia) ltac:(lia)).
    assert (1 <= String.length (if htmlSafe (byte c) then String c "" else escape (byte c)))%nat.
    { destruct (htmlSafe (byte c)); [cbn; lia|]. unfold escape.
      repeat match goal with |- context [if ?b then _ else _] => destruct b end;
        cbn [String.length]; lia. }
    lia.
  - destruct (DecodeRune_cases c t ltac:(lia))
      as [Hbad|(r & size & Hd & Hsize & Henc & H4 & Hpre)].
    + rewrite Hbad. cbn [Nat.eqb]. rewrite Z.eqb_refl. cbn [andb skip].
      rewrite length_append. specialize (IH t fe ltac:(lia) ltac:(lia)).
      cbn [String.length]. lia.
    + rewrite Hd.
      assert (Hne : (size =? 1)%nat = false) by (apply Nat.eqb_neq; lia).
      rewrite Hne, andb_false_r.
      pose proof (length_skip size (String c t)) as Hlen.
      cbn [String.length] in Hlen, Hsize.
      specialize (IH (skip size (String c t)) fe ltac:(lia) ltac:(lia)).
      destruct ((r =? 8232) || (r =? 8233)) eqn:Hsep.
      * rewrite length_append. cbn [String.length]. lia.
      * rewrite length_append, length_take by (cbn [String.length]; lia). lia.
Qed.

Theorem readString_appendString s rest :
  readString (appendString s +:+ rest) = Some (toValidUTF8 s, rest).
Proof.
  unfold appendString, readString, toValidUTF8.
  rewrite append_cons, append_assoc, append_cons, append_nil_l.
  change (byte quote =? 34) with true. cbv iota.
  apply (unquote_appendBody (String.length s)); try lia.
  rewrite length_append. cbn [String.length].
  pose proof (length_appendBody (String.length s) s (String.length s)
                ltac:(lia) ltac:(lia)). lia.
Qed.

(** A string of well-formed runes is left as it is. *)
Lemma coerce_valid n : ∀ s fv fc,
  (String.length s <= n)%nat -> (String.length s <= fc)%nat ->
  utf8.validFuel fv s = true -> coerceFuel fc s = s.
Proof.
  induction n as [|n IH]; intros [|c t] fv fc Hn Hfc Hv;
    cbn [String.length] in *; try lia.
  - destruct fc; reflexivity.
  - destruct fc; reflexivity.
  - destruct fc as [|fc]; [lia|]. destruct fv as [|fv]; [discriminate Hv|].
    cbn [utf8.validFuel coerceFuel] in *.
    destruct (utf8.DecodeRuneInString (String c t)) as [r size] eqn:Hd.
    destruct ((utf8.RuneSelf <=? byte c) && (size =? 1)%nat) eqn:Hbad;
      [discriminate Hv|].
    assert (Hsize : (1 <= size <= S (String.length t))%nat).
    { unfold utf8.RuneSelf in Hbad.
      destruct (Z.ltb_spec (byte c) 128) as [Hascii|Hmulti].
      - rewrite DecodeRune_ascii in Hd by assumption.
        injection Hd as <- <-. lia.
      - destruct (DecodeRune_cases c t ltac:(lia))
          as [Hb|(r' & size' & Hd' & Hsize & _)].
        + rewrite Hb in Hd. injection Hd as <- <-.
          destruct (Z.leb_spec 128 (byte c)); [discriminate Hbad|lia].
        + rewrite Hd' in Hd. injection Hd as <- <-.
          cbn [String.length] in Hsize. lia. }
    pose proof (length_skip size (String c t)) as Hlen.
    cbn [String.length] in Hlen.
    rewrite (IH (skip size (String c t)) fv fc) by (lia || assumption).
    apply take_skip.
Qed.

Theorem toValidUTF8_valid s : utf8.ValidString s = true -> toValidUTF8 s = s.
Proof.
  intros Hv. apply (coerce_valid (String.length s) s (String.length s)); auto.
Qed.

End jsonstring_facts.

(** ** time: an instant written and read back *)

Module time_facts.
Import time.

Lemma yearDay_spec d y yd :
  yearDay d = (y, yd) ->
  daysBeforeYear y + yd = d
  ∧ 0 <= yd < (if isLeap y then 366 else 365).
Proof.
  unfold yearDay, daysBeforeYear, isLeap. intros [= <- <-].
  set (d1 := d mod 146097).
  set (n100 := Z.min (d1 / 36524) 3).
  set (d2 := d1 - 36524 * n100).
  set (n4 := d2 / 1461).
  set (d3 := d2 mod 1461).
  set (n1 := Z.min (d3 / 365) 3).
  set (n400 := d / 146097).
  assert (H1 : 0 <= d1 < 146097) by (subst d1; apply Z.mod_pos_bound; lia).
  assert (Hd : d = 146097 * n400 + d1) by (subst d1 n400; apply Z.div_mod; lia).
  assert (Hn100 : 0 <= n100 <= 3) by (subst n100; divlia).
  assert (H2 : 0 <= d2 <= 36524 ∧ (n100 < 3 -> d2 < 36524)) by (subst d2 n100; divlia).
  assert (Hn4 : 0 <= n4 <= 24 ∧ (d2 < 36524 -> 1461 * n4 + 1461 <= 36524 ∨ d2 - 1461 * n4 < 1460))
    by (subst n4; divlia).
  assert (H3 : 0 <= d3 < 1461 ∧ d2 = 1461 * n4 + d3) by (subst d3 n4; divlia).
  assert (Hn1 : 0 <= n1 <= 3 ∧ 0 <= d3 - 365 * n1 ∧ (n1 < 3 -> d3 - 365 * n1 < 365)
                ∧ d3 - 365 * n1 <= 365) by (subst n1; divlia).
  assert (Hd2 : d2 = d1 - 36524 * n100) by reflexivity.
  clearbody d1 n100 d2 n4 d3 n1 n400.
  replace (400 * n400 + 100 * n100 + 4 * n4 + n1 + 1 - 1)
    with (400 * n400 + 100 * n100 + 4 * n4 + n1) by lia.
  split.
  - assert (Hq4 : (400 * n400 + 100 * n100 + 4 * n4 + n1) / 4
                  = 100 * n400 + 25 * n100 + n4) by divlia.
    assert (Hq100 : (400 * n400 + 100 * n100 + 4 * n4 + n1) / 100
                    = 4 * n400 + n100) by divlia.
    assert (Hq400 : (400 * n400 + 100 * n100 + 4 * n4 + n1) / 400 = n400) by divlia.
    rewrite Hq4, Hq100, Hq400. lia.
  - destruct Hn1 as (Hn1 & Hlo & Hmid & Hhi). split; [lia|].
    destruct ((400 * n400 + 100 * n100 + 4 * n4 + n1 + 1) mod 4 =? 0) eqn:E4;
      cbn [andb].
    + destruct (negb ((400 * n400 + 100 * n100 + 4 * n4 + n1 + 1) mod 100 =? 0)
                || ((400 * n400 + 100 * n100 + 4 * n4 + n1 + 1) mod 400 =? 0)) eqn:E100.
      * lia.
      * apply orb_false_iff in E100 as [Ea Eb].
        apply negb_false_iff in Ea. apply Z.eqb_eq in Ea. apply Z.eqb_neq in Eb.
        apply Z.eqb_eq in E4. divlia.
    + apply Z.eqb_neq in E4. divlia.
Qed.

Lemma monthDay_spec (leap : bool) yd m md :
  0 <= yd < (if leap then 366 else 365) ->
  monthDay leap 11 1 yd = (m, md) ->
  1 <= m <= 12 ∧ 1 <= md <= daysIn leap m
  ∧ daysBefore leap (Z.to_nat (m - 1)) m + (md - 1) = yd.
Proof.
  intros Hyd. cbn [monthDay].
  change (1 + 1) with 2. change (2 + 1) with 3. change (3 + 1) with 4.
  change (4 + 1) with 5. change (5 + 1) with 6. change (6 + 1) with 7.
  change (7 + 1) with 8. change (8 + 1) with 9. change (9 + 1) with 10.
  change (10 + 1) with 11. change (11 + 1) with 12.
  destruct leap;
    repeat match goal with
           | |- context [daysIn ?l ?k] =>
               let v := eval vm_compute in (daysIn l k) in
               change (daysIn l k) with v
           end;
    repeat match goal with
           | |- context [if ?a <? ?b then _ else _] => destruct (Z.ltb_spec a b)
           end;
    intros [= <- <-];
    repeat match goal with
           | |- context [daysBefore ?l ?f ?k] =>
               let v := eval vm_compute in (daysBefore l f k) in
               change (daysBefore l f k) with v
           end;
    lia.
Qed.

Lemma num2_digits n :
  0 <= n < 100 -> num2 (chr (48 + n / 10)) (chr (48 + n mod 10)) = Some n.
Proof.
  intros Hn. unfold num2.
  rewrite !strconv_facts.isDigit_chr by divlia. cbn [andb].
  rewrite !byte_chr by divlia. f_equal. divlia.
Qed.

Lemma parseFraction_fraction p : ∀ n rest,
  0 <= n < 10 ^ Z.of_nat p ->
  parseFraction p (fraction p n +:+ String "Z" rest) = (n, String "Z" rest).
Proof.
  induction p as [|p IH]; intros n rest Hn.
  - cbn [fraction parseFraction]. rewrite append_nil_l.
    change (10 ^ Z.of_nat 0) with 1 in Hn. f_equal. lia.
  - cbn [fraction]. destruct (Z.eqb_spec n 0) as [->|Hne].
    + rewrite append_nil_l. reflexivity.
    + rewrite append_cons. cbn [parseFraction].
      assert (Hp : 0 < 10 ^ Z.of_nat p) by (apply Z.pow_pos_nonneg; lia).
      assert (Hq : 0 <= n / 10 ^ Z.of_nat p < 10).
      { split; [apply Z.div_pos; lia|].
        apply Z.div_lt_upper_bound; [lia|].
        rewrite Nat2Z.inj_succ, Z.pow_succ_r in Hn by lia. lia. }
      rewrite strconv_facts.isDigit_chr by assumption.
      rewrite IH by (apply Z.mod_pos_bound; lia).
      rewrite byte_chr by lia. f_equal.
      pose proof (Z.div_mod n (10 ^ Z.of_nat p) ltac:(lia)). lia.
Qed.

Lemma fraction_head n :
  0 < n < 10 ^ 9 ->
  ∃ c f, fraction 9 n = String c f ∧ strconv.isDigit c = true.
Proof.
  intros Hn. cbn [fraction]. destruct (Z.eqb_spec n 0) as [?|_]; [lia|].
  eexists _, _. split; [reflexivity|].
  apply strconv_facts.isDigit_chr.
  change (Z.of_nat 8) with 8. divlia.
Qed.

Lemma parse_fields year month day hour min sec nsec X :
  0 <= year < 10000 -> 1 <= month <= 12 ->
  1 <= day <= daysIn (isLeap year) month ->
  0 <= hour < 24 -> 0 <= min < 60 -> 0 <= sec < 60 -> 0 <= nsec < 10 ^ 9 ->
  parseRFC3339
    (digits4 year +:+ "-" +:+ digits2 month +:+ "-" +:+ digits2 day +:+ "T"
     +:+ digits2 hour +:+ ":" +:+ digits2 min +:+ ":" +:+ digits2 sec
     +:+ (if nsec =? 0 then "" else String "." (fraction 9 nsec))
     +:+ "Z" +:+ X)
  = Some (Date year month day hour min sec nsec, X).
Proof.
  intros Hy Hm Hd Hh Hmi Hs Hn.
  assert (Hdays : daysIn (isLeap year) month <= 31).
  { unfold daysIn. repeat match goal with |- context [if ?b then _ else _] => destruct b end; lia. }
  unfold digits4, digits2.
  rewrite ?append_assoc, ?append_cons, ?append_nil_l.
  unfold parseRFC3339.
  rewrite !num2_digits by divlia.
  change (Ascii.eqb "-" "-") with true. change (Ascii.eqb "T" "T") with true.
  change (Ascii.eqb ":" ":") with true. cbn [andb].
  replace (year / 100 * 100 + year mod 100) with year by divlia.
  replace (1 <=? month) with true by (symmetry; apply Z.leb_le; lia).
  replace (month <=? 12) with true by (symmetry; apply Z.leb_le; lia).
  replace (1 <=? day) with true by (symmetry; apply Z.leb_le; lia).
  replace (day <=? daysIn (isLeap year) month) with true by (symmetry; apply Z.leb_le; lia).
  replace (hour <? 24) with true by (symmetry; apply Z.ltb_lt; lia).
  replace (min <? 60) with true by (symmetry; apply Z.ltb_lt; lia).
  replace (sec <? 60) with true by (symmetry; apply Z.ltb_lt; lia).
  cbn [andb].
  destruct (Z.eqb_spec nsec 0) as [->|Hne].
  - rewrite append_nil_l. destruct X; reflexivity.
  - destruct (fraction_head nsec ltac:(lia)) as (c & f & Hf & Hc).
    rewrite append_cons. rewrite Hf at 1. rewrite append_cons.
    change (Ascii.eqb "." ".") with true. rewrite Hc. cbn [andb].
    rewrite <- append_cons, <- Hf.
    rewrite parseFraction_fraction by (change (Z.of_nat 9) with 9; lia).
    reflexivity.
Qed.

(** What [MarshalJSON] writes for an instant of the years 0 to 9999,
    [readTime] reads back as that instant. *)
Theorem readTime_MarshalJSON t rest :
  validTime t = true ->
  ∃ s, MarshalJSON t = Ok s ∧ readTime (s +:+ rest) = Some (t, rest).
Proof.
  unfold validTime, Year. intros Hv.
  repeat (apply andb_true_iff in Hv as [Hv ?]).
  apply Z.leb_le in Hv. apply Z.ltb_lt in H. apply Z.leb_le in H0. apply Z.ltb_lt in H1.
  unfold MarshalJSON, Year.
  replace ((fst (yearDay (seconds t / secondsPerDay)) <? 0)
           || (10000 <=? fst (yearDay (seconds t / secondsPerDay)))) with false
    by (symmetry; apply orb_false_iff; split; [apply Z.ltb_ge|apply Z.leb_gt]; lia).
  eexists. split; [reflexivity|].
  rewrite append_cons, append_assoc, append_cons, append_nil_l.
  unfold readTime. change (byte quote =? 34) with true. cbv iota.
  unfold formatRFC3339Nano.
  destruct (yearDay (seconds t / secondsPerDay)) as [year yday] eqn:Hyd.
  destruct (monthDay (isLeap year) 11 1 yday) as [month mday] eqn:Hmd.
  destruct (yearDay_spec _ _ _ Hyd) as [Hsum Hyday].
  destruct (monthDay_spec _ _ _ _ Hyday Hmd) as (Hmonth & Hmday & Hbefore).
  cbn [fst] in *.
  pose proof (Z.mod_pos_bound (seconds t) secondsPerDay ltac:(reflexivity)) as Hclock.
  unfold secondsPerDay in *.
  set (clock := seconds t mod 86400) in *.
  rewrite !append_assoc.
  rewrite parse_fields by (try assumption; try lia; divlia).
  change (byte quote =? 34) with true. cbv iota.
  do 2 f_equal. destruct t as [s n]. unfold Date. cbn [seconds nanos] in *.
  f_equal. subst clock. unfold secondsPerDay.
  generalize dependent (daysBefore (isLeap year) (Z.to_nat (month - 1)) month).
  generalize dependent (daysBeforeYear year).
  intros. divlia.
Qed.

End time_facts.

(** ** encoding/json: a record written and read back *)

Module json_facts.
Import json.

Lemma expect_append a b X : expect (a +:+ b) (a +:+ b +:+ X) = Some X.
Proof.
  rewrite <- append_assoc. generalize (a +:+ b). clear a b.
  intros l. induction l as [|c l IH]; [destruct X; reflexivity|].
  rewrite append_cons. cbn [expect]. rewrite Ascii.eqb_refl. exact IH.
Qed.

Lemma isDigit_isNumberChar c : strconv.isDigit c = true -> isNumberChar c = true.
Proof. unfold isNumberChar. intros ->. reflexivity. Qed.

Lemma spanNumber_digits ds rest :
  allDigits ds = true -> spanNumber rest = ("", rest) ->
  spanNumber (ds +:+ rest) = (ds, rest).
Proof.
  intros Hd Hrest. induction ds as [|c ds IH]; [exact Hrest|].
  cbn [allDigits] in Hd. apply andb_true_iff in Hd as [Hc Hd].
  rewrite append_cons. cbn [spanNumber].
  rewrite (isDigit_isNumberChar c Hc), (IH Hd). reflexivity.
Qed.

Lemma FormatInt_shape i :
  ∃ ds c t, (strconv.FormatInt i = ds ∨ strconv.FormatInt i = String "-" ds)
            ∧ allDigits ds = true ∧ ds = String c t
            ∧ (c = "0"%char -> t = "").
Proof.
  unfold strconv.FormatInt. destruct (Z.ltb_spec i 0) as [Hneg|Hpos].
  - destruct (strconv_facts.formatBits_spec _ (- i) ""
                (strconv_facts.log2_fuel (- i) ltac:(lia)))
      as (ds & k & Hfmt & Hall & Hk & Hparse & c & t & Hds & Hzero).
    rewrite append_nil_r in Hfmt. exists ds, c, t.
    split; [right; now rewrite Hfmt|]. repeat split; auto. intros E. now apply Hzero.
  - destruct (strconv_facts.formatBits_spec _ i ""
                (strconv_facts.log2_fuel i ltac:(lia)))
      as (ds & k & Hfmt & Hall & Hk & Hparse & c & t & Hds & Hzero).
    rewrite append_nil_r in Hfmt. exists ds, c, t.
    split; [left; exact Hfmt|]. repeat split; auto. intros E. now apply Hzero.
Qed.

Lemma digit_not_minus c : strconv.isDigit c = true -> Ascii.eqb c "-" = false.
Proof.
  unfold strconv.isDigit. intros Hc. apply andb_true_iff in Hc as [Hc _].
  apply Z.leb_le in Hc. rewrite ascii_eqb_byte. change (byte "-") with 45.
  apply Z.eqb_neq. lia.
Qed.

(** An [int] written by [FormatInt] is read back by [readInt], which
    stops at the first octet that cannot continue a number. *)
Lemma readInt_FormatInt i rest :
  is_int i = true -> spanNumber rest = ("", rest) ->
  readInt (strconv.FormatInt i +:+ rest) = Some (i, rest).
Proof.
  intros Hi Hrest. unfold readInt.
  pose proof (strconv_facts.ParseInt_FormatInt "ParseInt" i Hi) as Hparse.
  destruct (FormatInt_shape i) as (ds & c & t & Hshape & Hall & Hds & Hzero).
  assert (Hc : strconv.isDigit c = true).
  { rewrite Hds in Hall. cbn [allDigits] in Hall.
    now apply andb_true_iff in Hall as [? _]. }
  assert (Hlit : (if Ascii.eqb c "0" then String.eqb t "" else true) = true).
  { destruct (Ascii.eqb_spec c "0") as [E|_]; [|reflexivity].
    rewrite (Hzero E). reflexivity. }
  destruct Hshape as [Hf|Hf]; rewrite Hf in *.
  - rewrite (spanNumber_digits ds rest Hall Hrest).
    unfold intLiteral. rewrite Hds, (digit_not_minus c Hc), Hlit, <- Hds, Hall.
    cbn [andb]. rewrite Hparse. reflexivity.
  - rewrite append_cons. cbn [spanNumber].
    change (isNumberChar "-") with true. cbv iota.
    rewrite (spanNumber_digits ds rest Hall Hrest).
    unfold intLiteral. change (Ascii.eqb "-" "-") with true. cbv iota.
    rewrite Hds, Hlit, <- Hds, Hall. cbn [andb]. rewrite Hparse. reflexivity.
Qed.

(** Reading back a written record gives the record, its strings coerced
    to UTF-8. *)
Theorem unmarshal_marshal a :
  is_int (Balance a) = true -> is_int (TransAmount a) = true ->
  validTime (Timestamp a) = true ->
  ∃ data, marshal a = Ok data ∧ unmarshal data = Ok (coerceAsset a).
Proof.
  intros Hb Ht Hv. unfold marshal.
  destruct (time_facts.readTime_MarshalJSON (Timestamp a) "}" Hv) as (ts & Hts & Hread).
  rewrite Hts. eexists. split; [reflexivity|].
  unfold unmarshal, decode.
  rewrite expect_append. cbn [mbind option_bind].
  rewrite jsonstring_facts.readString_appendString. cbn [mbind option_bind].
  rewrite expect_append. cbn [mbind option_bind].
  rewrite jsonstring_facts.readString_appendString. cbn [mbind option_bind].
  rewrite expect_append. cbn [mbind option_bind].
  rewrite jsonstring_facts.readString_appendString. cbn [mbind option_bind].
  rewrite expect_append. cbn [mbind option_bind].
  rewrite readInt_FormatInt by (assumption || reflexivity). cbn [mbind option_bind].
  rewrite expect_append. cbn [mbind option_bind].
  rewrite jsonstring_facts.readString_appendString. cbn [mbind option_bind].
  rewrite expect_append. cbn [mbind option_bind].
  rewrite readInt_FormatInt by (assumption || reflexivity). cbn [mbind option_bind].
  rewrite expect_append. cbn [mbind option_bind].
  rewrite jsonstring_facts.readString_appendString. cbn [mbind option_bind].
  rewrite expect_append. cbn [mbind option_bind].
  rewrite jsonstring_facts.readString_appendString. cbn [mbind option_bind].
  rewrite expect_append. cbn [mbind option_bind].
  rewrite Hread. cbn [mbind option_bind].
  reflexivity.
Qed.

Lemma coerceAsset_valid a : validAsset a = true -> coerceAsset a = a.
Proof.
  unfold validAsset. intros Hv.
  repeat (apply andb_true_iff in Hv as [Hv ?]).
  unfold coerceAsset.
  rewrite !jsonstring_facts.toValidUTF8_valid by assumption.
  destruct a; reflexivity.
Qed.

End json_facts.

(** ** The stub and the monad *)

Ltac tx_unfold :=
  unfold mbind, mret, Tx_bind, Tx_ret, wrapErr, lift, throw,
         GetState, PutState, GetTxTimestamp in *.

Section ContractFacts.

Context `{Codec}.

Lemma AssetExists_eq ctx k w :
  AssetExists ctx k w =
  match getStateErr ctx k with
  | Some e => (Err (StoreReadError e), w)
  | None => (Ok (match payload (w !! k) with Some _ => true | None => false end), w)
  end.
Proof. unfold AssetExists. tx_unfold. destruct (getStateErr ctx k); reflexivity. Qed.

Lemma ReadAsset_eq ctx k w :
  ReadAsset ctx k w =
  match getStateErr ctx k with
  | Some e => (Err (StoreReadError e), w)
  | None =>
      match payload (w !! k) with
      | None => (Err (NotFound k), w)
      | Some v =>
          match Unmarshal v with
          | Ok a => (Ok a, w)
          | Err e => (Err (DeserializationError e), w)
          end
      end
  end.
Proof.
  unfold ReadAsset. tx_unfold.
  destruct (getStateErr ctx k); [reflexivity|].
  destruct (payload (w !! k)); [|reflexivity].
  destruct (Unmarshal s); reflexivity.
Qed.

Lemma ReadAsset_world ctx k w : snd (ReadAsset ctx k w) = w.
Proof.
  rewrite ReadAsset_eq.
  destruct (getStateErr ctx k); [reflexivity|].
  destruct (payload (w !! k)); [|reflexivity].
  destruct (Unmarshal s); reflexivity.
Qed.

Lemma payload_None (v : option string) :
  payload v = None ↔ v = None ∨ v = Some "".
Proof.
  destruct v as [[|c s]|]; simpl; split; intros; auto;
    try discriminate; destruct H0; discriminate.
Qed.

Lemma payload_Some (v : option string) s :
  payload v = Some s ↔ v = Some s ∧ s ≠ "".
Proof.
  destruct v as [[|c t]|]; simpl; split.
  all: try (intros [? ?]; congruence); try discriminate.
  intros [= <-]. split; [reflexivity|discriminate].
Qed.

End ContractFacts.

(** ** The contract, for any codec *)

Section ContractSteps.

Context `{Codec}.

Lemma int_sub_diag n : int_sub n n = 0.
Proof. unfold int_sub. rewrite Z.sub_diag. reflexivity. Qed.

(** [CreateAsset], branch by branch. *)
Lemma CreateAsset_eq ctx d k p b s ty r w :
  CreateAsset ctx d k p b s ty r w =
  match getStateErr ctx k with
  | Some e => (Err (ExistenceCheckFailed (StoreReadError e)), w)
  | None =>
    match payload (w !! k) with
    | Some _ => (Err (AlreadyExists k), w)
    | None =>
      match txTimestamp ctx with
      | Err e => (Err (TxTimestampError e), w)
      | Ok pb =>
        match ptypes.Timestamp pb with
        | Err e => (Err (TimestampError e), w)
        | Ok ts =>
          match Marshal (mkAsset d k p b s 0 "" "" ts) with
          | Err e => (Err (SerializationError e), w)
          | Ok data =>
            match putStateErr ctx k data with
            | Some e => (Err e, w)
            | None => (Ok (), <[k := data]> w)
            end
          end
        end
      end
    end
  end.
Proof.
  unfold CreateAsset, AssetExists, set_Timestamp, GetTxTimestamp. tx_unfold.
  cbn [DealerID MSISDN MPIN Balance Status TransAmount TransType Remarks].
  destruct (getStateErr ctx k); [reflexivity|].
  destruct (payload (w !! k)); [reflexivity|].
  destruct (txTimestamp ctx) as [pb|]; [|reflexivity].
  destruct (ptypes.Timestamp pb) as [ts|]; [|reflexivity].
  destruct (Marshal _) as [data|]; [|reflexivity].
  destruct (putStateErr ctx k data); reflexivity.
Qed.

(** [UpdateAsset], branch by branch.  The amount is computed from the
    balance just assigned. *)
Lemma UpdateAsset_eq ctx k nb ns ty r w :
  UpdateAsset ctx k nb ns ty r w =
  match ReadAsset ctx k w with
  | (Err e, _) => (Err (ReadFailed e), w)
  | (Ok a, _) =>
    match strconv.Atoi nb with
    | Err e => (Err (InvalidBalanceFormat e), w)
    | Ok n =>
      match txTimestamp ctx with
      | Err e => (Err (TxTimestampError e), w)
      | Ok pb =>
        match ptypes.Timestamp pb with
        | Err e => (Err (TimestampError e), w)
        | Ok ts =>
          match Marshal (mkAsset (DealerID a) (MSISDN a) (MPIN a) n ns
                                 (int_sub n n) ty r ts) with
          | Err e => (Err (SerializationError e), w)
          | Ok data =>
            match putStateErr ctx k data with
            | Some e => (Err e, w)
            | None => (Ok (), <[k := data]> w)
            end
          end
        end
      end
    end
  end.
Proof.
  unfold UpdateAsset. unfold mbind at 1. unfold Tx_bind at 1. unfold wrapErr at 1.
  pose proof (ReadAsset_world ctx k w) as Hw.
  destruct (ReadAsset ctx k w) as [[a|e] w0]; cbn [snd] in Hw; subst w0;
    [|reflexivity].
  unfold set_Balance, set_Status, set_TransAmount, set_TransType, set_Remarks,
    set_Timestamp, GetTxTimestamp. tx_unfold.
  cbn [DealerID MSISDN MPIN Balance Status TransAmount TransType Remarks].
  destruct (strconv.Atoi nb) as [n|]; [|reflexivity].
  destruct (txTimestamp ctx) as [pb|]; [|reflexivity].
  destruct (ptypes.Timestamp pb) as [ts|]; [|reflexivity].
  destruct (Marshal _) as [data|]; [|reflexivity].
  destruct (putStateErr ctx k data); reflexivity.
Qed.

(** A successful [CreateAsset]: the key held nothing, and the record
    built from the arguments, stamped with the transaction time, is put
    under it. *)
Lemma CreateAsset_ok ctx d k p b s ty r w w' :
  CreateAsset ctx d k p b s ty r w = (Ok (), w') ->
  getStateErr ctx k = None ∧ payload (w !! k) = None
  ∧ ∃ pb ts data,
      txTimestamp ctx = Ok pb ∧ ptypes.Timestamp pb = Ok ts
      ∧ Marshal (mkAsset d k p b s 0 "" "" ts) = Ok data
      ∧ putStateErr ctx k data = None
      ∧ w' = <[k := data]> w.
Proof.
  rewrite CreateAsset_eq.
  destruct (getStateErr ctx k); [discriminate|].
  destruct (payload (w !! k)); [discriminate|].
  destruct (txTimestamp ctx) as [pb|]; [|discriminate].
  destruct (ptypes.Timestamp pb) as [ts|] eqn:Hts; [|discriminate].
  destruct (Marshal _) as [data|] eqn:Hm; [|discriminate].
  destruct (putStateErr ctx k data) eqn:Hp; [discriminate|].
  intros [= <-]. repeat split; eauto 10.
Qed.

(** A failed [CreateAsset] writes nothing. *)
Lemma CreateAsset_err ctx d k p b s ty r w w' e :
  CreateAsset ctx d k p b s ty r w = (Err e, w') -> w' = w.
Proof.
  rewrite CreateAsset_eq.
  repeat match goal with
         | |- context [match ?x with _ => _ end] => destruct x
         end; congruence.
Qed.

(** A successful [UpdateAsset]: the record read under the key, with the
    five assignments and the transaction time, is put back under it. *)
Lemma UpdateAsset_ok ctx k nb ns ty r w w' :
  UpdateAsset ctx k nb ns ty r w = (Ok (), w') ->
  ∃ a n pb ts data,
    ReadAsset ctx k w = (Ok a, w) ∧ strconv.Atoi nb = Ok n
    ∧ txTimestamp ctx = Ok pb ∧ ptypes.Timestamp pb = Ok ts
    ∧ Marshal (mkAsset (DealerID a) (MSISDN a) (MPIN a) n ns (int_sub n n) ty r ts)
      = Ok data
    ∧ putStateErr ctx k data = None
    ∧ w' = <[k := data]> w.
Proof.
  rewrite UpdateAsset_eq.
  pose proof (ReadAsset_world ctx k w) as Hw.
  destruct (ReadAsset ctx k w) as [[a|e] w0]; cbn [snd] in Hw; subst w0;
    [|discriminate].
  destruct (strconv.Atoi nb) as [n|]; [|discriminate].
  destruct (txTimestamp ctx) as [pb|]; [|discriminate].
  destruct (ptypes.Timestamp pb) as [ts|] eqn:Hts; [|discriminate].
  destruct (Marshal _) as [data|] eqn:Hm; [|discriminate].
  destruct (putStateErr ctx k data) eqn:Hp; [discriminate|].
  intros [= <-]. eauto 15.
Qed.

(** A failed [UpdateAsset] writes nothing. *)
Lemma UpdateAsset_err ctx k nb ns ty r w w' e :
  UpdateAsset ctx k nb ns ty r w = (Err e, w') -> w' = w.
Proof.
  rewrite UpdateAsset_eq.
  destruct (ReadAsset ctx k w) as [[a|e0] w0]; [|congruence].
  repeat match goal with
         | |- context [match ?x with _ => _ end] => destruct x
         end; congruence.
Qed.

(** [CreateAsset] on a key that holds a value. *)
Lemma CreateAsset_existing ctx d k p b s ty r w v :
  getStateErr ctx k = None -> w !! k = Some v -> v ≠ "" ->
  CreateAsset ctx d k p b s ty r w = (Err (AlreadyExists k), w).
Proof.
  intros Hg Hw Hv. rewrite CreateAsset_eq, Hg, Hw.
  destruct v; [contradiction|reflexivity].
Qed.

(** The loop of [InitLedger] on one more record. *)
Lemma putAssets_cons ctx a l w :
  putAssets ctx (a :: l) w =
  match Marshal a with
  | Err e => (Err e, w)
  | Ok data =>
      match putStateErr ctx (MSISDN a) data with
      | Some e => (Err (StoreWriteError e), w)
      | None => putAssets ctx l (<[MSISDN a := data]> w)
      end
  end.
Proof.
  cbn [putAssets]. tx_unfold. destruct (Marshal a); [|reflexivity].
  destruct (putStateErr ctx (MSISDN a) a0); reflexivity.
Qed.

(** [InitLedger], branch by branch: two records, each serialized and
    put under its MSISDN, up to the first failure. *)
Lemma InitLedger_eq ctx w :
  InitLedger ctx w =
  match Marshal (mkAsset "D001" "1234567890" "1234" 1000 "Active" 0 "" "" time.zero) with
  | Err e => (Err e, w)
  | Ok d1 =>
    match putStateErr ctx "1234567890" d1 with
    | Some e => (Err (StoreWriteError e), w)
    | None =>
      match Marshal (mkAsset "D002" "9876543210" "5678" 1500 "Active" 0 "" ""
                             time.zero) with
      | Err e => (Err e, <["1234567890" := d1]> w)
      | Ok d2 =>
        match putStateErr ctx "9876543210" d2 with
        | Some e => (Err (StoreWriteError e), <["1234567890" := d1]> w)
        | None => (Ok (), <["9876543210" := d2]> (<["1234567890" := d1]> w))
        end
      end
    end
  end.
Proof.
  unfold InitLedger, seedAssets.
  rewrite putAssets_cons. cbn [MSISDN].
  destruct (Marshal _) as [d1|]; [|reflexivity].
  destruct (putStateErr ctx "1234567890" d1); [reflexivity|].
  rewrite putAssets_cons. cbn [MSISDN].
  destruct (Marshal _) as [d2|]; [|reflexivity].
  destruct (putStateErr ctx "9876543210" d2); reflexivity.
Qed.

End ContractSteps.

(** ** Transaction timestamps *)

Lemma Year_range d :
  0 <= d < 3652059 -> 1 <= fst (time.yearDay d) < 10000.
Proof.
  intros Hd. destruct (time.yearDay d) as [y yd] eqn:Hy.
  destruct (time_facts.yearDay_spec _ _ _ Hy) as [Hsum Hyd]. cbn [fst].
  unfold time.daysBeforeYear in Hsum.
  assert (Hyd' : 0 <= yd < 366) by (destruct (time.isLeap y); lia).
  clear Hyd Hy. divlia.
Qed.

(** The instant of a valid transaction timestamp can be serialized. *)
Lemma Timestamp_valid pb ts : ptypes.Timestamp pb = Ok ts -> validTime ts = true.
Proof.
  unfold ptypes.Timestamp, ptypes.minValidSeconds, ptypes.maxValidSeconds.
  destruct pb as [[sec ns]|]; [|discriminate]. cbn [ptypes.Seconds ptypes.Nanos].
  destruct (Z.ltb_spec sec (-62135596800)); [discriminate|].
  destruct (Z.leb_spec 253402300800 sec); [discriminate|].
  destruct ((ns <? 0) || (1000000000 <=? ns)) eqn:Hns; [discriminate|].
  apply orb_false_iff in Hns as [Hlo Hhi]. apply Z.ltb_ge in Hlo. apply Z.leb_gt in Hhi.
  intros [= <-]. unfold validTime, time.Year, time.Unix. cbn [time.seconds time.nanos].
  rewrite (Z.div_small ns) by lia. rewrite (Z.mod_small ns) by lia.
  change time.unixToInternal with 62135596800. unfold time.secondsPerDay.
  pose proof (Year_range ((sec + 0 + 62135596800) / 86400) ltac:(divlia)) as Hy.
  repeat (apply andb_true_iff; split);
    first [apply Z.leb_le | apply Z.ltb_lt]; lia.
Qed.

(** ** Existence and reading *)

(** C5. [AssetExists] returns an error exactly when the read of the world
    state fails, and then it is that failure; when the read succeeds, an
    absent key gives [false] and a stored non-empty value gives [true],
    both without error. *)
Theorem AssetExists_result `{Codec} ctx k w :
  ((∃ e, fst (AssetExists ctx k w) = Err e) ↔ (∃ e, getStateErr ctx k = Some e))
  ∧ (∀ e, getStateErr ctx k = Some e ->
          AssetExists ctx k w = (Err (StoreReadError e), w))
  ∧ (getStateErr ctx k = None -> w !! k = None ->
     AssetExists ctx k w = (Ok false, w))
  ∧ (∀ v, getStateErr ctx k = None -> w !! k = Some v -> v ≠ "" ->
          AssetExists ctx k w = (Ok true, w)).
Proof.
  rewrite AssetExists_eq. repeat split.
  - intros [e He]. destruct (getStateErr ctx k); [eauto|discriminate He].
  - intros [e He]. rewrite He. eauto.
  - intros e ->. reflexivity.
  - intros -> ->. reflexivity.
  - intros v -> -> Hv. destruct v; [contradiction|reflexivity].
Qed.

Lemma AssetExists_result_witness :
  AssetExists (quietCtx sampleTime) "1234567890" seededLedger = (Ok true, seededLedger)
  ∧ AssetExists (quietCtx sampleTime) "5550000000" seededLedger = (Ok false, seededLedger)
  ∧ AssetExists (unreadableCtx (ErrPlatform "GET_STATE failed")) "1234567890" seededLedger
    = (Err (StoreReadError (ErrPlatform "GET_STATE failed")), seededLedger).
Proof.
  split; [|split].
  - eapply (proj2 (proj2 (proj2 (AssetExists_result _ _ _)))).
    + reflexivity.
    + vm_compute. reflexivity.
    + discriminate.
  - apply (proj1 (proj2 (proj2 (AssetExists_result _ _ _)))); reflexivity.
  - apply (proj1 (proj2 (AssetExists_result _ _ _))). reflexivity.
Defined.

(** C6. A key that holds nothing does not exist and cannot be read:
    [ReadAsset] fails with [NotFound].  In general [ReadAsset] fails with
    [NotFound] exactly when the read succeeds and the stored value is absent
    or empty, with [StoreReadError] exactly when the read fails, and with
    [DeserializationError] exactly when the stored octets do not parse into
    a record; it never writes. *)
Theorem ReadAsset_result `{Codec} ctx k w :
  (getStateErr ctx k = None -> w !! k = None ->
   AssetExists ctx k w = (Ok false, w) ∧ ReadAsset ctx k w = (Err (NotFound k), w))
  ∧ (fst (ReadAsset ctx k w) = Err (NotFound k)
     ↔ getStateErr ctx k = None ∧ (w !! k = None ∨ w !! k = Some ""))
  ∧ (∀ e, fst (ReadAsset ctx k w) = Err (StoreReadError e) ↔ getStateErr ctx k = Some e)
  ∧ (∀ e, fst (ReadAsset ctx k w) = Err (DeserializationError e)
          ↔ getStateErr ctx k = None
            ∧ ∃ v, w !! k = Some v ∧ v ≠ "" ∧ Unmarshal v = Err e)
  ∧ snd (ReadAsset ctx k w) = w.
Proof.
  split; [|split; [|split; [|split]]].
  - intros Hg Hw. rewrite AssetExists_eq, ReadAsset_eq, Hg, Hw. split; reflexivity.
  - rewrite ReadAsset_eq. split.
    + destruct (getStateErr ctx k); [discriminate|].
      destruct (payload (w !! k)) as [v|] eqn:Hp.
      * destruct (Unmarshal v); discriminate.
      * intros _. split; [reflexivity|]. now apply payload_None.
    + intros [-> Hw]. apply payload_None in Hw. rewrite Hw. reflexivity.
  - intros e. rewrite ReadAsset_eq. split.
    + destruct (getStateErr ctx k); [now intros [= ->]|].
      destruct (payload (w !! k)) as [v|]; [|discriminate].
      destruct (Unmarshal v); discriminate.
    + intros ->. reflexivity.
  - intros e. rewrite ReadAsset_eq. split.
    + destruct (getStateErr ctx k); [discriminate|].
      destruct (payload (w !! k)) as [v|] eqn:Hp; [|discriminate].
      apply payload_Some in Hp as [Hw Hv].
      destruct (Unmarshal v) eqn:Hu; [discriminate|].
      intros [= ->]. split; [reflexivity|]. eauto.
    + intros [-> (v & Hw & Hv & Hu)].
      assert (Hp : payload (w !! k) = Some v) by (apply payload_Some; auto).
      rewrite Hp, Hu. reflexivity.
  - apply ReadAsset_world.
Qed.

Lemma ReadAsset_result_witness :
  AssetExists (quietCtx sampleTime) "5550000000" seededLedger = (Ok false, seededLedger)
  ∧ ReadAsset (quietCtx sampleTime) "5550000000" seededLedger
    = (Err (NotFound "5550000000"), seededLedger).
Proof.
  apply (proj1 (ReadAsset_result (quietCtx sampleTime) "5550000000" seededLedger));
    reflexivity.
Defined.

(** ** Creation *)

(** C4. After a successful [CreateAsset] the value under the key is the
    serialization of a record with the supplied dealer, key, PIN, balance
    and status, and with amount 0 and empty type and remarks whatever was
    passed for them. *)
Theorem CreateAsset_record `{Codec} ctx d k p b s ty r w w' :
  CreateAsset ctx d k p b s ty r w = (Ok (), w') ->
  ∃ a, stores w' k a
       ∧ TransAmount a = 0 ∧ TransType a = "" ∧ Remarks a = ""
       ∧ DealerID a = d ∧ MSISDN a = k ∧ MPIN a = p ∧ Balance a = b ∧ Status a = s.
Proof.
  intros Hc.
  destruct (CreateAsset_ok _ _ _ _ _ _ _ _ _ _ Hc)
    as (_ & _ & pb & ts & data & _ & _ & Hm & _ & ->).
  exists (mkAsset d k p b s 0 "" "" ts). split.
  - exists data. split; [exact Hm|]. apply lookup_insert_eq.
  - repeat split.
Qed.

Lemma CreateAsset_record_witness :
  ∃ a, stores (snd (CreateAsset (quietCtx sampleTime) "D003" "5550000000" "4321" 250
                      "Active" "Credit" "opening" seededLedger))
              "5550000000" a
       ∧ TransAmount a = 0 ∧ TransType a = "" ∧ Remarks a = ""
       ∧ DealerID a = "D003" ∧ MSISDN a = "5550000000" ∧ MPIN a = "4321"
       ∧ Balance a = 250 ∧ Status a = "Active".
Proof.
  apply (CreateAsset_record (quietCtx sampleTime) "D003" "5550000000" "4321" 250
           "Active" "Credit" "opening" seededLedger).
  vm_compute. reflexivity.
Defined.

(** After a successful [CreateAsset] the key exists, and reading it returns
    the record: the supplied balance, amount 0, empty type and remarks, and
    the supplied strings coerced to UTF-8. *)
Lemma CreateAsset_read ctx ctx' d k p b s ty r (w w' : gmap string string) :
  is_int b = true ->
  CreateAsset ctx d k p b s ty r w = (Ok (), w') ->
  getStateErr ctx' k = None ->
  AssetExists ctx' k w' = (Ok true, w')
  ∧ ∃ ts, ReadAsset ctx' k w'
          = (Ok (coerceAsset (mkAsset d k p b s 0 "" "" ts)), w').
Proof.
  intros Hb Hc Hg.
  destruct (CreateAsset_ok _ _ _ _ _ _ _ _ _ _ Hc)
    as (_ & _ & pb & ts & data & _ & Hts & Hm & _ & ->).
  destruct (json_facts.unmarshal_marshal (mkAsset d k p b s 0 "" "" ts))
    as (data' & Hm' & Hu); [exact Hb|reflexivity|apply (Timestamp_valid pb ts Hts)|].
  cbn [Marshal json.encoding] in Hm. rewrite Hm in Hm'. injection Hm' as <-.
  assert (Hne : data ≠ "").
  { unfold json.marshal in Hm. destruct (time.MarshalJSON _); [|discriminate Hm].
    injection Hm as <-. discriminate. }
  assert (Hp : payload (<[k := data]> w !! k) = Some data).
  { apply payload_Some. split; [apply lookup_insert_eq|exact Hne]. }
  split.
  - rewrite AssetExists_eq, Hg, Hp. reflexivity.
  - exists ts. rewrite ReadAsset_eq, Hg, Hp.
    cbn [Unmarshal json.encoding]. rewrite Hu. reflexivity.
Qed.

(** C2. [CreateAsset] on a key that holds a record fails with
    [AlreadyExists] and leaves the world state as it was; so a second
    [CreateAsset] on the key of a successful first one fails, whatever its
    other arguments, and the record of the first stays. *)
Theorem CreateAsset_twice ctx ctx0 d d0 k p p0 b b0 s s0 ty ty0 r r0
    (w w0 w1 : gmap string string) :
  (∀ v, getStateErr ctx k = None -> w !! k = Some v -> v ≠ "" ->
        CreateAsset ctx d k p b s ty r w = (Err (AlreadyExists k), w))
  ∧ (CreateAsset ctx0 d0 k p0 b0 s0 ty0 r0 w0 = (Ok (), w1) ->
     getStateErr ctx k = None ->
     CreateAsset ctx d k p b s ty r w1 = (Err (AlreadyExists k), w1)).
Proof.
  split.
  - intros v. apply CreateAsset_existing.
  - intros Hc Hg.
    destruct (CreateAsset_ok _ _ _ _ _ _ _ _ _ _ Hc)
      as (_ & _ & pb & ts & data & _ & _ & Hm & _ & ->).
    apply (CreateAsset_existing _ _ _ _ _ _ _ _ _ data Hg).
    + apply lookup_insert_eq.
    + cbn [Marshal json.encoding] in Hm. unfold json.marshal in Hm.
      destruct (time.MarshalJSON _); [|discriminate Hm].
      injection Hm as <-. discriminate.
Qed.

Lemma CreateAsset_twice_witness :
  let w1 := snd (CreateAsset (quietCtx sampleTime) "D003" "5550000000" "4321" 250
                   "Active" "" "" seededLedger) in
  CreateAsset (quietCtx sampleTime) "D004" "5550000000" "0000" 1 "Active" "" "" w1
  = (Err (AlreadyExists "5550000000"), w1).
Proof.
  intros w1.
  apply (proj2 (CreateAsset_twice (quietCtx sampleTime) (quietCtx sampleTime)
                  "D004" "D003" "5550000000" "0000" "4321" 1 250 "Active" "Active"
                  "" "" "" "" seededLedger seededLedger w1)).
  - vm_compute. reflexivity.
  - reflexivity.
Defined.

(** ** Texts that [Atoi] accepts *)

Lemma parseDigits_allDigits ds : ∀ n m,
  strconv.parseDigits ds n = inr m -> json.allDigits ds = true.
Proof.
  induction ds as [|c ds IH]; intros n m; cbn [strconv.parseDigits json.allDigits].
  - reflexivity.
  - destruct (strconv.isDigit c); [|discriminate].
    destruct (strconv.cutoff <=? n); [discriminate|]. cbv zeta.
    destruct (_ || _); [discriminate|]. apply IH.
Qed.

(** [Atoi] accepts decimal numerals only: a text that is not a numeral is
    rejected. *)
Lemma Atoi_numeral s n : strconv.Atoi s = Ok n -> numeral s = true.
Proof.
  unfold strconv.Atoi, strconv.ParseInt, numeral.
  destruct s as [|c t]; [discriminate|].
  destruct (Ascii.eqb c "-" || Ascii.eqb c "+").
  - destruct t as [|c' t']; [discriminate|].
    destruct (strconv.parseDigits _ 0) as [range|un] eqn:Hp; [discriminate|].
    intros _. apply (parseDigits_allDigits _ _ _ Hp).
  - destruct (strconv.parseDigits _ 0) as [range|un] eqn:Hp; [discriminate|].
    intros _. apply (parseDigits_allDigits _ _ _ Hp).
Qed.

(** ** Update *)

(** Every successful [UpdateAsset] stores the amount 0: the balance is
    assigned before the difference is taken. *)
Lemma UpdateAsset_amount `{Codec} ctx k nb ns ty r w w' :
  UpdateAsset ctx k nb ns ty r w = (Ok (), w') ->
  ∃ a n, strconv.Atoi nb = Ok n ∧ stores w' k a
         ∧ Balance a = n ∧ TransAmount a = 0.
Proof.
  intros Hu.
  destruct (UpdateAsset_ok _ _ _ _ _ _ _ _ Hu)
    as (a & n & pb & ts & data & _ & Hn & _ & _ & Hm & _ & ->).
  rewrite int_sub_diag in Hm.
  exists (mkAsset (DealerID a) (MSISDN a) (MPIN a) n ns 0 ty r ts), n.
  split; [exact Hn|]. split; [|split; reflexivity].
  exists data. split; [exact Hm|]. apply lookup_insert_eq.
Qed.

(** C1, on the code: the update of the specification's example, balance
    1000 to ["500"], succeeds and stores balance 500 with amount 0, where
    the difference to the balance read is 500 - 1000 = -500. *)
Theorem UpdateAsset_delta_observed :
  fst (ReadAsset (quietCtx sampleTime) "1234567890" seededLedger)
  = Ok (mkAsset "D001" "1234567890" "1234" 1000 "Active" 0 "" "" time.zero)
  ∧ fst (UpdateAsset (quietCtx sampleTime) "1234567890" "500" "Active" "Credit"
           "top-up" seededLedger) = Ok ()
  ∧ fst (ReadAsset (quietCtx sampleTime) "1234567890"
           (snd (UpdateAsset (quietCtx sampleTime) "1234567890" "500" "Active"
                   "Credit" "top-up" seededLedger)))
    = Ok (mkAsset "D001" "1234567890" "1234" 500 "Active" 0 "Credit" "top-up"
            (time.Unix 1700000000 0))
  ∧ int_sub 500 1000 = -500.
Proof. vm_compute. repeat split. Qed.

(** C3. When the key holds a record and the new balance does not parse as
    an integer ([Atoi] rejects it, as it does every text that is not a
    decimal numeral), [UpdateAsset] fails with [InvalidBalanceFormat] and
    writes nothing. *)
Theorem UpdateAsset_invalid_balance `{Codec} ctx k nb ns ty r w a :
  fst (ReadAsset ctx k w) = Ok a ->
  (∀ e, strconv.Atoi nb = Err e ->
        UpdateAsset ctx k nb ns ty r w = (Err (InvalidBalanceFormat e), w))
  ∧ (numeral nb = false ->
     ∃ e, UpdateAsset ctx k nb ns ty r w = (Err (InvalidBalanceFormat e), w)).
Proof.
  intros Hr.
  assert (Hfail : ∀ e, strconv.Atoi nb = Err e ->
            UpdateAsset ctx k nb ns ty r w = (Err (InvalidBalanceFormat e), w)).
  { intros e Hn. rewrite UpdateAsset_eq.
    destruct (ReadAsset ctx k w) as [[a0|e0] w0]; [|discriminate Hr].
    rewrite Hn. reflexivity. }
  split; [exact Hfail|].
  intros Hnum. destruct (strconv.Atoi nb) as [n|e] eqn:Hn.
  - apply Atoi_numeral in Hn. congruence.
  - exists e. now apply Hfail.
Qed.

Lemma UpdateAsset_invalid_balance_witness :
  UpdateAsset (quietCtx sampleTime) "1234567890" "abc" "Active" "Credit" "top-up"
    seededLedger
  = (Err (InvalidBalanceFormat (NumError "Atoi" "abc" false)), seededLedger).
Proof.
  refine (proj1 (@UpdateAsset_invalid_balance json.encoding (quietCtx sampleTime)
                   "1234567890" "abc" "Active" "Credit" "top-up" seededLedger
                   (mkAsset "D001" "1234567890" "1234" 1000 "Active" 0 "" "" time.zero)
                   _) _ _).
  - vm_compute. reflexivity.
  - reflexivity.
Defined.

(** C9. A successful [UpdateAsset] stores a record with the dealer, PIN
    and MSISDN of the record it read, and touches no other key. *)
Theorem UpdateAsset_identity `{Codec} ctx k nb ns ty r w w' a :
  fst (ReadAsset ctx k w) = Ok a ->
  UpdateAsset ctx k nb ns ty r w = (Ok (), w') ->
  (∃ a', stores w' k a'
         ∧ DealerID a' = DealerID a ∧ MPIN a' = MPIN a ∧ MSISDN a' = MSISDN a)
  ∧ ∀ k', k' ≠ k -> w' !! k' = w !! k'.
Proof.
  intros Hr Hu.
  destruct (UpdateAsset_ok _ _ _ _ _ _ _ _ Hu)
    as (a0 & n & pb & ts & data & Hr0 & _ & _ & _ & Hm & _ & ->).
  rewrite Hr0 in Hr. injection Hr as ->. split.
  - exists (mkAsset (DealerID a) (MSISDN a) (MPIN a) n ns (int_sub n n) ty r ts).
    split; [|repeat split].
    exists data. split; [exact Hm|]. apply lookup_insert_eq.
  - intros k' Hk. apply lookup_insert_ne. congruence.
Qed.

Lemma UpdateAsset_identity_witness :
  (∃ a', stores (snd (UpdateAsset (quietCtx sampleTime) "1234567890" "500" "Active"
                        "Credit" "top-up" seededLedger)) "1234567890" a'
         ∧ DealerID a' = "D001" ∧ MPIN a' = "1234" ∧ MSISDN a' = "1234567890")
  ∧ ∀ k', k' ≠ "1234567890" ->
          snd (UpdateAsset (quietCtx sampleTime) "1234567890" "500" "Active"
                 "Credit" "top-up" seededLedger) !! k'
          = seededLedger !! k'.
Proof.
  apply (UpdateAsset_identity (quietCtx sampleTime) "1234567890" "500" "Active"
           "Credit" "top-up" seededLedger _
           (mkAsset "D001" "1234567890" "1234" 1000 "Active" 0 "" "" time.zero)).
  - vm_compute. reflexivity.
  - vm_compute. reflexivity.
Defined.

(** ** Initialization *)

(** C7. [InitLedger] serializes and puts the two seed records in turn,
    each under its MSISDN.  It reads nothing, so what the two keys held
    before is overwritten; the first failure ends it, with the error of
    [json.Marshal] as it is or the error of [PutState] wrapped, and with
    only the earlier record written.  On success the two keys hold the
    seeds and every other key is as before. *)
Theorem InitLedger_seeds `{Codec} ctx w :
  let s1 := mkAsset "D001" "1234567890" "1234" 1000 "Active" 0 "" "" time.zero in
  let s2 := mkAsset "D002" "9876543210" "5678" 1500 "Active" 0 "" "" time.zero in
  InitLedger ctx w =
    match Marshal s1 with
    | Err e => (Err e, w)
    | Ok d1 =>
      match putStateErr ctx "1234567890" d1 with
      | Some e => (Err (StoreWriteError e), w)
      | None =>
        match Marshal s2 with
        | Err e => (Err e, <["1234567890" := d1]> w)
        | Ok d2 =>
          match putStateErr ctx "9876543210" d2 with
          | Some e => (Err (StoreWriteError e), <["1234567890" := d1]> w)
          | None => (Ok (), <["9876543210" := d2]> (<["1234567890" := d1]> w))
          end
        end
      end
    end
  ∧ (∀ g, InitLedger ctx w
          = InitLedger {| getStateErr := g; putStateErr := putStateErr ctx;
                          txTimestamp := txTimestamp ctx |} w)
  ∧ (∀ w', InitLedger ctx w = (Ok (), w') ->
           stores w' "1234567890" s1 ∧ stores w' "9876543210" s2
           ∧ ∀ k, k ≠ "1234567890" -> k ≠ "9876543210" -> w' !! k = w !! k).
Proof.
  intros s1 s2. split; [apply InitLedger_eq|]. split.
  - intros g. rewrite !InitLedger_eq. reflexivity.
  - intros w'. rewrite InitLedger_eq. fold s1 s2.
    destruct (Marshal s1) as [d1|] eqn:H1; [|discriminate].
    destruct (putStateErr ctx "1234567890" d1); [discriminate|].
    destruct (Marshal s2) as [d2|] eqn:H2; [|discriminate].
    destruct (putStateErr ctx "9876543210" d2); [discriminate|].
    intros [= <-]. split; [|split].
    + exists d1. split; [exact H1|].
      rewrite lookup_insert_ne by discriminate. apply lookup_insert_eq.
    + exists d2. split; [exact H2|]. apply lookup_insert_eq.
    + intros k Hk1 Hk2. rewrite !lookup_insert_ne by congruence. reflexivity.
Qed.

Lemma InitLedger_seeds_witness :
  let w := <["1234567890" := "stale"]> ∅ in
  let w' := snd (InitLedger (quietCtx sampleTime) w) in
  stores w' "1234567890"
    (mkAsset "D001" "1234567890" "1234" 1000 "Active" 0 "" "" time.zero)
  ∧ stores w' "9876543210"
      (mkAsset "D002" "9876543210" "5678" 1500 "Active" 0 "" "" time.zero)
  ∧ ∀ k, k ≠ "1234567890" -> k ≠ "9876543210" -> w' !! k = w !! k.
Proof.
  intros w w'.
  apply (proj2 (proj2 (InitLedger_seeds (quietCtx sampleTime) w))).
  vm_compute. reflexivity.
Defined.

(** [InitLedger] on an empty world state: the two seed records exist and
    read back as they were written. *)
Lemma InitLedger_readable :
  fst (InitLedger (quietCtx sampleTime) ∅) = Ok ()
  ∧ AssetExists (quietCtx sampleTime) "1234567890" seededLedger = (Ok true, seededLedger)
  ∧ AssetExists (quietCtx sampleTime) "9876543210" seededLedger = (Ok true, seededLedger)
  ∧ fst (ReadAsset (quietCtx sampleTime) "1234567890" seededLedger)
    = Ok (mkAsset "D001" "1234567890" "1234" 1000 "Active" 0 "" "" time.zero)
  ∧ fst (ReadAsset (quietCtx sampleTime) "9876543210" seededLedger)
    = Ok (mkAsset "D002" "9876543210" "5678" 1500 "Active" 0 "" "" time.zero).
Proof. split; [|split; [|split; [|split]]]; vm_compute; reflexivity. Qed.

(** ** The record on the wire *)

(** C8. A valid record, serialized and deserialized, is the same record
    in every field. *)
Theorem Asset_round_trip a :
  validAsset a = true ->
  ∃ data, json.marshal a = Ok data ∧ json.unmarshal data = Ok a.
Proof.
  intros Hv. pose proof Hv as Hv'. unfold validAsset in Hv'.
  repeat (apply andb_true_iff in Hv' as [Hv' ?]).
  destruct (json_facts.unmarshal_marshal a) as (data & Hm & Hu); try assumption.
  rewrite (json_facts.coerceAsset_valid a Hv) in Hu. eauto.
Qed.

Lemma Asset_round_trip_witness :
  ∃ data,
    json.marshal (mkAsset "D001" "1234567890" "1234" (-25) "Active <né>" 500
                    "Credit" "top-up" (time.Unix 1700000000 120000000)) = Ok data
    ∧ json.unmarshal data
      = Ok (mkAsset "D001" "1234567890" "1234" (-25) "Active <né>" 500
              "Credit" "top-up" (time.Unix 1700000000 120000000)).
Proof.
  apply (Asset_round_trip
           (mkAsset "D001" "1234567890" "1234" (-25) "Active <né>" 500
              "Credit" "top-up" (time.Unix 1700000000 120000000))).
  vm_compute. reflexivity.
Defined.

(** ** Keys and MSISDNs *)

Lemma parseDigits_nonneg ds : ∀ n m,
  0 <= n -> strconv.parseDigits ds n = inr m -> 0 <= m.
Proof.
  induction ds as [|c ds IH]; intros n m Hn; cbn [strconv.parseDigits].
  - now intros [= <-].
  - destruct (strconv.isDigit c); [|discriminate].
    destruct (strconv.cutoff <=? n); [discriminate|]. cbv zeta.
    destruct (_ || _); [discriminate|].
    apply IH. apply Z.mod_pos_bound. reflexivity.
Qed.

(** What [Atoi] returns is an [int]. *)
Lemma Atoi_range s n : strconv.Atoi s = Ok n -> is_int n = true.
Proof.
  unfold strconv.Atoi, strconv.ParseInt. destruct s as [|c t]; [discriminate|].
  destruct (if Ascii.eqb c "-" || Ascii.eqb c "+" then t else String c t);
    [discriminate|].
  destruct (strconv.parseDigits _ 0) as [range|un] eqn:Hp; [discriminate|].
  apply parseDigits_nonneg in Hp; [|lia].
  unfold is_int, minInt, maxInt.
  destruct (Ascii.eqb c "-"); cbn [negb andb].
  - destruct (Z.ltb_spec (2 ^ 63) un); [discriminate|]. intros [= <-].
    apply andb_true_iff. split; apply Z.leb_le; lia.
  - destruct (Z.leb_spec (2 ^ 63) un); [discriminate|]. intros [= <-].
    apply andb_true_iff. split; apply Z.leb_le; lia.
Qed.

(** Putting the serialization of a readable record under its own MSISDN
    keeps every key [keyed]. *)
Lemma keyed_insert (w : gmap string string) k a data :
  keyed w k -> Marshal a = Ok data ->
  is_int (Balance a) = true -> is_int (TransAmount a) = true ->
  validTime (Timestamp a) = true ->
  keyed (<[MSISDN a := data]> w) k.
Proof.
  intros Hk Hm Hb Ht Hv data' Hl.
  destruct (decide (MSISDN a = k)) as [<-|Hne].
  - rewrite lookup_insert_eq in Hl. injection Hl as <-. eauto 10.
  - rewrite lookup_insert_ne in Hl by assumption. apply Hk, Hl.
Qed.

Lemma keyed_insert_other (w : gmap string string) k k' data :
  keyed w k -> k' ≠ k -> keyed (<[k' := data]> w) k.
Proof.
  intros Hk Hne data' Hl. rewrite lookup_insert_ne in Hl by assumption.
  apply Hk, Hl.
Qed.

(** Under a UTF-8 key that is [keyed], [ReadAsset] returns a record with
    that key as its MSISDN, and integers that are [int]s. *)
Lemma keyed_read (w : gmap string string) ctx k a :
  utf8.ValidString k = true -> keyed w k ->
  fst (ReadAsset ctx k w) = Ok a ->
  MSISDN a = k ∧ is_int (Balance a) = true ∧ is_int (TransAmount a) = true.
Proof.
  intros Hutf Hk. rewrite ReadAsset_eq.
  destruct (getStateErr ctx k); [discriminate|].
  destruct (payload (w !! k)) as [v|] eqn:Hp; [|discriminate].
  apply payload_Some in Hp as [Hw _].
  destruct (Hk v Hw) as (a0 & Hm & Hkey & Hb & Ht & Hv).
  destruct (json_facts.unmarshal_marshal a0 Hb Ht Hv) as (data & Hm' & Hu).
  cbn [Marshal Unmarshal json.encoding] in *.
  rewrite Hm in Hm'. injection Hm' as <-. rewrite Hu. cbn [fst].
  intros [= <-]. cbn [coerceAsset MSISDN Balance TransAmount].
  rewrite Hkey, (jsonstring_facts.toValidUTF8_valid k Hutf). auto.
Qed.

Lemma invoke_keyed ctx i (w : gmap string string) k :
  utf8.ValidString k = true -> typed i = true ->
  keyed w k -> keyed (invoke ctx i w) k.
Proof.
  intros Hutf Hty Hk. destruct i as [|d k' p b s ty r|k' nb ns ty r]; cbn [invoke].
  - rewrite InitLedger_eq.
    set (s1 := mkAsset "D001" "1234567890" "1234" 1000 "Active" 0 "" "" time.zero).
    set (s2 := mkAsset "D002" "9876543210" "5678" 1500 "Active" 0 "" "" time.zero).
    destruct (Marshal s1) as [d1|] eqn:H1; [|exact Hk].
    assert (Hk1 : keyed (<["1234567890" := d1]> w) k)
      by (apply (keyed_insert w k s1 d1 Hk H1); reflexivity).
    destruct (putStateErr ctx "1234567890" d1); [exact Hk|].
    destruct (Marshal s2) as [d2|] eqn:H2; [|exact Hk1].
    destruct (putStateErr ctx "9876543210" d2); [exact Hk1|].
    apply (keyed_insert _ k s2 d2 Hk1 H2); reflexivity.
  - destruct (CreateAsset ctx d k' p b s ty r w) as [[[]|e] w'] eqn:Hc; cbn [snd].
    + destruct (CreateAsset_ok _ _ _ _ _ _ _ _ _ _ Hc)
        as (_ & _ & pb & ts & data & _ & Hts & Hm & _ & ->).
      apply (keyed_insert w k (mkAsset d k' p b s 0 "" "" ts) data Hk Hm).
      * exact Hty.
      * reflexivity.
      * apply (Timestamp_valid pb ts Hts).
    + rewrite (CreateAsset_err _ _ _ _ _ _ _ _ _ _ _ Hc). exact Hk.
  - destruct (UpdateAsset ctx k' nb ns ty r w) as [[[]|e] w'] eqn:Hu; cbn [snd].
    + destruct (UpdateAsset_ok _ _ _ _ _ _ _ _ Hu)
        as (a & n & pb & ts & data & Hr & Hn & _ & Hts & Hm & _ & ->).
      destruct (decide (k' = k)) as [->|Hne]; [|now apply keyed_insert_other].
      assert (Hr' : fst (ReadAsset ctx k w) = Ok a) by now rewrite Hr.
      destruct (keyed_read w ctx k a Hutf Hk Hr') as (Hkey & _ & _).
      rewrite Hkey in Hm.
      apply (keyed_insert w k (mkAsset (DealerID a) k (MPIN a) n ns (int_sub n n) ty r ts)
               data Hk Hm).
      * apply (Atoi_range nb n Hn).
      * rewrite int_sub_diag. reflexivity.
      * apply (Timestamp_valid pb ts Hts).
    + rewrite (UpdateAsset_err _ _ _ _ _ _ _ _ _ Hu). exact Hk.
Qed.

(** On a ledger built from the empty one by invocations of the contract,
    on any platform, whatever is stored under a UTF-8 key is the
    serialization of a record with that key as its MSISDN, and reading the
    key returns a record with that key as its MSISDN. *)
Lemma built_keyed (w : gmap string string) k :
  built typed w -> utf8.ValidString k = true ->
  keyed w k ∧ ∀ ctx a, fst (ReadAsset ctx k w) = Ok a -> MSISDN a = k.
Proof.
  intros Hb Hutf.
  assert (Hk : keyed w k).
  { induction Hb as [|ctx i w Hb IH Hty].
    - intros data Hl. rewrite lookup_empty in Hl. discriminate Hl.
    - now apply invoke_keyed. }
  split; [exact Hk|].
  intros ctx a Hr. now destruct (keyed_read w ctx k a Hutf Hk Hr).
Qed.

Lemma ledger_built `{Codec} w : ledger w -> built typed w.
Proof.
  induction 1 as [|ctx i w _ IH _ Hty]; [apply built_empty|].
  now apply built_invoke.
Qed.

Lemma strictCtx_utf8Keys ts : utf8Keys (strictCtx ts).
Proof.
  intros key value Hkey. cbn [strictCtx putStateErr]. rewrite Hkey. discriminate.
Qed.

(** On a platform that refuses them, an invocation leaves the keys that
    are not UTF-8 as they were. *)
Lemma invoke_utf8Keys `{Codec} ctx i w k :
  utf8Keys ctx -> utf8.ValidString k = false -> invoke ctx i w !! k = w !! k.
Proof.
  intros Hctx Hk. destruct i as [|d k' p b s ty r|k' nb ns ty r]; cbn [invoke].
  - assert (H1 : "1234567890" ≠ k) by (intros <-; vm_compute in Hk; discriminate Hk).
    assert (H2 : "9876543210" ≠ k) by (intros <-; vm_compute in Hk; discriminate Hk).
    rewrite InitLedger_eq.
    destruct (Marshal _) as [d1|]; [|reflexivity].
    destruct (putStateErr ctx "1234567890" d1); [reflexivity|].
    destruct (Marshal _) as [d2|]; cbn [snd];
      [|now rewrite lookup_insert_ne by exact H1].
    destruct (putStateErr ctx "9876543210" d2); cbn [snd].
    + now rewrite lookup_insert_ne by exact H1.
    + rewrite lookup_insert_ne by exact H2. now rewrite lookup_insert_ne by exact H1.
  - destruct (CreateAsset ctx d k' p b s ty r w) as [[[]|e] w'] eqn:Hc; cbn [snd].
    + destruct (CreateAsset_ok _ _ _ _ _ _ _ _ _ _ Hc)
        as (_ & _ & pb & ts & data & _ & _ & _ & Hput & ->).
      apply lookup_insert_ne. intros ->. exact (Hctx k data Hk Hput).
    + now rewrite (CreateAsset_err _ _ _ _ _ _ _ _ _ _ _ Hc).
  - destruct (UpdateAsset ctx k' nb ns ty r w) as [[[]|e] w'] eqn:Hu; cbn [snd].
    + destruct (UpdateAsset_ok _ _ _ _ _ _ _ _ Hu)
        as (a & n & pb & ts & data & _ & _ & _ & _ & _ & Hput & ->).
      apply lookup_insert_ne. intros ->. exact (Hctx k data Hk Hput).
    + now rewrite (UpdateAsset_err _ _ _ _ _ _ _ _ _ Hu).
Qed.

(** Every key of a ledger is UTF-8. *)
Lemma ledger_keys `{Codec} w k :
  ledger w -> utf8.ValidString k = false -> w !! k = None.
Proof.
  intros Hl Hk. induction Hl as [|ctx i w _ IH Hctx _]; [apply lookup_empty|].
  now rewrite (invoke_utf8Keys ctx i w k Hctx Hk).
Qed.

(** C10. On a ledger built from the empty one by [InitLedger],
    [CreateAsset] and [UpdateAsset], on a platform that refuses a put
    under a key that is not UTF-8, for every key: whatever is stored under
    the key is the serialization of a record with that key as its MSISDN,
    and reading the key, when it succeeds, returns a record with that key
    as its MSISDN. *)
Theorem ledger_keyed (w : gmap string string) k :
  ledger w ->
  keyed w k ∧ ∀ ctx a, fst (ReadAsset ctx k w) = Ok a -> MSISDN a = k.
Proof.
  intros Hl. destruct (utf8.ValidString k) eqn:Hutf.
  - apply built_keyed; [apply ledger_built, Hl|exact Hutf].
  - pose proof (ledger_keys w k Hl Hutf) as Hnone. split.
    + intros data Hd. rewrite Hnone in Hd. discriminate Hd.
    + intros ctx a. rewrite ReadAsset_eq, Hnone.
      destruct (getStateErr ctx k); discriminate.
Qed.

Lemma ledger_keyed_witness :
  let w := invoke (strictCtx sampleTime)
             (InvokeUpdateAsset "5550000000" "300" "Active" "Debit" "fee")
             (invoke (strictCtx sampleTime)
                (InvokeCreateAsset "D004" octetFF "9999" 10 "Active" "" "")
                (invoke (strictCtx sampleTime)
                   (InvokeCreateAsset "D003" "5550000000" "4321" 250 "Active" "" "")
                   ∅)) in
  keyed w "5550000000"
  ∧ ∀ ctx a, fst (ReadAsset ctx "5550000000" w) = Ok a -> MSISDN a = "5550000000".
Proof.
  intros w. apply (ledger_keyed w "5550000000").
  repeat (apply ledger_invoke; [|apply strictCtx_utf8Keys|reflexivity]).
  apply ledger_empty.
Defined.

(** * Further properties of the contract *)

(** ** Failures write nothing *)

(** X1. [UpdateAsset] reads before it looks at the new balance: when the
    read fails, that failure is returned wrapped, whatever the other
    arguments, and nothing is written; in particular on a key that holds
    nothing the error is [NotFound]. *)
Theorem UpdateAsset_missing_key `{Codec} ctx k nb ns ty r w :
  (∀ e, fst (ReadAsset ctx k w) = Err e ->
        UpdateAsset ctx k nb ns ty r w = (Err (ReadFailed e), w))
  ∧ (getStateErr ctx k = None -> w !! k = None ->
     UpdateAsset ctx k nb ns ty r w = (Err (ReadFailed (NotFound k)), w)).
Proof.
  assert (Hgen : ∀ e, fst (ReadAsset ctx k w) = Err e ->
            UpdateAsset ctx k nb ns ty r w = (Err (ReadFailed e), w)).
  { intros e He. rewrite UpdateAsset_eq.
    destruct (ReadAsset ctx k w) as [[a|e0] w0]; [discriminate He|].
    cbn [fst] in He. now injection He as ->. }
  split; [exact Hgen|].
  intros Hg Hw. apply Hgen. rewrite ReadAsset_eq, Hg, Hw. reflexivity.
Qed.

Lemma UpdateAsset_missing_key_witness :
  UpdateAsset (quietCtx sampleTime) "5550000000" "not a number" "Active" "Credit"
    "top-up" seededLedger
  = (Err (ReadFailed (NotFound "5550000000")), seededLedger).
Proof.
  apply (proj2 (@UpdateAsset_missing_key json.encoding (quietCtx sampleTime)
                  "5550000000" "not a number" "Active" "Credit" "top-up"
                  seededLedger)).
  - reflexivity.
  - vm_compute. reflexivity.
Defined.

(** X2. [CreateAsset] is all or nothing: whatever makes it fail (a read
    failure, an existing key, a bad timestamp, a rejected write), a failed
    call leaves the world state as it was. *)
Theorem CreateAsset_all_or_nothing `{Codec} ctx d k p b s ty r w e :
  fst (CreateAsset ctx d k p b s ty r w) = Err e ->
  snd (CreateAsset ctx d k p b s ty r w) = w.
Proof.
  destruct (CreateAsset ctx d k p b s ty r w) as [[[]|e0] w'] eqn:Hc; cbn [fst snd].
  - discriminate.
  - intros _. apply (CreateAsset_err _ _ _ _ _ _ _ _ _ _ _ Hc).
Qed.

Lemma CreateAsset_all_or_nothing_witness :
  snd (CreateAsset (quietCtx sampleTime) "D009" "1234567890" "0000" 7 "Active" "" ""
         seededLedger) = seededLedger.
Proof.
  apply (@CreateAsset_all_or_nothing json.encoding (quietCtx sampleTime)
           "D009" "1234567890" "0000" 7 "Active" "" "" seededLedger
           (AlreadyExists "1234567890")).
  vm_compute. reflexivity.
Defined.

(** X3. [UpdateAsset] is all or nothing as well: a failed call leaves the
    world state as it was; and a call neither adds a key nor removes one,
    it only replaces the value of a key that held one. *)
Theorem UpdateAsset_all_or_nothing `{Codec} ctx k nb ns ty r w :
  (∀ e, fst (UpdateAsset ctx k nb ns ty r w) = Err e ->
        snd (UpdateAsset ctx k nb ns ty r w) = w)
  ∧ dom (snd (UpdateAsset ctx k nb ns ty r w)) = dom w.
Proof.
  destruct (UpdateAsset ctx k nb ns ty r w) as [[[]|e0] w'] eqn:Hu; cbn [fst snd].
  - split; [discriminate|].
    destruct (UpdateAsset_ok _ _ _ _ _ _ _ _ Hu)
      as (a & n & pb & ts & data & Hr & _ & _ & _ & _ & _ & ->).
    rewrite ReadAsset_eq in Hr.
    destruct (getStateErr ctx k); [discriminate Hr|].
    destruct (payload (w !! k)) as [v|] eqn:Hp; [|discriminate Hr].
    apply payload_Some in Hp as [Hw _].
    apply dom_insert_lookup_L. rewrite Hw. eauto.
  - rewrite (UpdateAsset_err _ _ _ _ _ _ _ _ _ Hu). split; reflexivity.
Qed.

Lemma UpdateAsset_all_or_nothing_witness :
  snd (UpdateAsset (quietCtx sampleTime) "1234567890" "12x" "Active" "Credit"
         "top-up" seededLedger) = seededLedger.
Proof.
  apply (proj1 (@UpdateAsset_all_or_nothing json.encoding (quietCtx sampleTime)
                  "1234567890" "12x" "Active" "Credit" "top-up" seededLedger)
           (InvalidBalanceFormat (NumError "Atoi" "12x" false))).
  vm_compute. reflexivity.
Defined.

(** ** What a successful call stores *)

(** X4. A successful [UpdateAsset] stores the record it read with the
    balance the text parses to, the new status, type and remarks, the
    instant of the transaction timestamp, and the amount 0. *)
Theorem UpdateAsset_record `{Codec} ctx k nb ns ty r w w' :
  UpdateAsset ctx k nb ns ty r w = (Ok (), w') ->
  ∃ a n pb ts,
    fst (ReadAsset ctx k w) = Ok a ∧ strconv.Atoi nb = Ok n
    ∧ txTimestamp ctx = Ok pb ∧ ptypes.Timestamp pb = Ok ts
    ∧ stores w' k (mkAsset (DealerID a) (MSISDN a) (MPIN a) n ns 0 ty r ts).
Proof.
  intros Hu.
  destruct (UpdateAsset_ok _ _ _ _ _ _ _ _ Hu)
    as (a & n & pb & ts & data & Hr & Hn & Hpb & Hts & Hm & _ & ->).
  rewrite int_sub_diag in Hm.
  exists a, n, pb, ts. rewrite Hr. repeat split; try assumption.
  exists data. split; [exact Hm|]. apply lookup_insert_eq.
Qed.

Lemma UpdateAsset_record_witness :
  ∃ a n pb ts,
    fst (ReadAsset (quietCtx sampleTime) "9876543210" seededLedger) = Ok a
    ∧ strconv.Atoi "-40" = Ok n
    ∧ txTimestamp (quietCtx sampleTime) = Ok pb ∧ ptypes.Timestamp pb = Ok ts
    ∧ stores (snd (UpdateAsset (quietCtx sampleTime) "9876543210" "-40" "Blocked"
                     "Debit" "overdraft" seededLedger))
             "9876543210"
             (mkAsset (DealerID a) (MSISDN a) (MPIN a) n "Blocked" 0 "Debit"
                      "overdraft" ts).
Proof.
  apply (@UpdateAsset_record json.encoding (quietCtx sampleTime) "9876543210" "-40"
           "Blocked" "Debit" "overdraft" seededLedger).
  vm_compute. reflexivity.
Defined.

(** X5. Both writing operations stamp the record with the transaction
    timestamp of the platform, which they accept only from year 1 to year
    9999 and with nanoseconds within a second: the stored instant is never
    taken from an argument. *)
Theorem stored_timestamp `{Codec} ctx d k p b s nb ns ty r w w' :
  CreateAsset ctx d k p b s ty r w = (Ok (), w')
  ∨ UpdateAsset ctx k nb ns ty r w = (Ok (), w') ->
  ∃ sec nsec a,
    txTimestamp ctx = Ok (Some (ptypes.mkTimestamp sec nsec))
    ∧ ptypes.minValidSeconds <= sec < ptypes.maxValidSeconds
    ∧ 0 <= nsec < 1000000000
    ∧ stores w' k a ∧ Timestamp a = time.Unix sec nsec.
Proof.
  assert (Hts : ∀ pb ts, ptypes.Timestamp pb = Ok ts ->
            ∃ sec nsec, pb = Some (ptypes.mkTimestamp sec nsec)
              ∧ ptypes.minValidSeconds <= sec < ptypes.maxValidSeconds
              ∧ 0 <= nsec < 1000000000 ∧ ts = time.Unix sec nsec).
  { intros [[sec nsec]|] ts; [|discriminate]. unfold ptypes.Timestamp.
    cbn [ptypes.Seconds ptypes.Nanos].
    destruct (Z.ltb_spec sec ptypes.minValidSeconds); [discriminate|].
    destruct (Z.leb_spec ptypes.maxValidSeconds sec); [discriminate|].
    destruct ((nsec <? 0) || (1000000000 <=? nsec)) eqn:Hn; [discriminate|].
    apply orb_false_iff in Hn as [Hlo Hhi].
    apply Z.ltb_ge in Hlo. apply Z.leb_gt in Hhi.
    intros [= <-]. exists sec, nsec. repeat split; assumption. }
  intros [Hc|Hu].
  - destruct (CreateAsset_ok _ _ _ _ _ _ _ _ _ _ Hc)
      as (_ & _ & pb & ts & data & Hpb & Hconv & Hm & _ & ->).
    destruct (Hts pb ts Hconv) as (sec & nsec & -> & Hsec & Hnsec & ->).
    exists sec, nsec, (mkAsset d k p b s 0 "" "" (time.Unix sec nsec)).
    repeat split; try assumption; try lia.
    exists data. split; [exact Hm|]. apply lookup_insert_eq.
  - destruct (UpdateAsset_ok _ _ _ _ _ _ _ _ Hu)
      as (a & n & pb & ts & data & _ & _ & Hpb & Hconv & Hm & _ & ->).
    destruct (Hts pb ts Hconv) as (sec & nsec & -> & Hsec & Hnsec & ->).
    eexists sec, nsec, _. repeat split; try assumption; try lia.
    + exists data. split; [exact Hm|]. apply lookup_insert_eq.
    + reflexivity.
Qed.

Lemma stored_timestamp_witness :
  ∃ sec nsec a,
    txTimestamp (quietCtx sampleTime) = Ok (Some (ptypes.mkTimestamp sec nsec))
    ∧ ptypes.minValidSeconds <= sec < ptypes.maxValidSeconds
    ∧ 0 <= nsec < 1000000000
    ∧ stores (snd (CreateAsset (quietCtx sampleTime) "D003" "5550000000" "4321" 250
                     "Active" "" "" seededLedger)) "5550000000" a
    ∧ Timestamp a = time.Unix sec nsec.
Proof.
  apply (@stored_timestamp json.encoding (quietCtx sampleTime) "D003" "5550000000"
           "4321" 250 "Active" "" "" "" "" seededLedger).
  left. vm_compute. reflexivity.
Defined.

(** ** Reading and existence *)

(** X6. Reading and the existence check agree: a key that [ReadAsset]
    reads exists, and [AssetExists] answers [false] exactly when
    [ReadAsset] answers [NotFound]. *)
Theorem ReadAsset_exists `{Codec} ctx k w :
  (∀ a, fst (ReadAsset ctx k w) = Ok a -> AssetExists ctx k w = (Ok true, w))
  ∧ (AssetExists ctx k w = (Ok false, w)
     ↔ ReadAsset ctx k w = (Err (NotFound k), w)).
Proof.
  rewrite AssetExists_eq, ReadAsset_eq.
  destruct (getStateErr ctx k); [repeat split; discriminate|].
  destruct (payload (w !! k)) as [v|].
  - split; [reflexivity|]. split; [discriminate|].
    destruct (Unmarshal v); discriminate.
  - split; [discriminate|]. split; reflexivity.
Qed.

Lemma ReadAsset_exists_witness :
  AssetExists (quietCtx sampleTime) "9876543210" seededLedger = (Ok true, seededLedger).
Proof.
  apply (proj1 (@ReadAsset_exists json.encoding (quietCtx sampleTime) "9876543210"
                  seededLedger)
           (mkAsset "D002" "9876543210" "5678" 1500 "Active" 0 "" "" time.zero)).
  vm_compute. reflexivity.
Defined.

(** ** What is written can be read *)

(** An instant [Time.MarshalJSON] accepts makes the record serializable. *)
Lemma marshal_total a :
  validTime (Timestamp a) = true -> ∃ data, json.marshal a = Ok data ∧ data ≠ "".
Proof.
  intros Hv.
  destruct (time_facts.readTime_MarshalJSON (Timestamp a) "" Hv) as (ts & Hts & _).
  unfold json.marshal. rewrite Hts. eexists. split; [reflexivity|discriminate].
Qed.

(** X7. After a successful [CreateAsset] the key exists and reads back as
    the record built from the arguments, stamped with the transaction
    time; strings that are UTF-8 come back as they were supplied. *)
Theorem CreateAsset_then_read ctx ctx' d k p b s ty r (w w' : gmap string string) :
  is_int b = true ->
  CreateAsset ctx d k p b s ty r w = (Ok (), w') ->
  getStateErr ctx' k = None ->
  AssetExists ctx' k w' = (Ok true, w')
  ∧ ∃ pb ts,
      txTimestamp ctx = Ok pb ∧ ptypes.Timestamp pb = Ok ts
      ∧ ReadAsset ctx' k w' = (Ok (coerceAsset (mkAsset d k p b s 0 "" "" ts)), w')
      ∧ (utf8.ValidString d && utf8.ValidString k && utf8.ValidString p
         && utf8.ValidString s = true ->
         ReadAsset ctx' k w' = (Ok (mkAsset d k p b s 0 "" "" ts), w')).
Proof.
  intros Hb Hc Hg.
  destruct (CreateAsset_ok _ _ _ _ _ _ _ _ _ _ Hc)
    as (_ & _ & pb & ts & data & Hpb & Hts & Hm & _ & ->).
  destruct (json_facts.unmarshal_marshal (mkAsset d k p b s 0 "" "" ts))
    as (data' & Hm' & Hu); [exact Hb|reflexivity|apply (Timestamp_valid pb ts Hts)|].
  cbn [Marshal json.encoding] in Hm. rewrite Hm in Hm'. injection Hm' as <-.
  destruct (marshal_total (mkAsset d k p b s 0 "" "" ts)
              (Timestamp_valid pb ts Hts)) as (data0 & Hm0 & Hne).
  rewrite Hm in Hm0. injection Hm0 as <-.
  assert (Hp : payload (<[k := data]> w !! k) = Some data).
  { apply payload_Some. split; [apply lookup_insert_eq|exact Hne]. }
  assert (Hread : ReadAsset ctx' k (<[k := data]> w)
                  = (Ok (coerceAsset (mkAsset d k p b s 0 "" "" ts)), <[k := data]> w)).
  { rewrite ReadAsset_eq, Hg, Hp. cbn [Unmarshal json.encoding]. rewrite Hu.
    reflexivity. }
  split; [rewrite AssetExists_eq, Hg, Hp; reflexivity|].
  exists pb, ts. repeat split; try assumption.
  intros Hutf. rewrite Hread. do 2 f_equal.
  apply json_facts.coerceAsset_valid. unfold validAsset.
  cbn [DealerID MSISDN MPIN Balance Status TransAmount TransType Remarks Timestamp].
  repeat (apply andb_true_iff in Hutf as [Hutf ?]).
  rewrite Hutf, Hb, (Timestamp_valid pb ts Hts).
  repeat match goal with H : utf8.ValidString _ = true |- _ => rewrite H; clear H end.
  reflexivity.
Qed.

Lemma CreateAsset_then_read_witness :
  let w' := snd (CreateAsset (quietCtx sampleTime) "D003" "5550000000" "4321" 250
                   "Active" "Credit" "opening" seededLedger) in
  AssetExists (quietCtx sampleTime) "5550000000" w' = (Ok true, w').
Proof.
  intros w'.
  apply (CreateAsset_then_read (quietCtx sampleTime) (quietCtx sampleTime) "D003"
           "5550000000" "4321" 250 "Active" "Credit" "opening" seededLedger w').
  - reflexivity.
  - vm_compute. reflexivity.
  - reflexivity.
Defined.

(** X8. After a successful [UpdateAsset] the key reads back with the new
    balance, the amount 0, and the new status, type and remarks (coerced to
    UTF-8), whatever record the key held before. *)
Theorem UpdateAsset_then_read ctx ctx' k nb ns ty r (w w' : gmap string string) :
  UpdateAsset ctx k nb ns ty r w = (Ok (), w') ->
  getStateErr ctx' k = None ->
  ∃ a n,
    strconv.Atoi nb = Ok n
    ∧ ReadAsset ctx' k w' = (Ok a, w')
    ∧ Balance a = n ∧ TransAmount a = 0
    ∧ Status a = jsonstring.toValidUTF8 ns
    ∧ TransType a = jsonstring.toValidUTF8 ty
    ∧ Remarks a = jsonstring.toValidUTF8 r.
Proof.
  intros Hu Hg.
  destruct (UpdateAsset_ok _ _ _ _ _ _ _ _ Hu)
    as (a & n & pb & ts & data & _ & Hn & _ & Hts & Hm & _ & ->).
  rewrite int_sub_diag in Hm.
  set (a' := mkAsset (DealerID a) (MSISDN a) (MPIN a) n ns 0 ty r ts) in *.
  destruct (json_facts.unmarshal_marshal a') as (data' & Hm' & Hun);
    [apply (Atoi_range nb n Hn)|reflexivity|apply (Timestamp_valid pb ts Hts)|].
  cbn [Marshal json.encoding] in Hm. rewrite Hm in Hm'. injection Hm' as <-.
  destruct (marshal_total a' (Timestamp_valid pb ts Hts)) as (data0 & Hm0 & Hne).
  rewrite Hm in Hm0. injection Hm0 as <-.
  assert (Hp : payload (<[k := data]> w !! k) = Some data).
  { apply payload_Some. split; [apply lookup_insert_eq|exact Hne]. }
  exists (coerceAsset a'), n. split; [exact Hn|]. split.
  - rewrite ReadAsset_eq, Hg, Hp. cbn [Unmarshal json.encoding]. rewrite Hun.
    reflexivity.
  - repeat split.
Qed.

Lemma UpdateAsset_then_read_witness :
  ∃ a n,
    strconv.Atoi "500" = Ok n
    ∧ ReadAsset (quietCtx sampleTime) "1234567890"
        (snd (UpdateAsset (quietCtx sampleTime) "1234567890" "500" "Active" "Credit"
                "top-up" seededLedger))
      = (Ok a, snd (UpdateAsset (quietCtx sampleTime) "1234567890" "500" "Active"
                      "Credit" "top-up" seededLedger))
    ∧ Balance a = n ∧ TransAmount a = 0
    ∧ Status a = jsonstring.toValidUTF8 "Active"
    ∧ TransType a = jsonstring.toValidUTF8 "Credit"
    ∧ Remarks a = jsonstring.toValidUTF8 "top-up".
Proof.
  apply (UpdateAsset_then_read (quietCtx sampleTime) (quietCtx sampleTime)
           "1234567890" "500" "Active" "Credit" "top-up" seededLedger).
  - vm_compute. reflexivity.
  - reflexivity.
Defined.

(** X9. [CreateAsset] succeeds whenever the key is free, the platform
    reads and writes, and the transaction timestamp is within years 1 to
    9999: no dealer, key, PIN, balance or status makes it fail, and
    serialization is never the obstacle. *)
Theorem CreateAsset_succeeds ctx d k p b s ty r (w : gmap string string) sec nsec :
  getStateErr ctx k = None ->
  w !! k = None ∨ w !! k = Some "" ->
  txTimestamp ctx = Ok (Some (ptypes.mkTimestamp sec nsec)) ->
  ptypes.minValidSeconds <= sec < ptypes.maxValidSeconds ->
  0 <= nsec < 1000000000 ->
  (∀ v, putStateErr ctx k v = None) ->
  ∃ data,
    json.marshal (mkAsset d k p b s 0 "" "" (time.Unix sec nsec)) = Ok data
    ∧ CreateAsset ctx d k p b s ty r w = (Ok (), <[k := data]> w).
Proof.
  intros Hg Hw Htx Hsec Hnsec Hput.
  assert (Hts : ptypes.Timestamp (Some (ptypes.mkTimestamp sec nsec))
                = Ok (time.Unix sec nsec)).
  { unfold ptypes.Timestamp. cbn [ptypes.Seconds ptypes.Nanos].
    destruct (Z.ltb_spec sec ptypes.minValidSeconds); [lia|].
    destruct (Z.leb_spec ptypes.maxValidSeconds sec); [lia|].
    destruct (Z.ltb_spec nsec 0); [lia|].
    destruct (Z.leb_spec 1000000000 nsec); [lia|]. reflexivity. }
  destruct (marshal_total (mkAsset d k p b s 0 "" "" (time.Unix sec nsec))
              (Timestamp_valid _ _ Hts)) as (data & Hm & _).
  exists data. split; [exact Hm|].
  rewrite CreateAsset_eq, Hg, Htx, Hts.
  apply payload_None in Hw. rewrite Hw.
  cbn [Marshal json.encoding]. rewrite Hm, Hput. reflexivity.
Qed.

Lemma CreateAsset_succeeds_witness :
  ∃ data,
    json.marshal (mkAsset octetFF "" "" (-1) "" 0 "" "" (time.Unix 1700000000 0))
    = Ok data
    ∧ CreateAsset (quietCtx sampleTime) octetFF "" "" (-1) "" "x" "y" seededLedger
      = (Ok (), <["" := data]> seededLedger).
Proof.
  apply (CreateAsset_succeeds (quietCtx sampleTime) octetFF "" "" (-1) "" "x" "y"
           seededLedger 1700000000 0).
  - reflexivity.
  - left. vm_compute. reflexivity.
  - reflexivity.
  - vm_compute. split; [discriminate|reflexivity].
  - lia.
  - reflexivity.
Defined.

(** X10. [UpdateAsset] succeeds whenever the key reads, the text is what
    [Atoi] accepts, the platform writes, and the transaction timestamp is
    within years 1 to 9999. *)
Theorem UpdateAsset_succeeds ctx k nb ns ty r (w : gmap string string) a n sec nsec :
  fst (ReadAsset ctx k w) = Ok a ->
  strconv.Atoi nb = Ok n ->
  txTimestamp ctx = Ok (Some (ptypes.mkTimestamp sec nsec)) ->
  ptypes.minValidSeconds <= sec < ptypes.maxValidSeconds ->
  0 <= nsec < 1000000000 ->
  (∀ v, putStateErr ctx k v = None) ->
  ∃ data,
    json.marshal (mkAsset (DealerID a) (MSISDN a) (MPIN a) n ns 0 ty r
                          (time.Unix sec nsec)) = Ok data
    ∧ UpdateAsset ctx k nb ns ty r w = (Ok (), <[k := data]> w).
Proof.
  intros Hr Hn Htx Hsec Hnsec Hput.
  assert (Hts : ptypes.Timestamp (Some (ptypes.mkTimestamp sec nsec))
                = Ok (time.Unix sec nsec)).
  { unfold ptypes.Timestamp. cbn [ptypes.Seconds ptypes.Nanos].
    destruct (Z.ltb_spec sec ptypes.minValidSeconds); [lia|].
    destruct (Z.leb_spec ptypes.maxValidSeconds sec); [lia|].
    destruct (Z.ltb_spec nsec 0); [lia|].
    destruct (Z.leb_spec 1000000000 nsec); [lia|]. reflexivity. }
  destruct (marshal_total (mkAsset (DealerID a) (MSISDN a) (MPIN a) n ns 0 ty r
                                   (time.Unix sec nsec))
              (Timestamp_valid _ _ Hts)) as (data & Hm & _).
  exists data. split; [exact Hm|].
  rewrite UpdateAsset_eq.
  destruct (ReadAsset ctx k w) as [[a0|e0] w0]; [|discriminate Hr].
  cbn [fst] in Hr. injection Hr as ->.
  rewrite Hn, Htx, Hts, int_sub_diag.
  cbn [Marshal json.encoding]. rewrite Hm, Hput. reflexivity.
Qed.

Lemma UpdateAsset_succeeds_witness :
  ∃ data,
    json.marshal (mkAsset "D001" "1234567890" "1234" (-7) "" 0 "" ""
                          (time.Unix 1700000000 0)) = Ok data
    ∧ UpdateAsset (quietCtx sampleTime) "1234567890" "-7" "" "" "" seededLedger
      = (Ok (), <["1234567890" := data]> seededLedger).
Proof.
  apply (UpdateAsset_succeeds (quietCtx sampleTime) "1234567890" "-7" "" "" ""
           seededLedger
           (mkAsset "D001" "1234567890" "1234" 1000 "Active" 0 "" "" time.zero)
           (-7) 1700000000 0).
  - vm_compute. reflexivity.
  - reflexivity.
  - reflexivity.
  - vm_compute. split; [discriminate|reflexivity].
  - lia.
  - reflexivity.
Defined.

(** ** Initialization, again *)

(** X11. With the JSON encoding the seed records always serialize, so
    [InitLedger] fails only through [PutState]: every error it returns is
    a wrapped write failure, and it succeeds on every world state when the
    platform accepts the two writes. *)
Theorem InitLedger_fails_only_on_put ctx (w : gmap string string) :
  (∀ e, fst (InitLedger ctx w) = Err e -> ∃ cause, e = StoreWriteError cause)
  ∧ ((∀ k v, putStateErr ctx k v = None) -> fst (InitLedger ctx w) = Ok ()).
Proof.
  rewrite InitLedger_eq.
  destruct (marshal_total (mkAsset "D001" "1234567890" "1234" 1000 "Active" 0 "" ""
                                   time.zero) eq_refl) as (d1 & H1 & _).
  destruct (marshal_total (mkAsset "D002" "9876543210" "5678" 1500 "Active" 0 "" ""
                                   time.zero) eq_refl) as (d2 & H2 & _).
  cbn [Marshal json.encoding]. rewrite H1, H2. split.
  - intros e.
    destruct (putStateErr ctx "1234567890" d1); [intros [= <-]; eauto|].
    destruct (putStateErr ctx "9876543210" d2); [intros [= <-]; eauto|].
    discriminate.
  - intros Hput. rewrite !Hput. reflexivity.
Qed.

Lemma InitLedger_fails_only_on_put_witness :
  fst (InitLedger (quietCtx sampleTime) seededLedger) = Ok ().
Proof.
  apply (proj2 (InitLedger_fails_only_on_put (quietCtx sampleTime) seededLedger)).
  reflexivity.
Defined.

(** X12. [InitLedger] is idempotent where it succeeds: run again on the
    ledger it produced, by a platform that accepts the writes, it succeeds
    and leaves that ledger as it is. *)
Theorem InitLedger_idempotent `{Codec} ctx ctx' w w1 :
  InitLedger ctx w = (Ok (), w1) ->
  (∀ k v, putStateErr ctx' k v = None) ->
  InitLedger ctx' w1 = (Ok (), w1).
Proof.
  rewrite !InitLedger_eq. intros H1 Hput.
  destruct (Marshal (mkAsset "D001" _ _ _ _ _ _ _ _)) as [d1|]; [|discriminate H1].
  destruct (putStateErr ctx "1234567890" d1); [discriminate H1|].
  destruct (Marshal (mkAsset "D002" _ _ _ _ _ _ _ _)) as [d2|]; [|discriminate H1].
  destruct (putStateErr ctx "9876543210" d2); [discriminate H1|].
  injection H1 as <-. rewrite !Hput. f_equal.
  apply map_eq. intros k.
  destruct (decide (k = "9876543210")) as [->|Hk2];
    [|destruct (decide (k = "1234567890")) as [->|Hk1]];
    repeat first [rewrite lookup_insert_eq | rewrite lookup_insert_ne by congruence];
    reflexivity.
Qed.

Lemma InitLedger_idempotent_witness :
  InitLedger (quietCtx sampleTime) seededLedger = (Ok (), seededLedger).
Proof.
  apply (@InitLedger_idempotent json.encoding (quietCtx sampleTime)
           (quietCtx sampleTime) ∅ seededLedger).
  - vm_compute. reflexivity.
  - reflexivity.
Defined.

(** X13. [InitLedger] resets the seed keys: after it succeeds, whatever
    the two keys held before (a record updated since, or anything else),
    they exist and read back as the seed records. *)
Theorem InitLedger_then_read ctx ctx' (w w' : gmap string string) :
  InitLedger ctx w = (Ok (), w') ->
  getStateErr ctx' "1234567890" = None -> getStateErr ctx' "9876543210" = None ->
  ReadAsset ctx' "1234567890" w'
  = (Ok (mkAsset "D001" "1234567890" "1234" 1000 "Active" 0 "" "" time.zero), w')
  ∧ ReadAsset ctx' "9876543210" w'
    = (Ok (mkAsset "D002" "9876543210" "5678" 1500 "Active" 0 "" "" time.zero), w').
Proof.
  rewrite InitLedger_eq. intros Hi Hg1 Hg2.
  destruct (Marshal (mkAsset "D001" _ _ _ _ _ _ _ _)) as [d1|] eqn:H1;
    [|discriminate Hi].
  destruct (putStateErr ctx "1234567890" d1); [discriminate Hi|].
  destruct (Marshal (mkAsset "D002" _ _ _ _ _ _ _ _)) as [d2|] eqn:H2;
    [|discriminate Hi].
  destruct (putStateErr ctx "9876543210" d2); [discriminate Hi|].
  injection Hi as <-.
  vm_compute in H1. injection H1 as <-. vm_compute in H2. injection H2 as <-.
  rewrite !ReadAsset_eq, Hg1, Hg2.
  rewrite lookup_insert_eq, lookup_insert_ne by discriminate.
  rewrite lookup_insert_eq. split; reflexivity.
Qed.

Lemma InitLedger_then_read_witness :
  let w := snd (UpdateAsset (quietCtx sampleTime) "1234567890" "500" "Active" "Credit"
                  "top-up" seededLedger) in
  let w' := snd (InitLedger (quietCtx sampleTime) w) in
  ReadAsset (quietCtx sampleTime) "1234567890" w'
  = (Ok (mkAsset "D001" "1234567890" "1234" 1000 "Active" 0 "" "" time.zero), w')
  ∧ ReadAsset (quietCtx sampleTime) "9876543210" w'
    = (Ok (mkAsset "D002" "9876543210" "5678" 1500 "Active" 0 "" "" time.zero), w').
Proof.
  intros w w'.
  apply (InitLedger_then_read (quietCtx sampleTime) (quietCtx sampleTime) w w').
  - vm_compute. reflexivity.
  - reflexivity.
  - reflexivity.
Defined.

(** ** What an invocation can change *)

(** The loop of [InitLedger] leaves every key that is the MSISDN of none of
    its records as it was, and removes no key. *)
Lemma putAssets_untouched `{Codec} ctx l : ∀ w k,
  k ∉ map MSISDN l -> snd (putAssets ctx l w) !! k = w !! k.
Proof.
  induction l as [|a l IH]; intros w k Hk; [reflexivity|].
  rewrite putAssets_cons.
  destruct (Marshal a) as [data|]; [|reflexivity].
  destruct (putStateErr ctx (MSISDN a) data); [reflexivity|].
  cbn [map] in Hk. apply not_elem_of_cons in Hk as [Hne Hk].
  rewrite (IH _ k Hk). apply lookup_insert_ne. congruence.
Qed.

Lemma putAssets_keeps `{Codec} ctx l : ∀ w k,
  is_Some (w !! k) -> is_Some (snd (putAssets ctx l w) !! k).
Proof.
  induction l as [|a l IH]; intros w k Hs; [exact Hs|].
  rewrite putAssets_cons.
  destruct (Marshal a) as [data|]; [|exact Hs].
  destruct (putStateErr ctx (MSISDN a) data); [exact Hs|].
  apply IH. rewrite lookup_insert.
  destruct (decide (MSISDN a = k)); [eauto|exact Hs].
Qed.

(** X14. The contract never removes a key and writes only where it was
    asked to: after any invocation, successful or failed, every key that
    held a value still holds one, and every key other than the two seed
    keys of [InitLedger], or the key given to [CreateAsset] or
    [UpdateAsset], holds what it held before. *)
Theorem invoke_frame `{Codec} ctx i w :
  (∀ k, k ∉ targets i -> invoke ctx i w !! k = w !! k)
  ∧ (∀ k, is_Some (w !! k) -> is_Some (invoke ctx i w !! k)).
Proof.
  destruct i as [|d k0 p b s ty r|k0 nb ns ty r]; cbn [invoke targets].
  - split; intros k; [apply putAssets_untouched|apply putAssets_keeps].
  - destruct (CreateAsset ctx d k0 p b s ty r w) as [[[]|e] w'] eqn:Hc; cbn [snd].
    + destruct (CreateAsset_ok _ _ _ _ _ _ _ _ _ _ Hc)
        as (_ & _ & pb & ts & data & _ & _ & _ & _ & ->).
      split; intros k Hk.
      * apply lookup_insert_ne. intros ->. apply Hk, list_elem_of_singleton.
        reflexivity.
      * rewrite lookup_insert. destruct (decide (k0 = k)); [eauto|exact Hk].
    + rewrite (CreateAsset_err _ _ _ _ _ _ _ _ _ _ _ Hc). split; auto.
  - destruct (UpdateAsset ctx k0 nb ns ty r w) as [[[]|e] w'] eqn:Hu; cbn [snd].
    + destruct (UpdateAsset_ok _ _ _ _ _ _ _ _ Hu)
        as (a & n & pb & ts & data & _ & _ & _ & _ & _ & _ & ->).
      split; intros k Hk.
      * apply lookup_insert_ne. intros ->. apply Hk, list_elem_of_singleton.
        reflexivity.
      * rewrite lookup_insert. destruct (decide (k0 = k)); [eauto|exact Hk].
    + rewrite (UpdateAsset_err _ _ _ _ _ _ _ _ _ Hu). split; auto.
Qed.

Lemma invoke_frame_witness :
  invoke (quietCtx sampleTime)
    (InvokeUpdateAsset "1234567890" "500" "Active" "Credit" "top-up") seededLedger
    !! "9876543210"
  = seededLedger !! "9876543210".
Proof.
  apply (proj1 (@invoke_frame json.encoding (quietCtx sampleTime)
                  (InvokeUpdateAsset "1234567890" "500" "Active" "Credit" "top-up")
                  seededLedger)).
  cbn [targets]. rewrite not_elem_of_cons. split; [discriminate|apply not_elem_of_nil].
Defined.

(** ** Ledgers the contract built can be read *)

(** What [toValidUTF8] returns is UTF-8. *)
Lemma valid_coerce n : ∀ s fc fv,
  (String.length s <= n)%nat -> (String.length s <= fc)%nat ->
  (String.length (jsonstring.coerceFuel fc s) <= fv)%nat ->
  utf8.validFuel fv (jsonstring.coerceFuel fc s) = true.
Proof.
  induction n as [|n IH]; intros [|c t] fc fv Hn Hfc Hfv;
    cbn [String.length] in *; try lia.
  - destruct fc, fv; reflexivity.
  - destruct fc, fv; reflexivity.
  - destruct fc as [|fc]; [lia|].
    cbn [jsonstring.coerceFuel] in *.
    destruct (utf8.DecodeRuneInString (String c t)) as [r size] eqn:Hd.
    unfold utf8.RuneSelf in *.
    destruct (Z.ltb_spec (byte c) 128) as [Hascii|Hmulti].
    + rewrite utf8_facts.DecodeRune_ascii in Hd by assumption.
      injection Hd as <- <-.
      destruct (Z.leb_spec 128 (byte c)) as [?|_]; [lia|]. cbn [andb] in *.
      cbn [take_prefix skip] in *. rewrite append_cons, append_nil_l in *.
      cbn [String.length] in Hfv. destruct fv as [|fv]; [lia|].
      cbn [utf8.validFuel].
      rewrite utf8_facts.DecodeRune_ascii by assumption. unfold utf8.RuneSelf.
      destruct (Z.leb_spec 128 (byte c)) as [?|_]; [lia|]. cbn [andb skip].
      apply IH; lia.
    + destruct (Z.leb_spec 128 (byte c)) as [_|?]; [|lia]. cbn [andb] in *.
      destruct (utf8_facts.DecodeRune_cases c t ltac:(lia))
        as [Hbad|(r' & size' & Hd' & Hsize & Henc & H4 & Hpre)].
      * rewrite Hbad in Hd. injection Hd as <- <-. cbn [Nat.eqb] in *.
        change (utf8.EncodeRune utf8.RuneError)
          with (String (chr 239) (String (chr 191) (String (chr 189) ""))) in *.
        rewrite !append_cons, append_nil_l in *.
        cbn [String.length] in Hfv. destruct fv as [|fv]; [lia|].
        cbn [utf8.validFuel].
        change (utf8.DecodeRuneInString
                  (String (chr 239) (String (chr 191)
                     (String (chr 189) (jsonstring.coerceFuel fc t)))))
          with (65533, 3%nat).
        cbn [skip]. change ((utf8.RuneSelf <=? byte (chr 239)) && (3 =? 1)%nat)
          with false. cbv iota.
        apply IH; lia.
      * rewrite Hd' in Hd. injection Hd as <- <-.
        assert (Hne : (size' =? 1)%nat = false) by (apply Nat.eqb_neq; lia).
        rewrite Hne in *.
        pose proof (utf8_facts.length_skip size' (String c t)) as Hlen.
        cbn [String.length] in Hlen, Hsize.
        rewrite length_append, utf8_facts.length_take in Hfv
          by (cbn [String.length]; lia).
        assert (Hhead : ∃ Y, take_prefix size' (String c t) = String c Y).
        { destruct size' as [|size']; [lia|]. cbn [take_prefix]. eauto. }
        destruct Hhead as [Y HY].
        pose proof (Hpre (jsonstring.coerceFuel fc (skip size' (String c t)))) as Hd2.
        destruct fv as [|fv]; [lia|].
        rewrite HY, append_cons in Hd2 |- *. cbn [utf8.validFuel].
        rewrite Hd2, Hne, andb_false_r.
        rewrite <- append_cons, <- HY, utf8_facts.skip_take
          by (cbn [String.length]; lia).
        apply IH; lia.
Qed.

Lemma toValidUTF8_idem s :
  jsonstring.toValidUTF8 (jsonstring.toValidUTF8 s) = jsonstring.toValidUTF8 s.
Proof.
  apply jsonstring_facts.toValidUTF8_valid. unfold utf8.ValidString.
  apply (valid_coerce (String.length s)); unfold jsonstring.toValidUTF8; lia.
Qed.

Lemma marshal_nonempty a data : json.marshal a = Ok data -> data ≠ "".
Proof.
  unfold json.marshal. destruct (time.MarshalJSON _); [|discriminate].
  intros [= <-]. discriminate.
Qed.

Lemma wellStored_insert (w : gmap string string) k a data :
  wellStored w -> Marshal a = Ok data ->
  is_int (Balance a) = true -> is_int (TransAmount a) = true ->
  validTime (Timestamp a) = true ->
  jsonstring.toValidUTF8 (MSISDN a) = jsonstring.toValidUTF8 k ->
  wellStored (<[k := data]> w).
Proof.
  intros Hw Hm Hb Ht Hv Hk k' data' Hl.
  destruct (decide (k = k')) as [<-|Hne].
  - rewrite lookup_insert_eq in Hl. injection Hl as <-. eauto 10.
  - rewrite lookup_insert_ne in Hl by assumption. apply (Hw k' data' Hl).
Qed.

(** On a [wellStored] ledger a read that reaches the world state either
    finds nothing or returns a record, whose MSISDN is the key coerced to
    UTF-8. *)
Lemma wellStored_read (w : gmap string string) ctx k :
  wellStored w -> getStateErr ctx k = None ->
  (w !! k = None ∧ ReadAsset ctx k w = (Err (NotFound k), w))
  ∨ ∃ a, ReadAsset ctx k w = (Ok a, w)
         ∧ MSISDN a = jsonstring.toValidUTF8 k
         ∧ is_int (Balance a) = true ∧ is_int (TransAmount a) = true
         ∧ validTime (Timestamp a) = true.
Proof.
  intros Hw Hg. rewrite ReadAsset_eq, Hg.
  destruct (w !! k) as [data|] eqn:Hl; [right|left; split; reflexivity].
  destruct (Hw k data Hl) as (a0 & Hm & Hb & Ht & Hv & Hk).
  destruct (json_facts.unmarshal_marshal a0 Hb Ht Hv) as (data' & Hm' & Hu).
  cbn [Marshal json.encoding] in Hm. rewrite Hm in Hm'. injection Hm' as <-.
  assert (Hp : payload (Some data) = Some data).
  { apply payload_Some. split; [reflexivity|apply (marshal_nonempty a0 data Hm)]. }
  rewrite Hp. cbn [Unmarshal json.encoding]. rewrite Hu.
  exists (coerceAsset a0). split; [reflexivity|].
  cbn [coerceAsset MSISDN Balance TransAmount Timestamp]. auto.
Qed.

Lemma invoke_wellStored ctx i (w : gmap string string) :
  typed i = true -> wellStored w -> wellStored (invoke ctx i w).
Proof.
  intros Hty Hw. destruct i as [|d k p b s ty r|k nb ns ty r]; cbn [invoke].
  - rewrite InitLedger_eq.
    set (s1 := mkAsset "D001" "1234567890" "1234" 1000 "Active" 0 "" "" time.zero).
    set (s2 := mkAsset "D002" "9876543210" "5678" 1500 "Active" 0 "" "" time.zero).
    destruct (Marshal s1) as [d1|] eqn:H1; [|exact Hw].
    assert (Hw1 : wellStored (<["1234567890" := d1]> w))
      by (apply (wellStored_insert w _ s1 d1 Hw H1); reflexivity).
    destruct (putStateErr ctx "1234567890" d1); [exact Hw|].
    destruct (Marshal s2) as [d2|] eqn:H2; [|exact Hw1].
    destruct (putStateErr ctx "9876543210" d2); [exact Hw1|].
    apply (wellStored_insert _ _ s2 d2 Hw1 H2); reflexivity.
  - destruct (CreateAsset ctx d k p b s ty r w) as [[[]|e] w'] eqn:Hc; cbn [snd].
    + destruct (CreateAsset_ok _ _ _ _ _ _ _ _ _ _ Hc)
        as (_ & _ & pb & ts & data & _ & Hts & Hm & _ & ->).
      apply (wellStored_insert w k (mkAsset d k p b s 0 "" "" ts) data Hw Hm).
      * exact Hty.
      * reflexivity.
      * apply (Timestamp_valid pb ts Hts).
      * reflexivity.
    + rewrite (CreateAsset_err _ _ _ _ _ _ _ _ _ _ _ Hc). exact Hw.
  - destruct (UpdateAsset ctx k nb ns ty r w) as [[[]|e] w'] eqn:Hu; cbn [snd].
    + destruct (UpdateAsset_ok _ _ _ _ _ _ _ _ Hu)
        as (a & n & pb & ts & data & Hr & Hn & _ & Hts & Hm & _ & ->).
      assert (Hg : getStateErr ctx k = None).
      { rewrite ReadAsset_eq in Hr. destruct (getStateErr ctx k); [discriminate Hr|].
        reflexivity. }
      destruct (wellStored_read w ctx k Hw Hg) as [[_ Hnf]|(a1 & Hr1 & Hk & _)].
      * rewrite Hr in Hnf. discriminate Hnf.
      * rewrite Hr in Hr1. injection Hr1 as <-.
        apply (wellStored_insert w k _ data Hw Hm).
        -- apply (Atoi_range nb n Hn).
        -- rewrite int_sub_diag. reflexivity.
        -- apply (Timestamp_valid pb ts Hts).
        -- cbn [MSISDN]. rewrite Hk. apply toValidUTF8_idem.
    + rewrite (UpdateAsset_err _ _ _ _ _ _ _ _ _ Hu). exact Hw.
Qed.

(** X15. What the contract wrote it can read: on a ledger built from the
    empty one by invocations of the contract, a read that reaches the world
    state never fails in [json.Unmarshal].  It answers [NotFound] for a key
    that holds nothing, and for any other key a record whose MSISDN is the
    key with every octet that is not UTF-8 replaced by U+FFFD, and whose
    integers are [int]s. *)
Theorem built_readable (w : gmap string string) ctx k :
  built typed w -> getStateErr ctx k = None ->
  (w !! k = None ∧ ReadAsset ctx k w = (Err (NotFound k), w))
  ∨ ∃ a, ReadAsset ctx k w = (Ok a, w)
         ∧ MSISDN a = jsonstring.toValidUTF8 k
         ∧ is_int (Balance a) = true ∧ is_int (TransAmount a) = true.
Proof.
  intros Hb Hg.
  assert (Hw : wellStored w).
  { induction Hb as [|ctx0 i w Hb IH Hty].
    - intros k0 data Hl. rewrite lookup_empty in Hl. discriminate Hl.
    - now apply invoke_wellStored. }
  destruct (wellStored_read w ctx k Hw Hg) as [Hnone|(a & Hr & Hk & Hbal & Hta & _)].
  - left. exact Hnone.
  - right. eauto.
Qed.

Lemma built_readable_witness :
  let w := invoke (quietCtx sampleTime)
             (InvokeUpdateAsset octetFF "300" "Active" "Debit" "fee")
             (invoke (quietCtx sampleTime)
                (InvokeCreateAsset "D003" octetFF "4321" 250 "Active" "" "") ∅) in
  (w !! octetFF = None
   ∧ ReadAsset (quietCtx sampleTime) octetFF w = (Err (NotFound octetFF), w))
  ∨ ∃ a, ReadAsset (quietCtx sampleTime) octetFF w = (Ok a, w)
         ∧ MSISDN a = jsonstring.toValidUTF8 octetFF
         ∧ is_int (Balance a) = true ∧ is_int (TransAmount a) = true.
Proof.
  intros w. apply (built_readable w (quietCtx sampleTime) octetFF).
  - apply built_invoke; [apply built_invoke; [apply built_empty|]|]; reflexivity.
  - reflexivity.
Defined.

(** ** The history of a key *)

Lemma historyLoop_step q it acc :
  historyLoop (Ok q :: it) acc
  = match entryOf q with
    | Err e => (inl (HistoryTimestampError e), [CallHasNext; CallNext])
    | Ok entry =>
        (fst (historyLoop it (acc ++ [entry])%list),
         CallHasNext :: CallNext :: snd (historyLoop it (acc ++ [entry])%list))
    end.
Proof.
  cbn [historyLoop]. unfold entryOf.
  destruct (ptypes.Timestamp (queryresult.Timestamp q)) as [ts|e]; [|reflexivity].
  cbv zeta. destruct (historyLoop it _) as [res calls]. reflexivity.
Qed.

Lemma historyLoop_ok it : ∀ acc h,
  fst (historyLoop it acc) = inr h
  ↔ ∃ ms h', it = map Ok ms ∧ map entryOf ms = map Ok h' ∧ h = (acc ++ h')%list.
Proof.
  induction it as [|next it IH]; intros acc h.
  - cbn [historyLoop fst]. split.
    + intros [= <-]. exists [], []. rewrite app_nil_r. auto.
    + intros ([|m ms] & h' & Hit & Hmap & ->); [|discriminate Hit].
      destruct h'; [|discriminate Hmap]. now rewrite app_nil_r.
  - destruct next as [q|e].
    + rewrite historyLoop_step. destruct (entryOf q) as [entry|e] eqn:Hq.
      * cbn [fst]. rewrite IH. split.
        -- intros (ms & h' & -> & Hmap & ->).
           exists (q :: ms), (entry :: h').
           cbn [map]. rewrite Hq, Hmap, <- app_assoc. auto.
        -- intros ([|m ms] & h' & Hit & Hmap & ->); [discriminate Hit|].
           cbn [map] in Hit. injection Hit as <- ->.
           destruct h' as [|e0 h']; [discriminate Hmap|].
           cbn [map] in Hmap. rewrite Hq in Hmap.
           injection Hmap as <- Hmap.
           exists ms, h'. rewrite <- app_assoc. auto.
      * cbn [fst]. split; [discriminate|].
        intros ([|m ms] & h' & Hit & Hmap & ->); [discriminate Hit|].
        cbn [map] in Hit. injection Hit as <- ->.
        destruct h'; cbn [map] in Hmap; [discriminate Hmap|].
        rewrite Hq in Hmap. discriminate Hmap.
    + cbn [historyLoop fst]. split; [discriminate|].
      intros ([|m ms] & h' & Hit & _); discriminate Hit.
Qed.

Lemma historyLoop_fail ms : ∀ acc h rest bad,
  map entryOf ms = map Ok h ->
  fst (historyLoop (map Ok ms ++ bad :: rest)%list acc)
  = fst (historyLoop (bad :: rest) (acc ++ h)%list).
Proof.
  induction ms as [|m ms IH]; intros acc h rest bad Hmap.
  - destruct h; [|discriminate Hmap]. now rewrite app_nil_r.
  - destruct h as [|e0 h]; [discriminate Hmap|].
    cbn [map] in Hmap. injection Hmap as Hm Hmap.
    cbn [map app]. rewrite historyLoop_step, Hm. cbn [fst].
    rewrite (IH _ h rest bad Hmap), <- app_assoc. reflexivity.
Qed.

Lemma historyLoop_calls it : ∀ acc,
  Forall (λ c, c = CallHasNext ∨ c = CallNext) (snd (historyLoop it acc))
  ∧ (length (snd (historyLoop it acc)) <= 2 * length it + 1)%nat.
Proof.
  induction it as [|next it IH]; intros acc.
  - cbn [historyLoop snd length]. split; [repeat (apply Forall_cons_2; [auto|]); first [assumption | apply Forall_nil_2]|lia].
  - destruct next as [q|e].
    + rewrite historyLoop_step. destruct (entryOf q) as [entry|e].
      * destruct (IH (acc ++ [entry])%list) as [IH1 IH2].
        cbn [snd length]. split; [repeat (apply Forall_cons_2; [auto|]); first [assumption | apply Forall_nil_2]|lia].
      * cbn [snd length]. split; [repeat (apply Forall_cons_2; [auto|]); first [assumption | apply Forall_nil_2]|lia].
    + cbn [historyLoop snd length]. split; [repeat (apply Forall_cons_2; [auto|]); first [assumption | apply Forall_nil_2]|lia].
Qed.

(** X16. [GetAssetHistory] returns entries exactly when the platform hands
    out an iterator, every [Next] succeeds and every commit time converts;
    it then returns one entry per modification, in the order of the
    iterator, each with the transaction id of its modification and an
    instant within years 1 to 9999; a key without history gives the empty
    list. *)
Theorem GetAssetHistory_entries stub k h :
  (fst (GetAssetHistory stub k) = inr h
   ↔ ∃ ms, stub k = Ok (map Ok ms) ∧ map entryOf ms = map Ok h)
  ∧ (fst (GetAssetHistory stub k) = inr h ->
     ∃ ms, stub k = Ok (map Ok ms)
           ∧ length h = length ms
           ∧ map history.TxID h = map queryresult.TxId ms
           ∧ Forall (λ e, validTime (history.Timestamp e) = true) h).
Proof.
  assert (Hiff : fst (GetAssetHistory stub k) = inr h
                 ↔ ∃ ms, stub k = Ok (map Ok ms) ∧ map entryOf ms = map Ok h).
  { unfold GetAssetHistory. destruct (stub k) as [it|e].
    - destruct (historyLoop it []) as [res calls] eqn:Hloop. cbn [fst].
      assert (Hres : res = fst (historyLoop it [])) by now rewrite Hloop.
      rewrite Hres, historyLoop_ok. split.
      + intros (ms & h' & -> & Hmap & ->). exists ms. auto.
      + intros (ms & [= ->] & Hmap). exists ms, h. auto.
    - cbn [fst]. split; [discriminate|]. intros (ms & Hs & _). discriminate Hs. }
  split; [exact Hiff|].
  intros Hh. apply Hiff in Hh as (ms & Hs & Hmap). exists ms.
  split; [exact Hs|]. clear Hs Hiff. revert h Hmap.
  induction ms as [|m ms IH]; intros [|e h] Hmap; try discriminate Hmap.
  - repeat split. constructor.
  - cbn [map] in Hmap. injection Hmap as Hm Hmap.
    destruct (IH h Hmap) as (Hlen & Hids & Hvalid).
    unfold entryOf in Hm.
    destruct (ptypes.Timestamp (queryresult.Timestamp m)) as [ts|] eqn:Hts;
      [|discriminate Hm].
    injection Hm as <-. cbn [length map history.TxID].
    rewrite Hlen, Hids. repeat split. constructor; [|exact Hvalid].
    cbn [history.Timestamp]. apply (Timestamp_valid _ _ Hts).
Qed.

Lemma GetAssetHistory_entries_witness :
  ∃ ms,
    (λ _, Ok [Ok (queryresult.mkKeyModification "tx2" (Some sampleTime));
              Ok (queryresult.mkKeyModification "tx1"
                    (Some (ptypes.mkTimestamp 1600000000 5)))]) "1234567890"
    = Ok (map Ok ms)
    ∧ length [history.mkAssetHistoryEntry "tx2" (time.Unix 1700000000 0);
              history.mkAssetHistoryEntry "tx1" (time.Unix 1600000000 5)]
      = length ms
    ∧ map history.TxID
        [history.mkAssetHistoryEntry "tx2" (time.Unix 1700000000 0);
         history.mkAssetHistoryEntry "tx1" (time.Unix 1600000000 5)]
      = map queryresult.TxId ms
    ∧ Forall (λ e, validTime (history.Timestamp e) = true)
        [history.mkAssetHistoryEntry "tx2" (time.Unix 1700000000 0);
         history.mkAssetHistoryEntry "tx1" (time.Unix 1600000000 5)].
Proof.
  apply (proj2 (GetAssetHistory_entries
                  (λ _, Ok [Ok (queryresult.mkKeyModification "tx2" (Some sampleTime));
                            Ok (queryresult.mkKeyModification "tx1"
                                  (Some (ptypes.mkTimestamp 1600000000 5)))])
                  "1234567890"
                  [history.mkAssetHistoryEntry "tx2" (time.Unix 1700000000 0);
                   history.mkAssetHistoryEntry "tx1" (time.Unix 1600000000 5)])).
  vm_compute. reflexivity.
Defined.

(** X17. [GetAssetHistory] stops at the first failure and returns no
    partial list: after modifications that convert, a failing [Next] gives
    the iteration error and a commit time that does not convert (also a
    missing one) gives the timestamp error, whatever the iterator would
    have yielded afterwards. *)
Theorem GetAssetHistory_first_failure stub k ms h bad rest :
  stub k = Ok (map Ok ms ++ bad :: rest)%list ->
  map entryOf ms = map Ok h ->
  (∀ e, bad = Err e ->
        fst (GetAssetHistory stub k) = inl (HistoryIterationError e))
  ∧ (∀ m e, bad = Ok m -> entryOf m = Err e ->
            fst (GetAssetHistory stub k) = inl (HistoryTimestampError e)).
Proof.
  intros Hs Hmap.
  assert (Hfst : fst (GetAssetHistory stub k)
                 = fst (historyLoop (bad :: rest) ([] ++ h)%list)).
  { unfold GetAssetHistory. rewrite Hs.
    rewrite <- (historyLoop_fail ms [] h rest bad Hmap).
    destruct (historyLoop _ []) as [res calls]. reflexivity. }
  rewrite Hfst. split.
  - intros e ->. reflexivity.
  - intros m e -> He. rewrite historyLoop_step, He. reflexivity.
Qed.

Lemma GetAssetHistory_first_failure_witness :
  fst (GetAssetHistory
         (λ _, Ok [Ok (queryresult.mkKeyModification "tx2" (Some sampleTime));
                   Ok (queryresult.mkKeyModification "tx1" None);
                   Ok (queryresult.mkKeyModification "tx0" (Some sampleTime))])
         "1234567890")
  = inl (HistoryTimestampError (ErrPlatform "timestamp: nil Timestamp")).
Proof.
  refine (proj2 (GetAssetHistory_first_failure
                   (λ _, Ok [Ok (queryresult.mkKeyModification "tx2" (Some sampleTime));
                             Ok (queryresult.mkKeyModification "tx1" None);
                             Ok (queryresult.mkKeyModification "tx0" (Some sampleTime))])
                   "1234567890"
                   [queryresult.mkKeyModification "tx2" (Some sampleTime)]
                   [history.mkAssetHistoryEntry "tx2" (time.Unix 1700000000 0)]
                   (Ok (queryresult.mkKeyModification "tx1" None))
                   [Ok (queryresult.mkKeyModification "tx0" (Some sampleTime))]
                   _ _)
            (queryresult.mkKeyModification "tx1" None)
            (ErrPlatform "timestamp: nil Timestamp") _ _);
    reflexivity.
Defined.

(** X18. [GetAssetHistory] releases the iterator on every path: when the
    platform hands one out, the calls are [GetHistoryForKey], then only
    [HasNext] and [Next] on the iterator (at most one [Next] per
    modification), then [Close], once and last; when it hands none out,
    nothing is called after [GetHistoryForKey]. *)
Theorem GetAssetHistory_closes stub k :
  (∀ e, stub k = Err e ->
        GetAssetHistory stub k = (inl (HistoryOpenError e), [CallGetHistoryForKey k]))
  ∧ (∀ it, stub k = Ok it ->
       ∃ calls,
         snd (GetAssetHistory stub k) = (CallGetHistoryForKey k :: calls ++ [CallClose])%list
         ∧ Forall (λ c, c = CallHasNext ∨ c = CallNext) calls
         ∧ (length calls <= 2 * length it + 1)%nat).
Proof.
  split.
  - intros e He. unfold GetAssetHistory. rewrite He. reflexivity.
  - intros it Hit. unfold GetAssetHistory. rewrite Hit.
    pose proof (historyLoop_calls it []) as [Hc Hl].
    destruct (historyLoop it []) as [res calls]. cbn [snd] in *.
    exists calls. auto.
Qed.

Lemma GetAssetHistory_closes_witness :
  ∃ calls,
    snd (GetAssetHistory
           (λ _, Ok [Ok (queryresult.mkKeyModification "tx2" (Some sampleTime));
                     Err (ErrPlatform "QUERY_STATE_NEXT failed")])
           "1234567890")
    = (CallGetHistoryForKey "1234567890" :: calls ++ [CallClose])%list
    ∧ Forall (λ c, c = CallHasNext ∨ c = CallNext) calls
    ∧ (length calls <= 2 * 2 + 1)%nat.
Proof.
  apply (proj2 (GetAssetHistory_closes
                  (λ _, Ok [Ok (queryresult.mkKeyModification "tx2" (Some sampleTime));
                            Err (ErrPlatform "QUERY_STATE_NEXT failed")])
                  "1234567890")
           [Ok (queryresult.mkKeyModification "tx2" (Some sampleTime));
            Err (ErrPlatform "QUERY_STATE_NEXT failed")]).
  reflexivity.
Defined.
